(** * SimplyMiply assembler (SMA.py) and disassembler (SMD.py)

    A shallow embedding of the two translators and the properties of the
    binary contract they share.

    Conventions of the embedding:
    - a Python [str] is a [string]; each [ascii] stands for one code point
      below 256, so [String.length] is Python's [len].  A text with a
      code point from 256 on (a decimal digit of another script, which
      the pattern for digits and [int()] accept, is one) is outside the
      embedding: every statement is about texts of code points below
      256, among which 0 to 9 are the only decimal digits;
    - a Python [int] is a [Z];
    - a raised exception is the [Raise] branch of [result]; the text of an
      exception message is kept as the constructor of [verr] together with
      the values interpolated in the message;
    - a [dict] keyed by strings is a [gmap string _];
    - CPython converts at most 4300 decimal digits (the default of
      [sys.get_int_max_str_digits()]): [int()] raises ValueError on a
      longer numeral, which is [Py.max_str_digits] in [Py.int].  [str()]
      has the same limit, which the two programs cannot reach: they
      apply it to numbers that [int()] has read, to the values of fields
      of at most 26 bits, to lengths and to line indexes.  Outside the
      programs [Py.str] stands for the decimal numeral of a number. *)

From Stdlib Require Import ZArith String Ascii List Lia.
From Stdlib Require Import DecimalString DecimalZ DecimalPos DecimalFacts.
From stdpp Require Import base gmap strings list.

Local Open Scope string_scope.
Local Open Scope list_scope.
Local Open Scope Z_scope.

(** ** Exceptions *)

(** Why an immediate was rejected: the inner exception whose text
    [parse_immediate] embeds in the one it raises. *)
Inductive imm_cause :=
| NotAnInteger                      (* int() raised ValueError on the text *)
| TooSmall (value bits : Z)         (* Immediate value .. too small for .. bits. *)
| TooLarge (value bits : Z)         (* Immediate value .. too large for .. bits. *)
| BadFormatSpec.                    (* format() rejected the width *)

(** One constructor per [raise ValueError(...)] of the two programs. *)
Inductive verr :=
| InvalidRegisterName (reg_str : string)
| InvalidImmediate (imm_str : string) (cause : imm_cause)
| InvalidMemoryAddress (mem_str : string)
| UnknownInstruction (op : string)
| OperandCount (op operands_str : string)
| UndefinedLabel (label : string)
| UndefinedVariable (label : string)          (* the ldad wording *)
| DuplicateLabel (label : string) (line_num : Z)
| InternalWidth (line : string) (len : Z)
| InvalidLiteral (base : Z) (text : string).   (* int(text, base) raised ValueError *)

Inductive exn :=
| ValueError (e : verr)
| NotImplementedError (op : string)
| IndexError
| FileNotFoundError.

Inductive result (A : Type) :=
| Ok (a : A)
| Raise (e : exn).
Arguments Ok {A} a.
Arguments Raise {A} e.

#[global] Instance result_ret : MRet result := fun A a => Ok a.
#[global] Instance result_bind : MBind result :=
  fun A B f r => match r with Ok a => f a | Raise e => Raise e end.

(** What a run leaves behind. *)
Inductive outcome :=
| Exit1 (e : exn)                  (* error reported, [sys.exit(1)], output file untouched *)
| Uncaught (e : exn)               (* the exception leaves the run; output file untouched *)
| Written (output : list string).  (* the output file holds these lines *)

Definition output_of (o : outcome) : option (list string) :=
  match o with
  | Written out => Some out
  | _ => None
  end.

(** ** Python string and integer primitives *)

Module Py.

(** [str.isspace] on code points below 256. *)
Definition is_space (c : ascii) : bool :=
  let n := N_of_ascii c in
  ((9 <=? n) && (n <=? 13) || (28 <=? n) && (n <=? 32) || (n =? 133) || (n =? 160))%N.

Definition is_digit (c : ascii) : bool :=
  let n := N_of_ascii c in ((48 <=? n) && (n <=? 57))%N.

Definition is_alpha (c : ascii) : bool :=
  let n := N_of_ascii c in
  ((65 <=? n) && (n <=? 90) || (97 <=? n) && (n <=? 122))%N.

Definition digit_value (c : ascii) : Z := Z.of_N (N_of_ascii c) - 48.

(** [str.lower] on one code point below 256. *)
Definition lower_char (c : ascii) : ascii :=
  let n := N_of_ascii c in
  if ((65 <=? n) && (n <=? 90) || (192 <=? n) && (n <=? 222) && negb (n =? 215))%N
  then ascii_of_N (n + 32) else c.

Fixpoint lower (s : string) : string :=
  match s with
  | "" => ""
  | String c s' => String (lower_char c) (lower s')
  end.

Fixpoint lstrip (s : string) : string :=
  match s with
  | "" => ""
  | String c s' => if is_space c then lstrip s' else s
  end.

Fixpoint rstrip (s : string) : string :=
  match s with
  | "" => ""
  | String c s' =>
      match rstrip s' with
      | "" => if is_space c then "" else String c ""
      | r => String c r
      end
  end.

(** [s.strip()] *)
Definition strip (s : string) : string := rstrip (lstrip s).

(** The longest prefix without white space, and what follows it. *)
Fixpoint span_word (s : string) : string * string :=
  match s with
  | "" => ("", "")
  | String c s' =>
      if is_space c then ("", s)
      else let '(w, r) := span_word s' in (String c w, r)
  end.

(** [s.split(maxsplit=1)]: the first word, then the remainder with its
    leading white space removed (and its trailing white space kept). *)
Definition split_ws_1 (s : string) : list string :=
  match lstrip s with
  | "" => []
  | s1 =>
      let '(w, r) := span_word s1 in
      match lstrip r with
      | "" => [w]
      | r' => [w; r']
      end
  end.

(** [s.split(sep)] for a one-character separator: never the empty list. *)
Fixpoint split_char (sep : ascii) (s : string) : list string :=
  match s with
  | "" => [""]
  | String c s' =>
      if Ascii.eqb c sep then "" :: split_char sep s'
      else match split_char sep s' with
           | h :: t => String c h :: t
           | [] => [String c ""]
           end
  end.

(** [s.replace(c, '')] *)
Fixpoint remove_char (x : ascii) (s : string) : string :=
  match s with
  | "" => ""
  | String c s' =>
      if Ascii.eqb c x then remove_char x s' else String c (remove_char x s')
  end.

(** [c * n] for a one-character string [c]. *)
Fixpoint repeat_char (c : ascii) (n : nat) : string :=
  match n with
  | O => ""
  | S n' => String c (repeat_char c n')
  end.

(** [len(s)] *)
Definition len (s : string) : Z := Z.of_nat (String.length s).

(** [s[a:b]] for constants [0 <= a <= b]. *)
Definition slice (a b : nat) (s : string) : string := substring a (b - a) s.

(** [str(n)] *)
Definition str (n : Z) : string := NilZero.string_of_int (Z.to_int n).

(** The digits of [int(text, base)] after sign and prefix: digits below
    [base], single underscores between them.  Returns the value, the
    number of digits read and the unread rest; [None] when two
    underscores meet or an underscore ends the run. *)
Fixpoint scan_digits (base : Z) (s : string) (prev_us : bool) (ndig : nat) (acc : Z)
  : option (Z * nat * string) :=
  let stop := if prev_us then None else Some (acc, ndig, s) in
  match s with
  | "" => stop
  | String c s' =>
      if Ascii.eqb c "_" then
        if prev_us then None else scan_digits base s' true ndig acc
      else if is_digit c && (digit_value c <? base) then
        scan_digits base s' false (S ndig) (acc * base + digit_value c)
      else stop
  end.

(** White space as [int()] sees it: the white space of C, and the two
    code points below 256 that the conversion turns into a space first.
    (The separators 28 to 31 are white space for [strip] and [split] but
    not here.) *)
Definition is_int_space (c : ascii) : bool :=
  let n := N_of_ascii c in
  ((9 <=? n) && (n <=? 13) || (n =? 32) || (n =? 133) || (n =? 160))%N.

Fixpoint skip_int_space (s : string) : string :=
  match s with
  | "" => ""
  | String c s' => if is_int_space c then skip_int_space s' else s
  end.

Definition all_space (s : string) : bool :=
  match skip_int_space s with "" => true | _ => false end.

(** [s[len(p):]] when [s.startswith(p)]. *)
Fixpoint strip_prefix (p s : string) : option string :=
  match p, s with
  | "", _ => Some s
  | String a p', String b s' => if Ascii.eqb a b then strip_prefix p' s' else None
  | String _ _, "" => None
  end.

Definition starts_with (p s : string) : bool :=
  match strip_prefix p s with Some _ => true | None => false end.

(** The greatest number of digits that [int()] converts in base 10, the
    default of [sys.get_int_max_str_digits()].  Signs, underscores and
    white space are not counted, leading zeros are.  Base 2 has no
    limit. *)
Definition max_str_digits : Z := 4300.

(** [int(text, base)] for [base] 2 or 10: white space around, one optional
    sign, for base 2 an optional 0b or 0B prefix (one underscore may
    follow it), then the digits.  [None] is the ValueError of [int()]:
    the text is not a numeral or, in base 10, has more digits than
    [max_str_digits]. *)
Definition int (base : Z) (text : string) : option Z :=
  let s1 := skip_int_space text in
  let '(neg, s2) :=
    match strip_prefix "+" s1, strip_prefix "-" s1 with
    | Some r, _ => (false, r)
    | None, Some r => (true, r)
    | None, None => (false, s1)
    end in
  let s3 :=
    if (base =? 2) && (starts_with "0b" s2 || starts_with "0B" s2) then
      let r := substring 2 (String.length s2 - 2) s2 in
      match strip_prefix "_" r with Some r' => r' | None => r end
    else s2 in
  if starts_with "_" s3 then None
  else
    match scan_digits base s3 false 0 0 with
    | Some (v, S n, rest) =>
        if (base =? 10) && (max_str_digits <? Z.of_nat (S n)) then None
        else if all_space rest then Some (if neg then - v else v) else None
    | _ => None
    end.

(** The binary digits of a positive number, most significant first. *)
Fixpoint pos_bin (p : positive) (acc : string) : string :=
  match p with
  | xH => String "1" acc
  | xO p' => pos_bin p' (String "0" acc)
  | xI p' => pos_bin p' (String "1" acc)
  end.

Definition nat_bin (n : Z) : string :=
  match n with
  | Zpos p => pos_bin p ""
  | _ => "0"
  end.

(** [format(value, '0Wb')] for a literal width [W]: binary digits,
    zero-filled after the sign up to a total width of [W]; longer values
    are not truncated. *)
Definition format_bin (value : Z) (width : nat) : string :=
  let digits := nat_bin (Z.abs value) in
  let sign := if value <? 0 then "-" else "" in
  let fill := (width - String.length sign - String.length digits)%nat in
  sign +:+ repeat_char "0" fill +:+ digits.

(** [x in l] for a list of strings *)
Definition in_list (x : string) (l : list string) : bool :=
  existsb (String.eqb x) l.

End Py.

(** ** The assembler, SMA.py *)

Module SMA.

(** Mnemonic to 6-bit opcode. *)
Definition opcode_items : list (string * string) :=
    [ ("clr", "000000"); ("cmb", "000001"); ("mns", "000010"); ("mlt", "000011");
      ("dvd", "000100"); ("cmbi", "000101"); ("ldwd", "000110"); ("srwd", "000111");
      ("jmp", "001000"); ("pint", "001001"); ("pstr", "001010"); ("mnsi", "001011");
      ("mlti", "001100"); ("dvdi", "001101"); ("for", "001110"); ("sqrt", "001111");
      ("mdlo", "010000"); ("sqr", "010001"); ("ife", "010010"); ("ifne", "010011");
      ("ldad", "010100"); ("ldim", "010101"); ("end", "111111") ].

Definition opcodes : gmap string string := list_to_map opcode_items.

(** The comprehension over [range(32)]: the name is %r followed by
    [str(i)], the code is [i] formatted with 05b. *)
Definition register_items : list (string * string) :=
  (fun i => ("%r" +:+ Py.str i, Py.format_bin i 5)) <$> seqZ 0 32.

Definition registers : gmap string string := list_to_map register_items.

Definition parse_register (reg_str : string) : result string :=
  let reg_str := Py.remove_char "," reg_str in
  match registers !! reg_str with
  | Some code => Ok code
  | None => Raise (ValueError (InvalidRegisterName reg_str))
  end.

Definition parse_immediate (imm_str : string) (bits : Z) : result string :=
  let imm_str := Py.remove_char "," imm_str in
  let invalid cause := Raise (ValueError (InvalidImmediate imm_str cause)) in
  match Py.int 10 imm_str with
  | None => invalid NotAnInteger
  | Some value =>
      let min_val := if 0 <? bits then - 2 ^ (bits - 1) else 0 in
      let max_val := if 0 <? bits then 2 ^ bits - 1 else 0 in
      if value <? 0 then
        if value <? min_val then invalid (TooSmall value bits)
        else if bits <? 0 then invalid BadFormatSpec
        else Ok (Py.format_bin (Z.land value (Z.shiftl 1 bits - 1)) (Z.to_nat bits))
      else if max_val <? value then invalid (TooLarge value bits)
      else if bits <? 0 then invalid BadFormatSpec
      else Ok (Py.format_bin value (Z.to_nat bits))
  end.

(** The longest prefix of decimal digits ([\d+], greedy), and the rest. *)
Fixpoint span_digits (s : string) : string * string :=
  match s with
  | "" => ("", "")
  | String c s' =>
      if Py.is_digit c then let '(d, r) := span_digits s' in (String c d, r)
      else ("", s)
  end.

(** The tail of both patterns, matched at the start of [s]: %r, one or
    more digits (group), a closing parenthesis. *)
Definition match_reg_close (s : string) : option string :=
  match Py.strip_prefix "%r" s with
  | Some s1 =>
      let '(ds, s2) := span_digits s1 in
      if negb (ds =? "")%string && Py.starts_with ")" s2
      then Some ("%r" +:+ ds) else None
  | None => None
  end.

(** [re.match] with the first pattern: an optional minus sign and one or
    more digits (group 1), an opening parenthesis, %r and one or more
    digits (group 2), a closing parenthesis.  The match is anchored at
    the start of [s] only. *)
Definition match_offset_reg (s : string) : option (string * string) :=
  let '(sign, s1) :=
    match Py.strip_prefix "-" s with
    | Some r => ("-", r)
    | None => ("", s)
    end in
  let '(ds, s2) := span_digits s1 in
  if (ds =? "")%string then None
  else match Py.strip_prefix "(" s2 with
  | Some s3 =>
      match match_reg_close s3 with
      | Some reg => Some (sign +:+ ds, reg)
      | None => None
      end
  | None => None
  end.

(** [re.match] with the second pattern: an opening parenthesis, %r and
    one or more digits (group 1), a closing parenthesis. *)
Definition match_no_offset (s : string) : option string :=
  match Py.strip_prefix "(" s with
  | Some s1 => match_reg_close s1
  | None => None
  end.

Definition parse_memory_address (mem_str : string) : result (Z * string) :=
  let mem_str := Py.remove_char "," mem_str in
  match match_offset_reg mem_str with
  | Some (g1, g2) =>
      match Py.int 10 g1 with
      | Some offset => Ok (offset, g2)
      | None => Raise (ValueError (InvalidLiteral 10 g1))
      end
  | None =>
      match match_no_offset mem_str with
      | Some g1 => Ok (0, g1)
      | None => Raise (ValueError (InvalidMemoryAddress mem_str))
      end
  end.

Definition lookup_label (label_table : gmap string Z) (label : string) : result Z :=
  match label_table !! label with
  | Some address => Ok address
  | None => Raise (ValueError (UndefinedLabel label))
  end.

Definition assemble_line (line : string) (label_table : gmap string Z)
    (current_address : Z) : result (option string) :=
  match Py.split_ws_1 line with
  | [] => Raise IndexError
  | p0 :: ps =>
    let op := Py.lower p0 in
    if (op =? "")%string then Ok None
    else if (op =? "clr")%string then Ok (Some ("000000" +:+ Py.repeat_char "0" 26))
    else if (op =? "end")%string then Ok (Some (Py.repeat_char "1" 32))
    else match opcodes !! op with
    | None => Raise (ValueError (UnknownInstruction op))
    | Some opcode_bin =>
      let operands_str := match ps with p1 :: _ => p1 | [] => "" end in
      let operands := Py.strip <$> Py.split_char "," operands_str in
      let bad_count := Raise (ValueError (OperandCount op operands_str)) in
      if Py.in_list op ["cmb"; "mns"; "mlt"; "dvd"; "mdlo"] then
        match operands with
        | [o0; o1; o2] =>
            rs ← parse_register o0;
            rt ← parse_register o1;
            rd ← parse_register o2;
            Ok (Some (opcode_bin +:+ rs +:+ rt +:+ rd +:+ Py.repeat_char "0" 11))
        | _ => bad_count
        end
      else if Py.in_list op ["cmbi"; "mnsi"; "mlti"; "dvdi"] then
        match operands with
        | [o0; o1; o2] =>
            rs ← parse_register o0;
            imm ← parse_immediate o1 15;
            rd ← parse_register o2;
            Ok (Some (opcode_bin +:+ rs +:+ imm +:+ rd))
        | _ => bad_count
        end
      else if (op =? "ldwd")%string then
        match operands with
        | [o0; o1] =>
            '(offset_val, rs_str) ← parse_memory_address o0;
            rt ← parse_register o1;
            rs ← parse_register rs_str;
            offset_bin ← parse_immediate (Py.str offset_val) 16;
            Ok (Some (opcode_bin +:+ rs +:+ rt +:+ offset_bin))
        | _ => bad_count
        end
      else if (op =? "srwd")%string then
        match operands with
        | [o0; o1] =>
            rt ← parse_register o0;
            '(offset_val, rs_str) ← parse_memory_address o1;
            rs ← parse_register rs_str;
            offset_bin ← parse_immediate (Py.str offset_val) 16;
            Ok (Some (opcode_bin +:+ rs +:+ rt +:+ offset_bin))
        | _ => bad_count
        end
      else if (op =? "jmp")%string then
        match operands with
        | [label] =>
            address ← lookup_label label_table label;
            Ok (Some (opcode_bin +:+ Py.format_bin address 26))
        | _ => bad_count
        end
      else if (op =? "pint")%string then
        match operands with
        | [o0] =>
            rs ← parse_register o0;
            Ok (Some (opcode_bin +:+ rs +:+ Py.repeat_char "0" 21))
        | _ => bad_count
        end
      else if (op =? "pstr")%string then
        match operands with
        | [o0] =>
            '(offset_val, rs_str) ← parse_memory_address o0;
            rs ← parse_register rs_str;
            offset_bin ← parse_immediate (Py.str offset_val) 21;
            Ok (Some (opcode_bin +:+ offset_bin +:+ rs))
        | _ => bad_count
        end
      else if (op =? "for")%string then
        match operands with
        | [o0; label] =>
            rs ← parse_register o0;
            address ← lookup_label label_table label;
            Ok (Some (opcode_bin +:+ rs +:+ Py.format_bin address 21))
        | _ => bad_count
        end
      else if (op =? "sqrt")%string then
        match operands with
        | [o0; o1] =>
            rs ← parse_register o0;
            rd ← parse_register o1;
            Ok (Some (opcode_bin +:+ rs +:+ rd +:+ Py.repeat_char "0" 16))
        | _ => bad_count
        end
      else if (op =? "sqr")%string then
        match operands with
        | [o0; o1] =>
            rs ← parse_register o0;
            rd ← parse_register o1;
            Ok (Some (opcode_bin +:+ rs +:+ rd +:+ Py.repeat_char "0" 16))
        | _ => bad_count
        end
      else if Py.in_list op ["ife"; "ifne"] then
        match operands with
        | [o0; o1; label] =>
            rs ← parse_register o0;
            rt ← parse_register o1;
            address ← lookup_label label_table label;
            Ok (Some (opcode_bin +:+ rs +:+ rt +:+ Py.format_bin address 16))
        | _ => bad_count
        end
      else if (op =? "ldad")%string then
        match operands with
        | [label; o1] =>
            rd ← parse_register o1;
            match label_table !! label with
            | None => Raise (ValueError (UndefinedVariable label))
            | Some address => Ok (Some (opcode_bin +:+ Py.format_bin address 21 +:+ rd))
            end
        | _ => bad_count
        end
      else if (op =? "ldim")%string then
        match operands with
        | [o0; o1] =>
            imm ← parse_immediate o0 21;
            rd ← parse_register o1;
            Ok (Some (opcode_bin +:+ imm +:+ rd))
        | _ => bad_count
        end
      else Raise (NotImplementedError op)
    end
  end.

(** One entry of [cleaned_lines]. *)
Record cleaned := { line : string; addr : Z; orig_line : Z }.

Record pass1_state := {
  label_table : gmap string Z;
  cleaned_lines : list cleaned;
  current_address : Z
}.

Fixpoint span_ident (s : string) : string * string :=
  match s with
  | "" => ("", "")
  | String c s' =>
      if Py.is_alpha c || Py.is_digit c || Ascii.eqb c "_"
      then let '(w, r) := span_ident s' in (String c w, r)
      else ("", s)
  end.

(** [re.match] with the label pattern: a letter or underscore followed
    by letters, digits and underscores (group 1), a colon, then the end
    anchor, which matches at the end of [s] and before a newline that
    ends [s]. *)
Definition label_match (s : string) : option string :=
  match s with
  | String c s' =>
      if Py.is_alpha c || Ascii.eqb c "_" then
        let '(w, r) := span_ident s' in
        match Py.strip_prefix ":" r with
        | Some r' =>
            if (r' =? "")%string || (r' =? String "010" "")%string
            then Some (String c w) else None
        | None => None
        end
      else None
  | "" => None
  end.

(** The body of the Pass 1 loop for one source line. *)
Definition pass1_line (st : pass1_state) (line_num : Z) (ln : string) : result pass1_state :=
  let line_no_comment := hd "" (Py.split_char "#" ln) in
  let line_stripped := Py.strip line_no_comment in
  if (line_stripped =? "")%string then Ok st
  else match label_match line_stripped with
  | Some label =>
      match label_table st !! label with
      | Some _ => Raise (ValueError (DuplicateLabel label line_num))
      | None =>
          Ok {| label_table := <[label := current_address st]> (label_table st);
                cleaned_lines := cleaned_lines st;
                current_address := current_address st |}
      end
  | None =>
      Ok {| label_table := label_table st;
            cleaned_lines := cleaned_lines st ++
              [ {| line := line_stripped; addr := current_address st; orig_line := line_num |} ];
            current_address := current_address st + 1 |}
  end.

(** [for line_num, line in enumerate(infile, line_num): ...] *)
Fixpoint pass1_from (st : pass1_state) (line_num : Z) (lines : list string)
  : result pass1_state :=
  match lines with
  | [] => Ok st
  | ln :: rest =>
      st' ← pass1_line st line_num ln;
      pass1_from st' (line_num + 1) rest
  end.

Definition pass1 (lines : list string) : result pass1_state :=
  pass1_from {| label_table := ∅; cleaned_lines := []; current_address := 0 |} 1 lines.

(** [for item in cleaned_lines: ...], appending to [assembled_code]. *)
Fixpoint pass2 (label_table : gmap string Z) (items : list cleaned)
    (assembled_code : list string) : result (list string) :=
  match items with
  | [] => Ok assembled_code
  | item :: rest =>
      binary_code ← assemble_line (line item) label_table (addr item);
      match binary_code with
      | Some code =>
          if (code =? "")%string then pass2 label_table rest assembled_code
          else if negb (Py.len code =? 32)
          then Raise (ValueError (InternalWidth (line item) (Py.len code)))
          else pass2 label_table rest (assembled_code ++ [code])
      | None => pass2 label_table rest assembled_code
      end
  end.

(** [run_assembler]: [infile] is the sequence of lines of the input file,
    [None] when the file does not exist.  The output file is opened only
    after both passes have finished. *)
Definition run_assembler (infile : option (list string)) : outcome :=
  match infile with
  | None => Exit1 FileNotFoundError
  | Some lines =>
      match pass1 lines with
      | Raise (ValueError e) => Exit1 (ValueError e)
      | Raise e => Uncaught e
      | Ok st =>
          match pass2 (label_table st) (cleaned_lines st) [] with
          | Raise (ValueError e) => Exit1 (ValueError e)
          | Raise (NotImplementedError op) => Exit1 (NotImplementedError op)
          | Raise e => Uncaught e
          | Ok assembled_code => Written assembled_code
          end
      end
  end.

End SMA.


(** ** The disassembler, SMD.py *)

Module SMD.

(** 6-bit opcode to mnemonic. *)
Definition mnemonic_items : list (string * string) :=
    [ ("000000", "clr"); ("000001", "cmb"); ("000010", "mns"); ("000011", "mlt");
      ("000100", "dvd"); ("000101", "cmbi"); ("000110", "ldwd"); ("000111", "srwd");
      ("001000", "jmp"); ("001001", "pint"); ("001010", "pstr"); ("001011", "mnsi");
      ("001100", "mlti"); ("001101", "dvdi"); ("001110", "for"); ("001111", "sqrt");
      ("010000", "mdlo"); ("010001", "sqr"); ("010010", "ife"); ("010011", "ifne");
      ("010100", "ldad"); ("010101", "ldim"); ("111111", "end") ].

Definition opcodes_to_mnemonics : gmap string string := list_to_map mnemonic_items.

(** The comprehension over [range(32)]: the code is [i] formatted with
    05b, the name is %r followed by [str(i)]. *)
Definition name_items : list (string * string) :=
  (fun i => (Py.format_bin i 5, "%r" +:+ Py.str i)) <$> seqZ 0 32.

Definition registers_to_names : gmap string string := list_to_map name_items.

Definition int2 (bin_str : string) : result Z :=
  match Py.int 2 bin_str with
  | Some v => Ok v
  | None => Raise (ValueError (InvalidLiteral 2 bin_str))
  end.

Definition bin_to_int (bin_str : string) : result Z :=
  if (bin_str =? "")%string then Ok 0 else int2 bin_str.

Definition bin_to_signed_int (bin_str : string) : result Z :=
  if (bin_str =? "")%string then Ok 0
  else
    value ← int2 bin_str;
    let bits := Py.len bin_str in
    if negb (Z.land value (Z.shiftl 1 (bits - 1)) =? 0)
    then Ok (value - Z.shiftl 1 bits)
    else Ok value.

Definition get_register_name (reg_bin : string) : string :=
  default ("INVALID(" +:+ reg_bin +:+ ")") (registers_to_names !! reg_bin).

Definition disassemble_instruction (binary_string : string) (address : Z) : result string :=
  if negb (Py.len binary_string =? 32) then
    Ok ("; Error: Invalid instruction length (" +:+ Py.str (Py.len binary_string)
        +:+ " bits) at address " +:+ Py.str address +:+ ": " +:+ binary_string)
  else
  let opcode_bin := Py.slice 0 6 binary_string in
  if (binary_string =? "11111111111111111111111111111111")%string then Ok "end"
  else if (binary_string =? "00000000000000000000000000000000")%string
          && (opcode_bin =? "000000")%string then Ok "clr"
  else match opcodes_to_mnemonics !! opcode_bin with
  | None =>
      Ok ("; Error: Unknown opcode " +:+ opcode_bin +:+ " at address "
          +:+ Py.str address +:+ ": " +:+ binary_string)
  | Some mnemonic =>
    if Py.in_list mnemonic ["cmb"; "mns"; "mlt"; "dvd"; "mdlo"] then
      let rs_name := get_register_name (Py.slice 6 11 binary_string) in
      let rt_name := get_register_name (Py.slice 11 16 binary_string) in
      let rd_name := get_register_name (Py.slice 16 21 binary_string) in
      Ok (mnemonic +:+ " " +:+ rs_name +:+ ", " +:+ rt_name +:+ ", " +:+ rd_name)
    else if Py.in_list mnemonic ["cmbi"; "mnsi"; "mlti"; "dvdi"] then
      let rs_name := get_register_name (Py.slice 6 11 binary_string) in
      let rd_name := get_register_name (Py.slice 26 31 binary_string) in
      imm_val ← bin_to_int (Py.slice 11 26 binary_string);
      Ok (mnemonic +:+ " " +:+ rs_name +:+ ", " +:+ Py.str imm_val +:+ ", " +:+ rd_name)
    else if (mnemonic =? "ldwd")%string then
      let rs_name := get_register_name (Py.slice 6 11 binary_string) in
      let rt_name := get_register_name (Py.slice 11 16 binary_string) in
      offset_val ← bin_to_signed_int (Py.slice 16 32 binary_string);
      Ok (mnemonic +:+ " " +:+ Py.str offset_val +:+ "(" +:+ rs_name +:+ "), " +:+ rt_name)
    else if (mnemonic =? "srwd")%string then
      let rs_name := get_register_name (Py.slice 6 11 binary_string) in
      let rt_name := get_register_name (Py.slice 11 16 binary_string) in
      offset_val ← bin_to_signed_int (Py.slice 16 32 binary_string);
      Ok (mnemonic +:+ " " +:+ rt_name +:+ ", " +:+ Py.str offset_val +:+ "(" +:+ rs_name +:+ ")")
    else if (mnemonic =? "jmp")%string then
      target_address ← bin_to_int (Py.slice 6 32 binary_string);
      Ok (mnemonic +:+ " " +:+ Py.str target_address)
    else if (mnemonic =? "pint")%string then
      let rs_name := get_register_name (Py.slice 6 11 binary_string) in
      Ok (mnemonic +:+ " " +:+ rs_name)
    else if (mnemonic =? "pstr")%string then
      let rs_name := get_register_name (Py.slice 27 32 binary_string) in
      offset_val ← bin_to_signed_int (Py.slice 6 27 binary_string);
      Ok (mnemonic +:+ " " +:+ Py.str offset_val +:+ "(" +:+ rs_name +:+ ")")
    else if (mnemonic =? "for")%string then
      let rs_name := get_register_name (Py.slice 6 11 binary_string) in
      target_address ← bin_to_int (Py.slice 11 32 binary_string);
      Ok (mnemonic +:+ " " +:+ rs_name +:+ ", " +:+ Py.str target_address)
    else if Py.in_list mnemonic ["sqrt"; "sqr"] then
      let rs_name := get_register_name (Py.slice 6 11 binary_string) in
      let rd_name := get_register_name (Py.slice 11 16 binary_string) in
      Ok (mnemonic +:+ " " +:+ rs_name +:+ ", " +:+ rd_name)
    else if Py.in_list mnemonic ["ife"; "ifne"] then
      let rs_name := get_register_name (Py.slice 6 11 binary_string) in
      let rt_name := get_register_name (Py.slice 11 16 binary_string) in
      target_address ← bin_to_int (Py.slice 16 32 binary_string);
      Ok (mnemonic +:+ " " +:+ rs_name +:+ ", " +:+ rt_name +:+ ", " +:+ Py.str target_address)
    else if (mnemonic =? "ldad")%string then
      let rd_name := get_register_name (Py.slice 27 32 binary_string) in
      address_val ← bin_to_int (Py.slice 6 27 binary_string);
      Ok (mnemonic +:+ " " +:+ Py.str address_val +:+ ", " +:+ rd_name)
    else if (mnemonic =? "ldim")%string then
      let rd_name := get_register_name (Py.slice 27 32 binary_string) in
      imm_val ← bin_to_signed_int (Py.slice 6 27 binary_string);
      Ok (mnemonic +:+ " " +:+ Py.str imm_val +:+ ", " +:+ rd_name)
    else
      Ok ("; Error: Disassembly logic not implemented for opcode " +:+ opcode_bin
          +:+ " (" +:+ mnemonic +:+ ")")
  end.

(** [for address, binary_line in enumerate(binary_lines, address): ...],
    appending to [disassembled_lines]. *)
Fixpoint disassemble_from (address : Z) (binary_lines : list string)
    (disassembled_lines : list string) : result (list string) :=
  match binary_lines with
  | [] => Ok disassembled_lines
  | binary_line :: rest =>
      let binary_line := Py.strip binary_line in
      if (binary_line =? "")%string then
        disassemble_from (address + 1) rest disassembled_lines
      else if negb (Py.len binary_line =? 32) then
        disassemble_from (address + 1) rest
          (disassembled_lines ++ ["; Error: Invalid length at address " +:+ Py.str address])
      else
        assembly_instruction ← disassemble_instruction binary_line address;
        disassemble_from (address + 1) rest (disassembled_lines ++ [assembly_instruction])
  end.

(** [run_disassembler]: [infile] is the sequence of lines of the input
    file, [None] when the file does not exist.  Every exception of the
    pass is caught and ends the run before the output file is opened. *)
Definition run_disassembler (infile : option (list string)) : outcome :=
  match infile with
  | None => Exit1 FileNotFoundError
  | Some binary_lines =>
      match disassemble_from 0 binary_lines [] with
      | Raise e => Exit1 e
      | Ok disassembled_lines => Written disassembled_lines
      end
  end.

End SMD.

(** * Vocabulary of the properties *)

Definition zeros32 : string := "00000000000000000000000000000000".

(** A source line as Pass 1 looks at it: comment removed, stripped. *)
Definition clean (ln : string) : string :=
  Py.strip (hd "" (Py.split_char "#" ln)).

(** The label a source line defines, if it is a label definition. *)
Definition label_of (ln : string) : option string := SMA.label_match (clean ln).

(** A source line that Pass 1 records as an instruction. *)
Definition is_instruction (ln : string) : bool :=
  negb (clean ln =? "")%string && bool_decide (label_of ln = None).

Definition labels_of (lines : list string) : list string := omap label_of lines.

(** The number of instructions among [lines]. *)
Definition count_instr (lines : list string) : Z :=
  Z.of_nat (length (filter (λ ln, is_instruction ln = true) lines)).

(** A result that, when it is a value, is a non-empty word. *)
Definition emits_word (r : result (option string)) : Prop :=
  ∀ x, r = Ok x → ∃ code, x = Some code ∧ code ≠ "".

(** The number of words in a disassembler input: its non-blank lines. *)
Definition count_words (lines : list string) : nat :=
  length (filter (λ ln, Py.strip ln ≠ "") lines).

(** Every character of [s] satisfies [P]. *)
Fixpoint all_chars (P : ascii → bool) (s : string) : bool :=
  match s with
  | "" => true
  | String c s' => P c && all_chars P s'
  end.

(** A digit of the given base. *)
Definition digit_below (base : Z) (c : ascii) : bool :=
  Py.is_digit c && (Py.digit_value c <? base).

Definition is_bit (c : ascii) : bool := digit_below 2 c.

(** A word over 0 and 1. *)
Definition is_bits (s : string) : bool := all_chars is_bit s.

(** The number a digit string denotes, most significant digit first,
    continuing from [acc]. *)
Fixpoint digits_value (base acc : Z) (s : string) : Z :=
  match s with
  | "" => acc
  | String c s' => digits_value base (acc * base + Py.digit_value c) s'
  end.

(** A result that is a value. *)
Definition returns {A} (r : result A) : Prop := ∃ a, r = Ok a.

(** The decimal digits of a positive number, as [str] writes them. *)
Definition pos_digits (p : positive) : string :=
  NilEmpty.string_of_uint (Pos.to_uint p).

(** A non-empty string of decimal digits. *)
Definition digit_string (s : string) : Prop :=
  all_chars Py.is_digit s = true ∧ s ≠ "".

(** [text] is a memory operand followed by [rest]: an optional minus sign
    and digits denoting [offset], then the register [reg] (%r and digits)
    in parentheses; or the register in parentheses alone, with [offset]
    zero. *)
Definition memory_operand_then (rest text : string) (offset : Z) (reg : string) : Prop :=
  ∃ rs, digit_string rs ∧ reg = "%r" +:+ rs ∧
    ((∃ ds, digit_string ds ∧
        (text = ds +:+ "(" +:+ reg +:+ ")" +:+ rest ∧ offset = digits_value 10 0 ds ∨
         text = "-" +:+ ds +:+ "(" +:+ reg +:+ ")" +:+ rest ∧
           offset = - digits_value 10 0 ds)) ∨
     (text = "(" +:+ reg +:+ ")" +:+ rest ∧ offset = 0)).

(** As [memory_operand_then], for an offset that [int()] converts: at
    most [Py.max_str_digits] digits. *)
Definition memory_operand_read (rest text : string) (offset : Z) (reg : string) : Prop :=
  ∃ rs, digit_string rs ∧ reg = "%r" +:+ rs ∧
    ((∃ ds, digit_string ds ∧ Py.len ds ≤ Py.max_str_digits ∧
        (text = ds +:+ "(" +:+ reg +:+ ")" +:+ rest ∧ offset = digits_value 10 0 ds ∨
         text = "-" +:+ ds +:+ "(" +:+ reg +:+ ")" +:+ rest ∧
           offset = - digits_value 10 0 ds)) ∨
     (text = "(" +:+ reg +:+ ")" +:+ rest ∧ offset = 0)).

(** [text] starts with a memory operand whose offset [g1], an optional
    minus sign and digits, has more digits than [int()] converts. *)
Definition memory_operand_too_long (text g1 : string) : Prop :=
  ∃ (neg : bool) ds rs rest,
    digit_string ds ∧ digit_string rs ∧ Py.max_str_digits < Py.len ds ∧
    g1 = (if neg then "-" else "") +:+ ds ∧
    text = g1 +:+ "(" +:+ ("%r" +:+ rs) +:+ ")" +:+ rest.

(** The operand shapes named by the specification: a signed integer and
    a register in parentheses, or a register in parentheses, and nothing
    after it. *)
Definition spec_memory_operand (text : string) : Prop :=
  ∃ offset reg, memory_operand_then "" text offset reg.

Fixpoint last_char (s : string) : option ascii :=
  match s with
  | "" => None
  | String c "" => Some c
  | String _ s' => last_char s'
  end.

(** ** Instructions and their canonical text *)

Inductive reg3_op := Cmb | Mns | Mlt | Dvd | Mdlo.
Inductive imm_op := Cmbi | Mnsi | Mlti | Dvdi.
Inductive reg2_op := Sqrt | Sqr.
Inductive branch_op := Ife | Ifne.

(** An instruction of the ISA: registers by number, label operands by
    name. *)
Inductive instr :=
| Reg3 (op : reg3_op) (rs rt rd : Z)
| ImmArith (op : imm_op) (rs imm rd : Z)
| LoadWord (offset rs rt : Z)
| StoreWord (rt offset rs : Z)
| Jump (target : string)
| PrintInt (rs : Z)
| PrintStr (offset rs : Z)
| ForLoop (rs : Z) (target : string)
| Reg2 (op : reg2_op) (rs rd : Z)
| Branch (op : branch_op) (rs rt : Z) (target : string)
| LoadAddr (target : string) (rd : Z)
| LoadImm (imm rd : Z)
| Clear
| End.

Definition reg3_name (op : reg3_op) : string :=
  match op with Cmb => "cmb" | Mns => "mns" | Mlt => "mlt" | Dvd => "dvd" | Mdlo => "mdlo" end.
Definition imm_name (op : imm_op) : string :=
  match op with Cmbi => "cmbi" | Mnsi => "mnsi" | Mlti => "mlti" | Dvdi => "dvdi" end.
Definition reg2_name (op : reg2_op) : string :=
  match op with Sqrt => "sqrt" | Sqr => "sqr" end.
Definition branch_name (op : branch_op) : string :=
  match op with Ife => "ife" | Ifne => "ifne" end.

Definition reg3_code (op : reg3_op) : string :=
  match op with
  | Cmb => "000001" | Mns => "000010" | Mlt => "000011" | Dvd => "000100" | Mdlo => "010000"
  end.
Definition reg2_code (op : reg2_op) : string :=
  match op with Sqrt => "001111" | Sqr => "010001" end.
Definition branch_code (op : branch_op) : string :=
  match op with Ife => "010010" | Ifne => "010011" end.

Definition reg_name (r : Z) : string := "%r" +:+ Py.str r.

(** The text of a memory operand: offset, then the register in
    parentheses. *)
Definition mem_operand (offset r : Z) : string :=
  Py.str offset +:+ "(" +:+ reg_name r +:+ ")".

(** The canonical text of an instruction: the layout the disassembler
    writes.  [show] renders a label operand. *)
Definition render (show : string → string) (i : instr) : string :=
  match i with
  | Reg3 op rs rt rd =>
      reg3_name op +:+ " " +:+ reg_name rs +:+ ", " +:+ reg_name rt +:+ ", " +:+ reg_name rd
  | ImmArith op rs imm rd =>
      imm_name op +:+ " " +:+ reg_name rs +:+ ", " +:+ Py.str imm +:+ ", " +:+ reg_name rd
  | LoadWord offset rs rt =>
      "ldwd" +:+ " " +:+ mem_operand offset rs +:+ ", " +:+ reg_name rt
  | StoreWord rt offset rs =>
      "srwd" +:+ " " +:+ reg_name rt +:+ ", " +:+ mem_operand offset rs
  | Jump target => "jmp" +:+ " " +:+ show target
  | PrintInt rs => "pint" +:+ " " +:+ reg_name rs
  | PrintStr offset rs => "pstr" +:+ " " +:+ mem_operand offset rs
  | ForLoop rs target => "for" +:+ " " +:+ reg_name rs +:+ ", " +:+ show target
  | Reg2 op rs rd => reg2_name op +:+ " " +:+ reg_name rs +:+ ", " +:+ reg_name rd
  | Branch op rs rt target =>
      branch_name op +:+ " " +:+ reg_name rs +:+ ", " +:+ reg_name rt +:+ ", " +:+ show target
  | LoadAddr target rd => "ldad" +:+ " " +:+ show target +:+ ", " +:+ reg_name rd
  | LoadImm imm rd => "ldim" +:+ " " +:+ Py.str imm +:+ ", " +:+ reg_name rd
  | Clear => "clr"
  | End => "end"
  end.

(** As the programmer writes it: label operands by name. *)
Definition source_text (i : instr) : string := render (λ label, label) i.

(** As the disassembler writes it: label operands as the address the
    label table binds them to. *)
Definition decoded_text (label_table : gmap string Z) (i : instr) : string :=
  render (λ label, Py.str (default 0 (label_table !! label))) i.

Definition mnemonic (i : instr) : string :=
  match i with
  | Reg3 op _ _ _ => reg3_name op
  | ImmArith op _ _ _ => imm_name op
  | LoadWord _ _ _ => "ldwd"
  | StoreWord _ _ _ => "srwd"
  | Jump _ => "jmp"
  | PrintInt _ => "pint"
  | PrintStr _ _ => "pstr"
  | ForLoop _ _ => "for"
  | Reg2 op _ _ => reg2_name op
  | Branch op _ _ _ => branch_name op
  | LoadAddr _ _ => "ldad"
  | LoadImm _ _ => "ldim"
  | Clear => "clr"
  | End => "end"
  end.

(** The operands of an instruction, each in its canonical text. *)
Definition operand_texts (i : instr) : list string :=
  match i with
  | Reg3 _ rs rt rd => [reg_name rs; reg_name rt; reg_name rd]
  | ImmArith _ rs imm rd => [reg_name rs; Py.str imm; reg_name rd]
  | LoadWord offset rs rt => [mem_operand offset rs; reg_name rt]
  | StoreWord rt offset rs => [reg_name rt; mem_operand offset rs]
  | Jump target => [target]
  | PrintInt rs => [reg_name rs]
  | PrintStr offset rs => [mem_operand offset rs]
  | ForLoop rs target => [reg_name rs; target]
  | Reg2 _ rs rd => [reg_name rs; reg_name rd]
  | Branch _ rs rt target => [reg_name rs; reg_name rt; target]
  | LoadAddr target rd => [target; reg_name rd]
  | LoadImm imm rd => [Py.str imm; reg_name rd]
  | Clear | End => []
  end.

(** The assembler reads [text] as instruction [i]: the first word is the
    mnemonic in any letter case and, for an instruction with operands,
    what follows, cut at the commas and stripped, is the list of its
    operands.  This leaves the white space of the line free. *)
Definition reads_as (text : string) (i : instr) : Prop :=
  ∃ m ps,
    Py.split_ws_1 text = m :: ps ∧ Py.lower m = mnemonic i ∧
    match operand_texts i with
    | [] => True
    | ops => ∃ rest, ps = [rest] ∧ Py.strip <$> Py.split_char "," rest = ops
    end.

(** The round trip of one instruction: whatever line the assembler
    reads as [i] is assembled to a word that the disassembler writes as
    [i]. *)
Definition round_trips (label_table : gmap string Z) (i : instr) : Prop :=
  ∀ text current_address address,
    reads_as text i →
    ∃ word,
      SMA.assemble_line text label_table current_address = Ok (Some word) ∧
      SMD.disassemble_instruction word address = Ok (decoded_text label_table i).

Definition is_register (r : Z) : Prop := 0 ≤ r < 32.

(** A value of a signed (two's complement) field of [bits] bits. *)
Definition fits_signed (bits v : Z) : Prop := - 2 ^ (bits - 1) ≤ v < 2 ^ (bits - 1).

(** The widest field all of whose values have a decimal numeral that
    [int()] converts: 2^14284 < 10^4300 < 2^14285 - 1. *)
Definition widest_field : Z := 14284.

(** A label operand: an identifier bound to an address of [bits] bits. *)
Definition is_target (label_table : gmap string Z) (bits : Z) (label : string) : Prop :=
  SMA.label_match (label +:+ ":") = Some label ∧
  ∃ address, label_table !! label = Some address ∧ 0 ≤ address < 2 ^ bits.

(** The instructions that make the round trip: every format but the
    register-immediate arithmetic, operands within their fields. *)
Definition round_trip_valid (label_table : gmap string Z) (i : instr) : Prop :=
  match i with
  | Reg3 _ rs rt rd => is_register rs ∧ is_register rt ∧ is_register rd
  | ImmArith _ _ _ _ => False
  | LoadWord offset rs rt | StoreWord rt offset rs =>
      fits_signed 16 offset ∧ is_register rs ∧ is_register rt
  | Jump target => is_target label_table 26 target
  | PrintInt rs => is_register rs
  | PrintStr offset rs => fits_signed 21 offset ∧ is_register rs
  | ForLoop rs target => is_register rs ∧ is_target label_table 21 target
  | Reg2 _ rs rd => is_register rs ∧ is_register rd
  | Branch _ rs rt target =>
      is_register rs ∧ is_register rt ∧ is_target label_table 16 target
  | LoadAddr target rd => is_target label_table 21 target ∧ is_register rd
  | LoadImm imm rd => fits_signed 21 imm ∧ is_register rd
  | Clear | End => True
  end.

(** A character that is neither white space nor a comma: operands are
    made of these. *)
Definition plain (c : ascii) : bool := negb (Py.is_space c) && negb (Ascii.eqb c ",").

(** A character of an identifier. *)
Definition ident_char (c : ascii) : bool :=
  Py.is_alpha c || Py.is_digit c || Ascii.eqb c "_".

(** What the translators do with register [r], checked by evaluation. *)
Definition register_checked (r : Z) : bool :=
  match SMA.parse_register (reg_name r) with
  | Ok code =>
      (code =? Py.format_bin r 5)%string &&
      (SMD.get_register_name code =? reg_name r)%string &&
      (String.length code =? 5)%nat &&
      all_chars plain (reg_name r)
  | Raise _ => false
  end.

(** Assembling [text] gives a word of 32 characters that is decoded as
    [decoded]. *)
Definition trip (label_table : gmap string Z) (current_address address : Z)
    (text decoded : string) : Prop :=
  ∃ word,
    SMA.assemble_line text label_table current_address = Ok (Some word) ∧
    String.length word = 32%nat ∧
    SMD.disassemble_instruction word address = Ok decoded.

(** The program that SMA.py writes to program.asm when it is started
    without arguments, line by line. *)
Definition example_program : list string :=
  (λ ln, ln +:+ String "010" "") <$>
  [ "";
    "# Example Program";
    "start:";
    "    ldim 10, %r1      # Load 10 into r1";
    "    ldim 5, %r2       # Load 5 into r2";
    "    cmb %r1, %r2, %r3 # r3 = r1 + r2 (15)";
    "    pint %r3          # Print value in r3";
    "";
    "    # Branching example";
    "    ife %r1, %r2, skip_sub # If r1 == r2 (false), jump to skip_sub";
    "    mns %r1, %r2, %r4 # r4 = r1 - r2 (5)";
    "    pint %r4          # Print 5";
    "skip_sub:";
    "    cmbi %r3, 100, %r5 # r5 = r3 + 100 (115)";
    "    pint %r5";
    "";
    "    jmp end_program    # Jump to the end";
    "";
    "    # Some other code maybe";
    "    ldwd 0(%r1), %r6   # Example load";
    "";
    "end_program:";
    "    clr               # Clear registers";
    "    end               # End program" ].

(** ** Vocabulary of the further properties *)

Definition imm_code (op : imm_op) : string :=
  match op with
  | Cmbi => "000101" | Mnsi => "001011" | Mlti => "001100" | Dvdi => "001101"
  end.

(** A value that [parse_immediate] accepts for a field of [bits] bits:
    from the least two's complement value to the greatest unsigned one. *)
Definition fits_field (bits v : Z) : Prop := - 2 ^ (bits - 1) ≤ v ≤ 2 ^ bits - 1.

(** The field of a register, of a number and of a label operand. *)
Definition reg_field (r : Z) : string := Py.format_bin r 5.

Definition imm_field (bits : nat) (v : Z) : string :=
  Py.format_bin (v mod 2 ^ Z.of_nat bits) bits.

Definition target_field (label_table : gmap string Z) (bits : nat) (label : string) : string :=
  Py.format_bin (default 0 (label_table !! label)) bits.

(** The word of an instruction, field by field, in the layout that the
    comments of the two programs give for each format. *)
Definition encode (label_table : gmap string Z) (i : instr) : string :=
  match i with
  | Reg3 op rs rt rd =>
      reg3_code op +:+ reg_field rs +:+ reg_field rt +:+ reg_field rd +:+ Py.repeat_char "0" 11
  | ImmArith op rs imm rd =>
      imm_code op +:+ reg_field rs +:+ imm_field 15 imm +:+ reg_field rd
  | LoadWord offset rs rt =>
      "000110" +:+ reg_field rs +:+ reg_field rt +:+ imm_field 16 offset
  | StoreWord rt offset rs =>
      "000111" +:+ reg_field rs +:+ reg_field rt +:+ imm_field 16 offset
  | Jump target => "001000" +:+ target_field label_table 26 target
  | PrintInt rs => "001001" +:+ reg_field rs +:+ Py.repeat_char "0" 21
  | PrintStr offset rs => "001010" +:+ imm_field 21 offset +:+ reg_field rs
  | ForLoop rs target => "001110" +:+ reg_field rs +:+ target_field label_table 21 target
  | Reg2 op rs rd =>
      reg2_code op +:+ reg_field rs +:+ reg_field rd +:+ Py.repeat_char "0" 16
  | Branch op rs rt target =>
      branch_code op +:+ reg_field rs +:+ reg_field rt +:+ target_field label_table 16 target
  | LoadAddr target rd => "010100" +:+ target_field label_table 21 target +:+ reg_field rd
  | LoadImm imm rd => "010101" +:+ imm_field 21 imm +:+ reg_field rd
  | Clear => zeros32
  | End => "11111111111111111111111111111111"
  end.

(** The instructions that [assemble_line] encodes: registers %r0 to
    %r31, numbers that [parse_immediate] accepts for their field, label
    operands that the table binds. *)
Definition encodable (label_table : gmap string Z) (i : instr) : Prop :=
  match i with
  | Reg3 _ rs rt rd => is_register rs ∧ is_register rt ∧ is_register rd
  | ImmArith _ rs imm rd => is_register rs ∧ fits_field 15 imm ∧ is_register rd
  | LoadWord offset rs rt | StoreWord rt offset rs =>
      fits_field 16 offset ∧ is_register rs ∧ is_register rt
  | Jump target => is_Some (label_table !! target)
  | PrintInt rs => is_register rs
  | PrintStr offset rs => fits_field 21 offset ∧ is_register rs
  | ForLoop rs target => is_register rs ∧ is_Some (label_table !! target)
  | Reg2 _ rs rd => is_register rs ∧ is_register rd
  | Branch _ rs rt target =>
      is_register rs ∧ is_register rt ∧ is_Some (label_table !! target)
  | LoadAddr target rd => is_Some (label_table !! target) ∧ is_register rd
  | LoadImm imm rd => fits_field 21 imm ∧ is_register rd
  | Clear | End => True
  end.

(** The entries that Pass 1 records for [lines], line numbers counted
    from [line_num] and addresses from [address]. *)
Fixpoint instructions_from (line_num address : Z) (lines : list string)
  : list SMA.cleaned :=
  match lines with
  | [] => []
  | ln :: rest =>
      if is_instruction ln
      then {| SMA.line := clean ln; SMA.addr := address; SMA.orig_line := line_num |}
           :: instructions_from (line_num + 1) (address + 1) rest
      else instructions_from (line_num + 1) address rest
  end.

Definition initial_state : SMA.pass1_state :=
  {| SMA.label_table := ∅; SMA.cleaned_lines := []; SMA.current_address := 0 |}.

(** A result that, when it is an exception, is a ValueError. *)
Definition value_errors_only {A} (r : result A) : Prop :=
  ∀ e, r = Raise e → ∃ v, e = ValueError v.

(** A result that, when it is a word, is a word over 0 and 1. *)
Definition bits_word (r : result (option string)) : Prop :=
  ∀ code, r = Ok (Some code) → is_bits code = true.

(** A label table whose addresses are not negative. *)
Definition addresses_nonneg (label_table : gmap string Z) : Prop :=
  ∀ x address, label_table !! x = Some address → 0 ≤ address.

(** A line of the output file: the word and a newline. *)
Definition written_line (word : string) : string := word +:+ String "010" "".

(** The label operand of an instruction, if its format has one. *)
Definition label_operand (i : instr) : option string :=
  match i with
  | Jump target | ForLoop _ target | Branch _ _ _ target | LoadAddr target _ => Some target
  | _ => None
  end.

(** A word of the output file: 32 characters over 0 and 1. *)
Definition is_word (w : string) : Prop := is_bits w = true ∧ String.length w = 32%nat.

(** Two entries of [cleaned_lines] with one text and one address. *)
Definition same_code (x y : SMA.cleaned) : Prop :=
  SMA.line x = SMA.line y ∧ SMA.addr x = SMA.addr y.

(** Two states of Pass 1 that differ in the recorded line numbers only. *)
Definition same_program (st st' : SMA.pass1_state) : Prop :=
  SMA.label_table st = SMA.label_table st' ∧
  SMA.current_address st = SMA.current_address st' ∧
  Forall2 same_code (SMA.cleaned_lines st) (SMA.cleaned_lines st').

(** A source line that is not blank once its comment is removed. *)
Definition not_blank (ln : string) : Prop := clean ln ≠ "".

(** The recorded line [item] spells instruction [i], which makes the
    round trip under [label_table]. *)
Definition spells (label_table : gmap string Z) (item : SMA.cleaned) (i : instr) : Prop :=
  reads_as (SMA.line item) i ∧ round_trip_valid label_table i.

(** The width of the address field of an instruction with a label
    operand. *)
Definition target_width (i : instr) : nat :=
  match i with
  | Jump _ => 26
  | ForLoop _ _ | LoadAddr _ _ => 21
  | Branch _ _ _ _ => 16
  | _ => 0
  end.

(** ** Lines as the operand parsers read them *)

(** An operand of an instruction, by its value. *)
Inductive operand :=
| OpReg (r : Z)
| OpImm (v : Z)
| OpMem (offset r : Z)
| OpLabel (x : string).

Definition operands (i : instr) : list operand :=
  match i with
  | Reg3 _ rs rt rd => [OpReg rs; OpReg rt; OpReg rd]
  | ImmArith _ rs imm rd => [OpReg rs; OpImm imm; OpReg rd]
  | LoadWord offset rs rt => [OpMem offset rs; OpReg rt]
  | StoreWord rt offset rs => [OpReg rt; OpMem offset rs]
  | Jump target => [OpLabel target]
  | PrintInt rs => [OpReg rs]
  | PrintStr offset rs => [OpMem offset rs]
  | ForLoop rs target => [OpReg rs; OpLabel target]
  | Reg2 _ rs rd => [OpReg rs; OpReg rd]
  | Branch _ rs rt target => [OpReg rs; OpReg rt; OpLabel target]
  | LoadAddr target rd => [OpLabel target; OpReg rd]
  | LoadImm imm rd => [OpImm imm; OpReg rd]
  | Clear | End => []
  end.

(** The operand text [t] is read as the operand [o]: a register by its
    name, a number by whatever numeral [int()] reads as it, a memory
    operand by whatever [parse_memory_address] splits into the offset
    and the name of the register (the zero-offset shorthand, leading
    zeros, text after the parenthesis), a label by its name.  The
    parsers of registers and numbers remove the commas first. *)
Definition operand_read (o : operand) (t : string) : Prop :=
  match o with
  | OpReg r => Py.remove_char "," t = reg_name r
  | OpImm v => Py.int 10 (Py.remove_char "," t) = Some v
  | OpMem offset r => SMA.parse_memory_address t = Ok (offset, reg_name r)
  | OpLabel x => t = x
  end.

(** The assembler parses the line [text] as instruction [i]: the first
    word is the mnemonic in any letter case and what follows (nothing,
    when the mnemonic stands alone), cut at the commas and stripped, is
    read operand by operand as the operands of [i].  What follows clr
    and end is not looked at. *)
Definition parsed_as (text : string) (i : instr) : Prop :=
  ∃ m ps,
    Py.split_ws_1 text = m :: ps ∧ Py.lower m = mnemonic i ∧
    match operands i with
    | [] => True
    | ops => Forall2 operand_read ops (Py.strip <$> Py.split_char "," (hd "" ps))
    end.

(** A label operand bound to an address of [bits] bits. *)
Definition bound_within (label_table : gmap string Z) (bits : Z) (label : string) : Prop :=
  ∃ address, label_table !! label = Some address ∧ 0 ≤ address < 2 ^ bits.

(** The instructions of the round trip: every format but the
    register-immediate arithmetic, registers %r0 to %r31, signed offsets
    and immediates within the two's complement range of their field,
    label operands bound to addresses that fit their field. *)
Definition within_fields (label_table : gmap string Z) (i : instr) : Prop :=
  match i with
  | Reg3 _ rs rt rd => is_register rs ∧ is_register rt ∧ is_register rd
  | ImmArith _ _ _ _ => False
  | LoadWord offset rs rt | StoreWord rt offset rs =>
      fits_signed 16 offset ∧ is_register rs ∧ is_register rt
  | Jump target => bound_within label_table 26 target
  | PrintInt rs => is_register rs
  | PrintStr offset rs => fits_signed 21 offset ∧ is_register rs
  | ForLoop rs target => is_register rs ∧ bound_within label_table 21 target
  | Reg2 _ rs rd => is_register rs ∧ is_register rd
  | Branch _ rs rt target =>
      is_register rs ∧ is_register rt ∧ bound_within label_table 16 target
  | LoadAddr target rd => bound_within label_table 21 target ∧ is_register rd
  | LoadImm imm rd => fits_signed 21 imm ∧ is_register rd
  | Clear | End => True
  end.

(** * Properties *)

(** ** The static tables *)

Section inverse_tables.
Context (items : list (string * string)).
Hypothesis keys_distinct : NoDup items.*1.
Hypothesis codes_distinct : NoDup items.*2.

Lemma swapped_keys : (prod_swap <$> items).*1 = items.*2.
Proof using Type.
  clear. induction items as [|[k v] l IH]; [done |].
  cbn. f_equal. exact IH.
Qed.

Lemma table_inverse k v :
  (list_to_map items : gmap string string) !! k = Some v ↔
  (list_to_map (prod_swap <$> items) : gmap string string) !! v = Some k.
Proof using keys_distinct codes_distinct.
  rewrite <- (elem_of_list_to_map items k v keys_distinct).
  rewrite <- (elem_of_list_to_map (prod_swap <$> items) v k);
    [| by rewrite swapped_keys].
  rewrite list_elem_of_fmap. split.
  - intros H. by exists (k, v).
  - intros [[k' v'] [[= -> ->] H]]. done.
Qed.

Lemma table_injective k1 k2 v :
  (list_to_map items : gmap string string) !! k1 = Some v →
  (list_to_map items : gmap string string) !! k2 = Some v → k1 = k2.
Proof using keys_distinct codes_distinct.
  rewrite !table_inverse. congruence.
Qed.
End inverse_tables.

Lemma opcode_items_keys : NoDup SMA.opcode_items.*1.
Proof. apply (bool_decide_unpack _). by vm_compute. Qed.

Lemma opcode_items_codes : NoDup SMA.opcode_items.*2.
Proof. apply (bool_decide_unpack _). by vm_compute. Qed.

Lemma register_items_keys : NoDup SMA.register_items.*1.
Proof. apply (bool_decide_unpack _). by vm_compute. Qed.

Lemma register_items_codes : NoDup SMA.register_items.*2.
Proof. apply (bool_decide_unpack _). by vm_compute. Qed.

Lemma mnemonic_items_swap : SMD.mnemonic_items = prod_swap <$> SMA.opcode_items.
Proof. reflexivity. Qed.

Lemma name_items_swap : SMD.name_items = prod_swap <$> SMA.register_items.
Proof. reflexivity. Qed.

(** C9: both tables are injective, the disassembler's tables are their
    exact inverses, so a mnemonic or a register name mapped to its code
    and back is itself (and likewise a code mapped to its name and back);
    opcodes are 6 characters wide and register codes 5. *)
Theorem tables_bijective_and_inverse :
  (∀ m c, SMA.opcodes !! m = Some c ↔ SMD.opcodes_to_mnemonics !! c = Some m) ∧
  (∀ r c, SMA.registers !! r = Some c ↔ SMD.registers_to_names !! c = Some r) ∧
  (∀ m1 m2 c, SMA.opcodes !! m1 = Some c → SMA.opcodes !! m2 = Some c → m1 = m2) ∧
  (∀ r1 r2 c, SMA.registers !! r1 = Some c → SMA.registers !! r2 = Some c → r1 = r2) ∧
  (∀ m c, SMA.opcodes !! m = Some c → String.length c = 6%nat) ∧
  (∀ r c, SMA.registers !! r = Some c → String.length c = 5%nat) ∧
  size SMA.opcodes = 23%nat ∧ size SMA.registers = 32%nat.
Proof.
  unfold SMA.opcodes, SMA.registers, SMD.opcodes_to_mnemonics, SMD.registers_to_names.
  rewrite mnemonic_items_swap, name_items_swap.
  split_and!.
  - intros m c. apply table_inverse; auto using opcode_items_keys, opcode_items_codes.
  - intros r c. apply table_inverse; auto using register_items_keys, register_items_codes.
  - apply table_injective; auto using opcode_items_keys, opcode_items_codes.
  - apply table_injective; auto using register_items_keys, register_items_codes.
  - intros m c H. apply elem_of_list_to_map in H; [| apply opcode_items_keys].
    assert (Forall (λ p, String.length p.2 = 6%nat) SMA.opcode_items) as HF
      by (apply (bool_decide_unpack _); by vm_compute).
    rewrite Forall_forall in HF. apply (HF _ H).
  - intros r c H. apply elem_of_list_to_map in H; [| apply register_items_keys].
    assert (Forall (λ p, String.length p.2 = 5%nat) SMA.register_items) as HF
      by (apply (bool_decide_unpack _); by vm_compute).
    rewrite Forall_forall in HF. apply (HF _ H).
  - by vm_compute.
  - by vm_compute.
Qed.

(** ** Concrete words *)

(** C7: [ldim 10, %r1] assembles to opcode 010101, then 10 on 21 bits,
    then register code 00001, whatever the label table and the address;
    the disassembler turns that word back into [ldim 10, %r1]. *)
Theorem ldim_10_r1_round_trip :
  ∀ (label_table : gmap string Z) (current_address address : Z),
    SMA.assemble_line "ldim 10, %r1" label_table current_address
      = Ok (Some ("010101" +:+ "000000000000000001010" +:+ "00001")) ∧
    Py.format_bin 10 21 = "000000000000000001010" ∧
    SMA.registers !! "%r1" = Some "00001" ∧
    SMD.disassemble_instruction ("010101" +:+ "000000000000000001010" +:+ "00001") address
      = Ok "ldim 10, %r1".
Proof. intros. split_and!; by vm_compute. Qed.

(** ** Opcode 000000 outside the all-zeros word *)


Lemma slice_0_6_inv s :
  Py.slice 0 6 s = "000000" → ∃ r, s = "000000" +:+ r.
Proof.
  unfold Py.slice. cbn [Nat.sub]. intros H.
  do 6 (destruct s as [|? s]; [discriminate H|]; cbn in H;
        injection H as -> H).
  by exists s.
Qed.

(** C10: a 32-character word that starts with 000000 and is not all
    zeros falls to the last branch of the decoder and is answered with
    an error marker; the all-zeros word alone is [clr]. *)
Theorem opcode_zero_not_clr :
  ∀ (binary_string : string) (address : Z),
    String.length binary_string = 32%nat →
    Py.slice 0 6 binary_string = "000000" →
    binary_string ≠ zeros32 →
    SMD.disassemble_instruction binary_string address
      = Ok "; Error: Disassembly logic not implemented for opcode 000000 (clr)" ∧
    SMD.disassemble_instruction zeros32 address = Ok "clr".
Proof.
  intros s a Hlen Hop Hne. split; [| by vm_compute].
  unfold SMD.disassemble_instruction, Py.len. rewrite Hlen, Hop.
  destruct (slice_0_6_inv s Hop) as [r ->].
  apply String.eqb_neq in Hne. fold zeros32. rewrite Hne.
  reflexivity.
Qed.

Lemma opcode_zero_not_clr_witness :
  SMD.disassemble_instruction "00000000000000000000000000000001" 7
    = Ok "; Error: Disassembly logic not implemented for opcode 000000 (clr)" ∧
  SMD.disassemble_instruction zeros32 7 = Ok "clr".
Proof.
  apply (opcode_zero_not_clr "00000000000000000000000000000001" 7);
    [reflexivity | reflexivity | discriminate].
Defined.

(** ** Pass 1: labels *)


Lemma pass1_line_spec st n ln :
  SMA.pass1_line st n ln =
    match label_of ln with
    | Some x =>
        match SMA.label_table st !! x with
        | Some _ => Raise (ValueError (DuplicateLabel x n))
        | None =>
            Ok {| SMA.label_table := <[x := SMA.current_address st]> (SMA.label_table st);
                  SMA.cleaned_lines := SMA.cleaned_lines st;
                  SMA.current_address := SMA.current_address st |}
        end
    | None =>
        if is_instruction ln then
          Ok {| SMA.label_table := SMA.label_table st;
                SMA.cleaned_lines := SMA.cleaned_lines st ++
                  [ {| SMA.line := clean ln; SMA.addr := SMA.current_address st;
                       SMA.orig_line := n |} ];
                SMA.current_address := SMA.current_address st + 1 |}
        else Ok st
    end.
Proof.
  unfold SMA.pass1_line, is_instruction, label_of. fold (clean ln).
  destruct (String.eqb_spec (clean ln) "") as [-> | Hne]; [reflexivity |].
  destruct (SMA.label_match (clean ln)) as [x|]; reflexivity.
Qed.

Lemma labels_of_cons ln lines :
  labels_of (ln :: lines) =
    match label_of ln with Some x => x :: labels_of lines | None => labels_of lines end.
Proof. reflexivity. Qed.

Lemma count_instr_cons ln lines :
  count_instr (ln :: lines) = (if is_instruction ln then 1 else 0) + count_instr lines.
Proof.
  unfold count_instr. rewrite filter_cons.
  destruct (is_instruction ln); case_decide; try done;
    rewrite ?length_cons; lia.
Qed.

Lemma label_in_labels_of lines j lj x :
  lines !! j = Some lj → label_of lj = Some x → x ∈ labels_of lines.
Proof.
  intros Hj Hx. apply list_elem_of_omap. exists lj. split; [| done].
  by apply list_elem_of_lookup_2 with j.
Qed.

(** A label that is already bound and defined again stops Pass 1. *)
Lemma pass1_rebinding lines : ∀ st n x,
  is_Some (SMA.label_table st !! x) → x ∈ labels_of lines →
  ∃ y m, SMA.pass1_from st n lines = Raise (ValueError (DuplicateLabel y m)).
Proof.
  induction lines as [|ln rest IH]; intros st n x Hx Hin.
  - by apply elem_of_nil in Hin.
  - cbn [SMA.pass1_from]. rewrite pass1_line_spec.
    rewrite labels_of_cons in Hin.
    destruct (label_of ln) as [z|] eqn:Hz.
    + destruct (SMA.label_table st !! z) eqn:Hlz; [by eexists _, _ |].
      cbn. apply elem_of_cons in Hin as [-> | Hin].
      { rewrite Hlz in Hx. by destruct Hx. }
      apply (IH _ _ x); [| done]. cbn.
      rewrite lookup_insert_ne; [done |]. intros ->. rewrite Hlz in Hx. by destruct Hx.
    + destruct (is_instruction ln); cbn; by apply (IH _ _ x).
Qed.

Lemma pass1_duplicate lines : ∀ st n i j li lj x,
  (i < j)%nat → lines !! i = Some li → lines !! j = Some lj →
  label_of li = Some x → label_of lj = Some x →
  ∃ y m, SMA.pass1_from st n lines = Raise (ValueError (DuplicateLabel y m)).
Proof.
  induction lines as [|ln rest IH]; intros st n i j li lj x Hij Hi Hj Hli Hlj.
  - done.
  - destruct j as [|j]; [lia |]. cbn in Hj.
    cbn [SMA.pass1_from]. rewrite pass1_line_spec.
    destruct i as [|i].
    + cbn in Hi. injection Hi as ->. rewrite Hli.
      destruct (SMA.label_table st !! x) eqn:Hlx; [by eexists _, _ |].
      cbn. apply (pass1_rebinding _ _ _ x).
      * cbn. rewrite lookup_insert_eq. by eexists.
      * by apply label_in_labels_of with j lj.
    + cbn in Hi.
      destruct (label_of ln) as [z|].
      * destruct (SMA.label_table st !! z); [by eexists _, _ |].
        cbn. apply (IH _ _ i j li lj x); [lia | done..].
      * destruct (is_instruction ln); cbn; apply (IH _ _ i j li lj x); (lia || done).
Qed.

(** C5: a program with two label-definition lines for one identifier
    ends in the duplicate-label error of Pass 1 and leaves the output
    file unwritten. *)
Theorem duplicate_label_no_output :
  ∀ (lines : list string) (i j : nat) (li lj x : string),
    (i < j)%nat → lines !! i = Some li → lines !! j = Some lj →
    label_of li = Some x → label_of lj = Some x →
    (∃ y m, SMA.run_assembler (Some lines) = Exit1 (ValueError (DuplicateLabel y m))) ∧
    output_of (SMA.run_assembler (Some lines)) = None.
Proof.
  intros lines i j li lj x Hij Hi Hj Hli Hlj.
  destruct (pass1_duplicate lines
              {| SMA.label_table := ∅; SMA.cleaned_lines := []; SMA.current_address := 0 |}
              1 i j li lj x Hij Hi Hj Hli Hlj) as (y & m & H).
  unfold SMA.run_assembler, SMA.pass1. rewrite H. split; [by eexists _, _ | done].
Qed.

Lemma duplicate_label_no_output_witness :
  (∃ y m, SMA.run_assembler (Some ["loop:"; "  pint %r1"; "loop:  # again"; "end"])
          = Exit1 (ValueError (DuplicateLabel y m))) ∧
  output_of (SMA.run_assembler (Some ["loop:"; "  pint %r1"; "loop:  # again"; "end"])) = None.
Proof.
  apply (duplicate_label_no_output
           ["loop:"; "  pint %r1"; "loop:  # again"; "end"] 0 2 "loop:" "loop:  # again" "loop");
    [lia | reflexivity | reflexivity | reflexivity | reflexivity].
Defined.

(** ** Pass 2 emits one word per recorded instruction *)

Lemma opcode_width m c : SMA.opcodes !! m = Some c → String.length c = 6%nat.
Proof.
  intros H. apply elem_of_list_to_map in H; [| apply opcode_items_keys].
  assert (Forall (λ p, String.length p.2 = 6%nat) SMA.opcode_items) as HF
    by (apply (bool_decide_unpack _); by vm_compute).
  rewrite Forall_forall in HF. apply (HF _ H).
Qed.

Lemma lower_length s : String.length (Py.lower s) = String.length s.
Proof. induction s; simpl; congruence. Qed.

Lemma span_word_first c s :
  Py.is_space c = false → ∃ w r, Py.span_word (String c s) = (String c w, r).
Proof. intros H. simpl. rewrite H. destruct (Py.span_word s). by eexists _, _. Qed.

Lemma lstrip_first s c r : Py.lstrip s = String c r → Py.is_space c = false.
Proof.
  induction s as [|d s IH]; simpl; [done |].
  destruct (Py.is_space d) eqn:Hd; [done |]. by intros [= <- <-].
Qed.

Lemma split_ws_1_first ln p0 ps : Py.split_ws_1 ln = p0 :: ps → p0 ≠ "".
Proof.
  unfold Py.split_ws_1. destruct (Py.lstrip ln) as [|c r] eqn:Hl; [done |].
  apply lstrip_first in Hl. destruct (span_word_first c r Hl) as (w & r' & ->).
  destruct (Py.lstrip r'); by intros [= <- <-].
Qed.

Lemma append_nonempty a b : a ≠ "" → a +:+ b ≠ "".
Proof. by destruct a. Qed.


Lemma emits_word_raise e : emits_word (Raise e).
Proof. by intros x. Qed.

Lemma emits_word_ok a b : a ≠ "" → emits_word (Ok (Some (a +:+ b))).
Proof. intros Ha x [= <-]. eexists. split; [done |]. by apply append_nonempty. Qed.

Lemma emits_word_bind {A} (m : result A) f :
  (∀ a, emits_word (f a)) → emits_word (m ≫= f).
Proof. intros Hf. destruct m as [a|e]; [apply Hf | apply emits_word_raise]. Qed.

Ltac emits_word_step :=
  lazymatch goal with
  | |- emits_word (Raise _) => apply emits_word_raise
  | |- emits_word (Ok (Some (_ +:+ _))) => apply emits_word_ok; assumption
  | |- emits_word (mbind _ _) => apply emits_word_bind; intros ?
  | |- emits_word (if ?b then _ else _) => destruct b
  | |- emits_word (match ?x with _ => _ end) => destruct x
  end.

Lemma assemble_line_emits_word ln lt a : emits_word (SMA.assemble_line ln lt a).
Proof.
  unfold SMA.assemble_line.
  destruct (Py.split_ws_1 ln) as [|p0 ps] eqn:Hs; [apply emits_word_raise |].
  apply split_ws_1_first in Hs.
  assert (Py.lower p0 ≠ "") as Hop.
  { intros E. apply Hs. pose proof (lower_length p0) as Hl. rewrite E in Hl.
    by destruct p0. }
  apply String.eqb_neq in Hop. rewrite Hop.
  destruct (Py.lower p0 =? "clr")%string; [by apply emits_word_ok |].
  destruct (Py.lower p0 =? "end")%string; [by intros x [= <-]; eexists |].
  destruct (SMA.opcodes !! Py.lower p0) as [opcode_bin|] eqn:Hc;
    [| apply emits_word_raise].
  apply opcode_width in Hc.
  assert (opcode_bin ≠ "") as Hne by (by destruct opcode_bin).
  clear Hc Hop Hs.
  generalize (Py.strip <$> Py.split_char "," match ps with [] => "" | p1 :: _ => p1 end).
  intros operands.
  repeat emits_word_step.
Qed.

Lemma pass2_words lt items : ∀ acc out,
  SMA.pass2 lt items acc = Ok out →
  ∃ codes, out = acc ++ codes ∧
    Forall2 (λ item code, SMA.assemble_line (SMA.line item) lt (SMA.addr item)
                            = Ok (Some code)) items codes.
Proof.
  induction items as [|item rest IH]; intros acc out H.
  - injection H as <-. exists []. by rewrite app_nil_r.
  - cbn [SMA.pass2] in H.
    destruct (SMA.assemble_line (SMA.line item) lt (SMA.addr item)) as [r|e] eqn:Ha;
      [| done].
    destruct (assemble_line_emits_word _ _ _ _ Ha) as (code & -> & Hne).
    cbn in H. apply String.eqb_neq in Hne. rewrite Hne in H.
    destruct (negb (Py.len code =? 32)); [done |].
    destruct (IH _ _ H) as (codes & -> & HF).
    exists (code :: codes). split; [by rewrite <- app_assoc |]. by constructor.
Qed.

(** Pass 1 on a program whose labels are distinct and not yet bound. *)
Lemma pass1_from_ok lines : ∀ st n,
  NoDup (labels_of lines) →
  (∀ x, x ∈ labels_of lines → SMA.label_table st !! x = None) →
  ∃ st', SMA.pass1_from st n lines = Ok st' ∧
    SMA.current_address st' = SMA.current_address st + count_instr lines ∧
    (∀ k ln x, lines !! k = Some ln → label_of ln = Some x →
       SMA.label_table st' !! x
         = Some (SMA.current_address st + count_instr (take k lines))) ∧
    (∀ x, x ∉ labels_of lines → SMA.label_table st' !! x = SMA.label_table st !! x).
Proof.
  induction lines as [|ln rest IH]; intros st n Hnd Hfresh.
  - exists st. split_and!; [done | unfold count_instr; cbn; lia | done | done].
  - cbn [SMA.pass1_from]. rewrite pass1_line_spec.
    rewrite labels_of_cons in Hnd, Hfresh.
    destruct (label_of ln) as [z|] eqn:Hz.
    + apply NoDup_cons in Hnd as [Hz_notin Hnd].
      rewrite (Hfresh z) by apply list_elem_of_here.
      set (st1 := {| SMA.label_table := <[z:=SMA.current_address st]> (SMA.label_table st);
                     SMA.cleaned_lines := SMA.cleaned_lines st;
                     SMA.current_address := SMA.current_address st |}).
      destruct (IH st1 (n + 1) Hnd) as (st' & Hrun & Haddr & Hdef & Hother).
      { intros x Hx. cbn. rewrite lookup_insert_ne by (intros ->; done).
        apply Hfresh. by apply list_elem_of_further. }
      cbn in Haddr, Hdef, Hother.
      exists st'. split_and!; [exact Hrun | | |].
      * rewrite count_instr_cons. unfold is_instruction. rewrite Hz.
        rewrite andb_false_r. lia.
      * intros [|k] l x Hl Hx; cbn in Hl.
        -- injection Hl as <-. rewrite Hz in Hx. injection Hx as <-.
           rewrite Hother by done. rewrite lookup_insert_eq.
           unfold count_instr. cbn. f_equal. lia.
        -- rewrite (Hdef k l x Hl Hx). cbn [take]. rewrite count_instr_cons.
           unfold is_instruction at 1. rewrite Hz, andb_false_r. f_equal.
      * intros x Hx. rewrite labels_of_cons, Hz in Hx.
        apply not_elem_of_cons in Hx as [Hxz Hx].
        rewrite Hother by done. by rewrite lookup_insert_ne.
    + rewrite labels_of_cons, Hz.
      destruct (is_instruction ln) eqn:Hi.
      * set (st1 := {| SMA.label_table := SMA.label_table st;
                       SMA.cleaned_lines := _;
                       SMA.current_address := SMA.current_address st + 1 |}).
        destruct (IH st1 (n + 1) Hnd) as (st' & Hrun & Haddr & Hdef & Hother);
          [exact Hfresh |].
        cbn in Haddr, Hdef, Hother.
        exists st'. split_and!; [exact Hrun | | | done].
        -- rewrite count_instr_cons, Hi. lia.
        -- intros [|k] l x Hl Hx; cbn in Hl.
           ++ injection Hl as <-. congruence.
           ++ rewrite (Hdef k l x Hl Hx). cbn [take]. rewrite count_instr_cons, Hi.
              f_equal. lia.
      * destruct (IH st (n + 1) Hnd) as (st' & Hrun & Haddr & Hdef & Hother);
          [exact Hfresh |].
        exists st'. split_and!; [exact Hrun | | | done].
        -- rewrite count_instr_cons, Hi. lia.
        -- intros [|k] l x Hl Hx; cbn in Hl.
           ++ injection Hl as <-. congruence.
           ++ rewrite (Hdef k l x Hl Hx). cbn [take]. rewrite count_instr_cons, Hi.
              f_equal.
Qed.

Lemma assemble_line_any_address ln lt a a' :
  SMA.assemble_line ln lt a = SMA.assemble_line ln lt a'.
Proof. reflexivity. Qed.

Example forward_reference_run :
  SMA.run_assembler (Some ["jmp done"; "pint %r1"; "done:"; "jmp done"; "end"])
    = Written [ "00100000000000000000000000000010";
                "00100100001000000000000000000000";
                "00100000000000000000000000000010";
                "11111111111111111111111111111111" ].
Proof. by vm_compute. Qed.

(** ** Characters and digit strings *)

Ltac ascii_cases c :=
  destruct c as [[|] [|] [|] [|] [|] [|] [|] [|]]; try discriminate; try reflexivity.

Lemma class_separates (P : ascii → bool) c x :
  P c = true → P x = false → Ascii.eqb x c = false ∧ Ascii.eqb c x = false.
Proof.
  intros Hc Hx. split; apply Ascii.eqb_neq; intros E; subst; congruence.
Qed.

Lemma digit_not_space c : Py.is_digit c = true → Py.is_space c = false.
Proof. ascii_cases c. Qed.

Lemma digit_not_int_space c : Py.is_digit c = true → Py.is_int_space c = false.
Proof. ascii_cases c. Qed.

Lemma digit_below_digit base c : digit_below base c = true → Py.is_digit c = true.
Proof. unfold digit_below. by intros [? _]%andb_true_iff. Qed.

Lemma all_chars_impl (P Q : ascii → bool) s :
  (∀ c, P c = true → Q c = true) → all_chars P s = true → all_chars Q s = true.
Proof.
  intros HPQ. induction s as [|c s IH]; simpl; [done |].
  intros [Hc Hs]%andb_true_iff. rewrite (HPQ c Hc). by apply IH.
Qed.

Lemma all_chars_app P a b :
  all_chars P (a +:+ b) = all_chars P a && all_chars P b.
Proof. induction a as [|c a IH]; simpl; [done |]. by rewrite IH, andb_assoc. Qed.

Lemma all_chars_substring P n m s :
  all_chars P s = true → all_chars P (substring n m s) = true.
Proof.
  revert n m. induction s as [|c s IH]; intros n m H.
  - by destruct n, m.
  - simpl in H. apply andb_true_iff in H as [Hc Hs].
    destruct n as [|n]; [destruct m as [|m] |]; simpl; [done | | by apply IH].
    rewrite Hc. by apply IH.
Qed.

Lemma scan_digits_all base s : ∀ n acc,
  all_chars (digit_below base) s = true →
  Py.scan_digits base s false n acc
    = Some (digits_value base acc s, (n + String.length s)%nat, "").
Proof.
  induction s as [|c s IH]; intros n acc H; simpl.
  - by rewrite Nat.add_0_r.
  - simpl in H. apply andb_true_iff in H as [Hc Hs].
    pose proof (digit_below_digit _ _ Hc) as Hd.
    destruct (class_separates Py.is_digit c "_" Hd eq_refl) as [_ ->].
    unfold digit_below in Hc. rewrite Hc.
    rewrite (IH _ _ Hs). do 2 f_equal. f_equal. lia.
Qed.

Lemma strip_prefix_other P x c s :
  P c = true → P x = false → Py.strip_prefix (String x "") (String c s) = None.
Proof.
  intros Hc Hx. cbn [Py.strip_prefix].
  by destruct (class_separates P c x Hc Hx) as [-> _].
Qed.

Lemma skip_int_space_digit c s :
  Py.is_digit c = true → Py.skip_int_space (String c s) = String c s.
Proof. intros H. simpl. by rewrite (digit_not_int_space c H). Qed.

Lemma strip_prefix_cons a p c s :
  Py.strip_prefix (String a p) (String c s)
    = if Ascii.eqb a c then Py.strip_prefix p s else None.
Proof. reflexivity. Qed.

(** A digit string does not start with the prefix of a base. *)
Lemma no_base_prefix base x s :
  all_chars (digit_below base) s = true → Py.is_digit x = false →
  Py.starts_with (String "0" (String x "")) s = false.
Proof.
  intros Hs Hx. unfold Py.starts_with.
  destruct s as [|c [|d s]]; [done | |]; rewrite strip_prefix_cons.
  - by destruct (Ascii.eqb "0" c).
  - destruct (Ascii.eqb "0" c); [| done]. rewrite strip_prefix_cons.
    cbn [all_chars] in Hs. apply andb_true_iff in Hs as [_ Hs].
    apply andb_true_iff in Hs as [Hd _]. apply digit_below_digit in Hd.
    by destruct (class_separates Py.is_digit d x Hd Hx) as [-> _].
Qed.

(** [int] on a non-empty string of digits of the base: the value, unless
    the string has more digits than base 10 allows. *)
Lemma int_digits_limit base s :
  all_chars (digit_below base) s = true → s ≠ "" →
  Py.int base s =
    if (base =? 10) && (Py.max_str_digits <? Py.len s) then None
    else Some (digits_value base 0 s).
Proof.
  intros Hs Hne. destruct s as [|c s]; [done |].
  pose proof Hs as Hall. simpl in Hs. apply andb_true_iff in Hs as [Hc Hs].
  pose proof (digit_below_digit _ _ Hc) as Hd.
  unfold Py.int. rewrite (skip_int_space_digit c s Hd).
  rewrite (strip_prefix_other Py.is_digit "+" c s Hd eq_refl).
  rewrite (strip_prefix_other Py.is_digit "-" c s Hd eq_refl).
  rewrite !(no_base_prefix base) by done. rewrite andb_false_r.
  unfold Py.starts_with. rewrite (strip_prefix_other Py.is_digit "_" c s Hd eq_refl).
  rewrite (scan_digits_all base _ 0 0 Hall). reflexivity.
Qed.

Lemma int_minus_digits_limit base s :
  all_chars (digit_below base) s = true → s ≠ "" →
  Py.int base (String "-" s) =
    if (base =? 10) && (Py.max_str_digits <? Py.len s) then None
    else Some (- digits_value base 0 s).
Proof.
  intros Hs Hne. destruct s as [|c s]; [done |].
  pose proof Hs as Hall. simpl in Hs. apply andb_true_iff in Hs as [Hc Hs].
  pose proof (digit_below_digit _ _ Hc) as Hd.
  unfold Py.int. cbn [Py.skip_int_space]. change (Py.is_int_space "-") with false.
  cbv iota.
  change (Py.strip_prefix "+" (String "-" (String c s))) with (@None string).
  change (Py.strip_prefix "-" (String "-" (String c s))) with (Some (String c s)).
  cbv iota beta.
  rewrite !(no_base_prefix base) by done. rewrite andb_false_r.
  unfold Py.starts_with. rewrite (strip_prefix_other Py.is_digit "_" c s Hd eq_refl).
  rewrite (scan_digits_all base _ 0 0 Hall). reflexivity.
Qed.

Lemma within_limit base s :
  (base = 10 → Py.len s ≤ Py.max_str_digits) →
  (base =? 10) && (Py.max_str_digits <? Py.len s) = false.
Proof.
  intros H. destruct (Z.eqb_spec base 10) as [E |]; [| done].
  cbn [andb]. specialize (H E). lia.
Qed.

Lemma int_digits base s :
  all_chars (digit_below base) s = true → s ≠ "" →
  (base = 10 → Py.len s ≤ Py.max_str_digits) →
  Py.int base s = Some (digits_value base 0 s).
Proof. intros Hs Hne Hl. by rewrite int_digits_limit, within_limit. Qed.

Lemma int_minus_digits base s :
  all_chars (digit_below base) s = true → s ≠ "" →
  (base = 10 → Py.len s ≤ Py.max_str_digits) →
  Py.int base (String "-" s) = Some (- digits_value base 0 s).
Proof. intros Hs Hne Hl. by rewrite int_minus_digits_limit, within_limit. Qed.

(** Base 2 has no limit. *)
Lemma int_bits s : is_bits s = true → s ≠ "" → Py.int 2 s = Some (digits_value 2 0 s).
Proof. intros Hs Hne. by apply int_digits. Qed.

(** ** The disassembler on words over 0 and 1 *)

Lemma bin_to_int_bits s :
  is_bits s = true → SMD.bin_to_int s = Ok (digits_value 2 0 s).
Proof.
  intros H. unfold SMD.bin_to_int, SMD.int2.
  destruct (String.eqb_spec s "") as [-> | Hne]; [done |].
  by rewrite (int_bits s H Hne).
Qed.

Lemma returns_ok {A} (a : A) : returns (Ok a).
Proof. by exists a. Qed.

Lemma returns_bind {A B} (m : result A) (f : A → result B) :
  returns m → (∀ a, returns (f a)) → returns (m ≫= f).
Proof. intros [a ->] Hf. apply Hf. Qed.

Lemma bin_to_int_returns s : is_bits s = true → returns (SMD.bin_to_int s).
Proof. intros H. rewrite (bin_to_int_bits s H). apply returns_ok. Qed.

Lemma bin_to_signed_int_returns s :
  is_bits s = true → returns (SMD.bin_to_signed_int s).
Proof.
  intros H. unfold SMD.bin_to_signed_int, SMD.int2.
  destruct (String.eqb_spec s "") as [-> | Hne]; [apply returns_ok |].
  rewrite (int_bits s H Hne). cbn [mbind result_bind].
  destruct (negb _); apply returns_ok.
Qed.

Lemma slice_bits a b s : is_bits s = true → is_bits (Py.slice a b s) = true.
Proof. apply all_chars_substring. Qed.

Ltac returns_step :=
  lazymatch goal with
  | |- returns (Ok _) => apply returns_ok
  | |- returns (mbind _ (SMD.bin_to_int _)) =>
      apply returns_bind; [apply bin_to_int_returns; by apply slice_bits | intros ?]
  | |- returns (mbind _ (SMD.bin_to_signed_int _)) =>
      apply returns_bind; [apply bin_to_signed_int_returns; by apply slice_bits | intros ?]
  | |- returns (if ?b then _ else _) => destruct b
  | |- returns (match ?x with _ => _ end) => destruct x
  end.

(** On a word over 0 and 1 the decoder raises nothing. *)
Lemma disassemble_instruction_returns s a :
  is_bits s = true → returns (SMD.disassemble_instruction s a).
Proof. intros H. unfold SMD.disassemble_instruction. repeat returns_step. Qed.

Lemma disassemble_from_acc_app lines : ∀ a acc1 acc2,
  SMD.disassemble_from a lines (acc1 ++ acc2)
    = out ← SMD.disassemble_from a lines acc2; Ok (acc1 ++ out).
Proof.
  induction lines as [|ln rest IH]; intros a acc1 acc2; cbn [SMD.disassemble_from].
  - done.
  - destruct (Py.strip ln =? "")%string; [apply IH |].
    destruct (negb (Py.len (Py.strip ln) =? 32)).
    + rewrite <- app_assoc. apply IH.
    + destruct (SMD.disassemble_instruction (Py.strip ln) a); cbn; [| done].
      rewrite <- app_assoc. apply IH.
Qed.

Lemma disassemble_from_acc lines a acc :
  SMD.disassemble_from a lines acc
    = out ← SMD.disassemble_from a lines []; Ok (acc ++ out).
Proof. rewrite <- (disassemble_from_acc_app lines a acc []). by rewrite app_nil_r. Qed.

Lemma disassemble_from_app pre : ∀ post a acc,
  SMD.disassemble_from a (pre ++ post) acc
    = acc' ← SMD.disassemble_from a pre acc;
      SMD.disassemble_from (a + Z.of_nat (length pre)) post acc'.
Proof.
  induction pre as [|ln rest IH]; intros post a acc.
  - cbn. by rewrite Z.add_0_r.
  - cbn [app SMD.disassemble_from length].
    replace (a + Z.of_nat (S (length rest))) with (a + 1 + Z.of_nat (length rest)) by lia.
    destruct (Py.strip ln =? "")%string; [apply IH |].
    destruct (negb (Py.len (Py.strip ln) =? 32)); [apply IH |].
    destruct (SMD.disassemble_instruction (Py.strip ln) a); cbn; [apply IH | done].
Qed.

Lemma disassemble_from_returns lines : ∀ a acc,
  Forall (λ ln, is_bits (Py.strip ln) = true) lines →
  returns (SMD.disassemble_from a lines acc).
Proof.
  induction lines as [|ln rest IH]; intros a acc H; cbn [SMD.disassemble_from].
  - apply returns_ok.
  - apply Forall_cons in H as [Hln Hrest].
    destruct (Py.strip ln =? "")%string; [by apply IH |].
    destruct (negb (Py.len (Py.strip ln) =? 32)); [by apply IH |].
    apply returns_bind; [by apply disassemble_instruction_returns |].
    intros t. by apply IH.
Qed.

Lemma disassemble_from_length lines : ∀ a acc out,
  SMD.disassemble_from a lines acc = Ok out →
  length out = (length acc + count_words lines)%nat.
Proof.
  unfold count_words.
  induction lines as [|ln rest IH]; intros a acc out; cbn [SMD.disassemble_from].
  - intros [= <-]. cbn. lia.
  - rewrite filter_cons.
    destruct (String.eqb_spec (Py.strip ln) "") as [E | E].
    + rewrite decide_False by (intros H; by apply H). apply IH.
    + rewrite decide_True by done. cbn [length].
      destruct (negb (Py.len (Py.strip ln) =? 32)).
      * intros H. rewrite (IH _ _ _ H), length_app. cbn. lia.
      * destruct (SMD.disassemble_instruction (Py.strip ln) a); [| done].
        cbn. intros H. rewrite (IH _ _ _ H), length_app. cbn. lia.
Qed.

(** C8: in an input of lines over 0 and 1, a line of 31 characters is
    answered with the invalid-length marker at its place among the
    output lines (one output line per word before it), and the lines
    before and after it are decoded to the same text as when a 32-bit
    word stands in its place. *)
Theorem short_line_marked_and_skipped :
  ∀ (pre post : list string) (bad good : string),
    Forall (λ ln, is_bits (Py.strip ln) = true) (pre ++ post) →
    String.length (Py.strip bad) = 31%nat →
    String.length (Py.strip good) = 32%nat → is_bits (Py.strip good) = true →
    ∃ out_pre out_post text,
      SMD.disassemble_from 0 pre [] = Ok out_pre ∧
      length out_pre = count_words pre ∧
      SMD.disassemble_from (Z.of_nat (length pre) + 1) post [] = Ok out_post ∧
      SMD.disassemble_instruction (Py.strip good) (Z.of_nat (length pre)) = Ok text ∧
      SMD.run_disassembler (Some (pre ++ bad :: post))
        = Written (out_pre
                   ++ ("; Error: Invalid length at address " +:+ Py.str (Z.of_nat (length pre)))
                   :: out_post) ∧
      SMD.run_disassembler (Some (pre ++ good :: post))
        = Written (out_pre ++ text :: out_post).
Proof.
  intros pre post bad good Hall Hbad Hgood Hbits.
  apply Forall_app in Hall as [Hpre Hpost].
  destruct (disassemble_from_returns pre 0 [] Hpre) as [out_pre Hop].
  destruct (disassemble_from_returns post (Z.of_nat (length pre) + 1) [] Hpost)
    as [out_post Hopost].
  destruct (disassemble_instruction_returns (Py.strip good) (Z.of_nat (length pre)) Hbits)
    as [text Ht].
  exists out_pre, out_post, text.
  split; [done |]. split; [by rewrite (disassemble_from_length _ _ _ _ Hop) |].
  split; [done |]. split; [done |]. split.
  - unfold SMD.run_disassembler. rewrite disassemble_from_app, Hop.
    cbn [mbind result_bind SMD.disassemble_from]. rewrite Z.add_0_l.
    assert ((Py.strip bad =? "")%string = false) as ->
      by (apply String.eqb_neq; intros E; by rewrite E in Hbad).
    unfold Py.len at 1. rewrite Hbad.
    change (negb (Z.of_nat 31 =? 32)) with true. cbv iota.
    rewrite disassemble_from_acc, Hopost. cbn. by rewrite <- app_assoc.
  - unfold SMD.run_disassembler. rewrite disassemble_from_app, Hop.
    cbn [mbind result_bind SMD.disassemble_from]. rewrite Z.add_0_l.
    assert ((Py.strip good =? "")%string = false) as ->
      by (apply String.eqb_neq; intros E; by rewrite E in Hgood).
    unfold Py.len at 1. rewrite Hgood.
    change (negb (Z.of_nat 32 =? 32)) with false. cbv iota.
    rewrite Ht. cbn [mbind result_bind].
    rewrite disassemble_from_acc, Hopost. cbn. by rewrite <- app_assoc.
Qed.

Lemma short_line_marked_and_skipped_witness :
  ∃ out_pre out_post text,
    SMD.disassemble_from 0 ["01010100000000000000000101000001"] [] = Ok out_pre ∧
    length out_pre = count_words ["01010100000000000000000101000001"] ∧
    SMD.disassemble_from (Z.of_nat 1 + 1) ["11111111111111111111111111111111"] []
      = Ok out_post ∧
    SMD.disassemble_instruction (Py.strip "00100100011000000000000000000000") (Z.of_nat 1)
      = Ok text ∧
    SMD.run_disassembler
      (Some (["01010100000000000000000101000001"]
             ++ "0010010001100000000000000000000" :: ["11111111111111111111111111111111"]))
      = Written (out_pre
                 ++ ("; Error: Invalid length at address " +:+ Py.str (Z.of_nat 1))
                 :: out_post) ∧
    SMD.run_disassembler
      (Some (["01010100000000000000000101000001"]
             ++ "00100100011000000000000000000000" :: ["11111111111111111111111111111111"]))
      = Written (out_pre ++ text :: out_post).
Proof.
  apply (short_line_marked_and_skipped
           ["01010100000000000000000101000001"] ["11111111111111111111111111111111"]
           "0010010001100000000000000000000" "00100100011000000000000000000000");
    [repeat constructor | reflexivity | reflexivity | reflexivity].
Defined.

Example short_line_run :
  SMD.run_disassembler
    (Some ["01010100000000000000000101000001"; "0010010001100000000000000000000";
           "11111111111111111111111111111111"])
    = Written ["ldim 10, %r1"; "; Error: Invalid length at address 1"; "end"].
Proof. by vm_compute. Qed.

(** ** [str] and [int] are inverse on integers *)

Lemma digit_below_10 c : Py.is_digit c = true → digit_below 10 c = true.
Proof. unfold digit_below. ascii_cases c. Qed.

Lemma uint_digits d : all_chars Py.is_digit (NilEmpty.string_of_uint d) = true.
Proof. induction d; simpl; done. Qed.

Lemma uint_value_acc d : ∀ acc,
  digits_value 10 (Zpos acc) (NilEmpty.string_of_uint d) = Zpos (Pos.of_uint_acc d acc).
Proof.
  induction d; intros acc; cbn [NilEmpty.string_of_uint digits_value Pos.of_uint_acc];
    [done | rewrite <- IHd; f_equal; cbn [Py.digit_value]; vm_compute Py.digit_value; lia ..].
Qed.

Lemma uint_value d :
  digits_value 10 0 (NilEmpty.string_of_uint d) = Z.of_N (Pos.of_uint d).
Proof.
  induction d; cbn [NilEmpty.string_of_uint digits_value Pos.of_uint];
    [done | exact IHd | apply (uint_value_acc d 1%positive) | ..].
  all: match goal with
       | |- digits_value 10 ?a _ = Z.of_N (N.pos (Pos.of_uint_acc _ ?p)) =>
           change a with (Zpos p); apply uint_value_acc
       end.
Qed.

Lemma pos_digits_digits p : all_chars (digit_below 10) (pos_digits p) = true.
Proof.
  apply all_chars_impl with Py.is_digit; [apply digit_below_10 | apply uint_digits].
Qed.

Lemma pos_digits_nonempty p : pos_digits p ≠ "".
Proof.
  unfold pos_digits. pose proof (Unsigned.to_uint_nonnil p) as H.
  by destruct (Pos.to_uint p).
Qed.

Lemma pos_digits_value p : digits_value 10 0 (pos_digits p) = Zpos p.
Proof. unfold pos_digits. by rewrite uint_value, Unsigned.of_to. Qed.

Lemma str_pos p : Py.str (Zpos p) = pos_digits p.
Proof.
  unfold Py.str, pos_digits. cbn [Z.to_int NilZero.string_of_int].
  pose proof (Unsigned.to_uint_nonnil p) as H.
  by destruct (Pos.to_uint p).
Qed.

Lemma str_neg p : Py.str (Zneg p) = String "-" (pos_digits p).
Proof.
  unfold Py.str, pos_digits. cbn [Z.to_int NilZero.string_of_int].
  pose proof (Unsigned.to_uint_nonnil p) as H.
  by destruct (Pos.to_uint p).
Qed.

Lemma digit_value_range c : Py.is_digit c = true → 0 ≤ Py.digit_value c ≤ 9.
Proof.
  destruct c as [[|] [|] [|] [|] [|] [|] [|] [|]]; intros H;
    first [discriminate H | vm_compute; split; discriminate].
Qed.

Lemma digits_value_lower s : ∀ acc,
  all_chars Py.is_digit s = true → 0 ≤ acc →
  acc * 10 ^ Py.len s ≤ digits_value 10 acc s.
Proof.
  unfold Py.len.
  induction s as [|c s IH]; intros acc Hs Hacc; cbn [digits_value String.length].
  - change (Z.of_nat 0) with 0. lia.
  - cbn [all_chars] in Hs. apply andb_true_iff in Hs as [Hc Hs].
    pose proof (digit_value_range c Hc) as Hd.
    specialize (IH (acc * 10 + Py.digit_value c) Hs ltac:(lia)).
    rewrite Nat2Z.inj_succ, Z.pow_succ_r by lia.
    assert (0 < 10 ^ Z.of_nat (String.length s)) by (apply Z.pow_pos_nonneg; lia).
    nia.
Qed.

(** [str] writes no leading zero. *)
Lemma pos_digits_first p :
  ∃ c t, pos_digits p = String c t ∧ Py.is_digit c = true ∧ 1 ≤ Py.digit_value c.
Proof.
  unfold pos_digits.
  pose proof (DecimalPos.Unsigned.to_of (Pos.to_uint p)) as Hn.
  rewrite DecimalPos.Unsigned.of_to in Hn. cbn [N.to_uint] in Hn. symmetry in Hn.
  pose proof (Unsigned.to_uint_nonzero p) as Hz.
  destruct (Pos.to_uint p) as [|d|d|d|d|d|d|d|d|d|d] eqn:E;
    cbn [NilEmpty.string_of_uint];
    try (eexists _, _; split; [reflexivity |]; split; [reflexivity | by vm_compute]).
  - discriminate Hn.
  - exfalso. rewrite unorm_D0 in Hn.
    destruct d as [|d|d|d|d|d|d|d|d|d|d]; [done | ..];
      match type of Hn with
      | Decimal.unorm ?u = _ => pose proof (nb_digits_unorm u ltac:(discriminate)) as Hl
      end;
      rewrite Hn in Hl; cbn [Decimal.nb_digits] in Hl; lia.
Qed.

Lemma pos_digits_length p (n : Z) : Zpos p < 10 ^ n → Py.len (pos_digits p) ≤ n.
Proof.
  intros H. destruct (pos_digits_first p) as (c & t & E & Hc & Hd).
  pose proof (pos_digits_value p) as Hv. pose proof (uint_digits (Pos.to_uint p)) as Hall.
  fold (pos_digits p) in Hall. rewrite E in Hv, Hall |- *.
  cbn [all_chars] in Hall. apply andb_true_iff in Hall as [_ Ht].
  cbn [digits_value] in Hv.
  pose proof (digits_value_lower t (0 * 10 + Py.digit_value c) Ht ltac:(lia)) as Hlow.
  rewrite Hv in Hlow.
  assert (0 < 10 ^ Py.len t) as Hp by (apply Z.pow_pos_nonneg; unfold Py.len; lia).
  assert (10 ^ Py.len t < 10 ^ n) as Hlt by nia.
  destruct (Z_lt_le_dec n 0) as [Hneg | Hn].
  { rewrite Z.pow_neg_r in H by done. lia. }
  apply Z.pow_lt_mono_r_iff in Hlt; [| lia | lia].
  unfold Py.len in *. cbn [String.length]. lia.
Qed.

Lemma digits_value_upper s : ∀ acc,
  all_chars Py.is_digit s = true →
  digits_value 10 acc s < (acc + 1) * 10 ^ Py.len s.
Proof.
  unfold Py.len.
  induction s as [|c s IH]; intros acc Hs; cbn [digits_value String.length].
  - change (Z.of_nat 0) with 0. lia.
  - cbn [all_chars] in Hs. apply andb_true_iff in Hs as [Hc Hs].
    pose proof (digit_value_range c Hc) as Hd.
    specialize (IH (acc * 10 + Py.digit_value c) Hs).
    rewrite Nat2Z.inj_succ, Z.pow_succ_r by lia.
    assert (0 < 10 ^ Z.of_nat (String.length s)) by (apply Z.pow_pos_nonneg; lia).
    nia.
Qed.

Lemma pos_digits_long p (n : Z) : 10 ^ n ≤ Zpos p → n < Py.len (pos_digits p).
Proof.
  intros H.
  pose proof (digits_value_upper (pos_digits p) 0 (uint_digits (Pos.to_uint p))) as Hup.
  rewrite pos_digits_value, Z.add_0_l, Z.mul_1_l in Hup.
  apply (Z.pow_lt_mono_r_iff 10); [lia | unfold Py.len; lia | lia].
Qed.

(** [int(str(v)) == v] for a number of at most [max_str_digits] digits. *)
Lemma int_str v : Z.abs v < 10 ^ Py.max_str_digits → Py.int 10 (Py.str v) = Some v.
Proof.
  intros H. destruct v as [|p|p].
  - reflexivity.
  - rewrite str_pos, int_digits, pos_digits_value;
      [done | apply pos_digits_digits | apply pos_digits_nonempty |].
    intros _. by apply pos_digits_length.
  - rewrite str_neg, int_minus_digits, pos_digits_value;
      [done | apply pos_digits_digits | apply pos_digits_nonempty |].
    intros _. by apply pos_digits_length.
Qed.

Lemma int_str_long v : 10 ^ Py.max_str_digits ≤ Z.abs v → Py.int 10 (Py.str v) = None.
Proof.
  intros H. destruct v as [|p|p].
  - exfalso. assert (0 < 10 ^ Py.max_str_digits) by (by apply Z.pow_pos_nonneg).
    cbn [Z.abs] in H. lia.
  - rewrite str_pos, int_digits_limit by (apply pos_digits_digits || apply pos_digits_nonempty).
    pose proof (pos_digits_long p _ H) as Hl.
    by assert ((Py.max_str_digits <? Py.len (pos_digits p)) = true) as -> by lia.
  - rewrite str_neg, int_minus_digits_limit
      by (apply pos_digits_digits || apply pos_digits_nonempty).
    pose proof (pos_digits_long p _ H) as Hl.
    by assert ((Py.max_str_digits <? Py.len (pos_digits p)) = true) as -> by lia.
Qed.

Lemma widest_field_limit :
  2 ^ widest_field < 10 ^ Py.max_str_digits ∧
  10 ^ Py.max_str_digits < 2 ^ (widest_field + 1) - 1.
Proof. by vm_compute. Qed.

(** The values of a field of at most [widest_field] bits have numerals
    that [int()] converts. *)
Lemma field_value_converts w v :
  0 < w ≤ widest_field → - 2 ^ w ≤ v ≤ 2 ^ w → Z.abs v < 10 ^ Py.max_str_digits.
Proof.
  intros Hw Hv. destruct widest_field_limit as [Hlim _].
  pose proof (Z.pow_le_mono_r 2 w widest_field ltac:(lia) ltac:(lia)). lia.
Qed.

(** The values of the fields of the instruction set are far below the
    limit. *)
Ltac numeral_fits :=
  lazymatch goal with
  | |- Z.abs ?v < 10 ^ Py.max_str_digits =>
      apply (field_value_converts 26 v);
      [unfold widest_field; lia | unfold fits_signed, fits_field in *; lia]
  end.

Lemma remove_char_absent x s :
  all_chars (λ c, negb (Ascii.eqb c x)) s = true → Py.remove_char x s = s.
Proof.
  induction s as [|c s IH]; simpl; [done |].
  intros [Hc Hs]%andb_true_iff. apply negb_true_iff in Hc. rewrite Hc.
  by rewrite IH.
Qed.

(** The characters [str] writes: a minus sign and digits. *)
Lemma str_chars v :
  all_chars (λ c, Py.is_digit c || Ascii.eqb c "-") (Py.str v) = true.
Proof.
  assert (∀ p, all_chars (λ c, Py.is_digit c || Ascii.eqb c "-") (pos_digits p) = true)
    as Hp.
  { intros p. apply all_chars_impl with Py.is_digit; [| apply uint_digits].
    by intros c ->. }
  destruct v as [|p|p]; [done | by rewrite str_pos | rewrite str_neg].
  cbn [all_chars]. by rewrite Hp.
Qed.

Lemma remove_comma_str v : Py.remove_char "," (Py.str v) = Py.str v.
Proof.
  apply remove_char_absent. apply all_chars_impl with (2 := str_chars v).
  intros c. ascii_cases c.
Qed.

(** ** Binary fields *)

Lemma length_app a b :
  String.length (a +:+ b) = (String.length a + String.length b)%nat.
Proof. induction a as [|c a IH]; simpl; [done | by rewrite IH]. Qed.

Lemma app_cons x a b : String x a +:+ b = String x (a +:+ b).
Proof. reflexivity. Qed.

Lemma app_empty_l a : "" +:+ a = a.
Proof. reflexivity. Qed.

Lemma app_assoc_s a b c : (a +:+ b) +:+ c = a +:+ b +:+ c.
Proof. induction a as [|x a IH]; [done |]. by rewrite !app_cons, IH. Qed.

Lemma app_empty_r a : a +:+ "" = a.
Proof. induction a as [|x a IH]; [done |]. by rewrite app_cons, IH. Qed.

Lemma repeat_char_length c n : String.length (Py.repeat_char c n) = n.
Proof. induction n; simpl; congruence. Qed.

Lemma repeat_char_all P c n : P c = true → all_chars P (Py.repeat_char c n) = true.
Proof. intros H. induction n; simpl; [done | by rewrite H]. Qed.

Lemma digits_value_app base a s t :
  digits_value base a (s +:+ t) = digits_value base (digits_value base a s) t.
Proof. revert a. induction s as [|c s IH]; intros a; simpl; [done | apply IH]. Qed.

Lemma digits_value_zeros base n : digits_value base 0 (Py.repeat_char "0" n) = 0.
Proof. induction n; simpl; [done |]. by rewrite Z.mul_0_l. Qed.

Lemma pos_bin_length p : ∀ acc,
  String.length (Py.pos_bin p acc) = (Pos.size_nat p + String.length acc)%nat.
Proof.
  induction p as [p IH | p IH |]; intros acc; cbn [Py.pos_bin Pos.size_nat];
    [rewrite IH; simpl; lia .. | simpl; lia].
Qed.

Lemma pos_bin_bits p : ∀ acc, is_bits acc = true → is_bits (Py.pos_bin p acc) = true.
Proof.
  induction p as [p IH | p IH |]; intros acc H; cbn [Py.pos_bin];
    [apply IH | apply IH |]; unfold is_bits in *; simpl; by rewrite H.
Qed.

Lemma pos_bin_value p : ∀ a acc,
  digits_value 2 a (Py.pos_bin p acc)
    = digits_value 2 (a * 2 ^ Z.of_nat (Pos.size_nat p) + Zpos p) acc.
Proof.
  induction p as [p IH | p IH |]; intros a acc; cbn [Py.pos_bin Pos.size_nat].
  - rewrite IH. cbn [digits_value]. f_equal.
    rewrite Nat2Z.inj_succ, Z.pow_succ_r by lia.
    change (Py.digit_value "1") with 1. lia.
  - rewrite IH. cbn [digits_value]. f_equal.
    rewrite Nat2Z.inj_succ, Z.pow_succ_r by lia.
    change (Py.digit_value "0") with 0. lia.
  - cbn [digits_value]. change (Py.digit_value "1") with 1.
    change (Z.of_nat 1) with 1. by rewrite Z.pow_1_r.
Qed.

Lemma size_nat_bound p : ∀ w : nat, Zpos p < 2 ^ Z.of_nat w → (Pos.size_nat p ≤ w)%nat.
Proof.
  induction p as [p IH | p IH |]; intros [|w] H; cbn [Pos.size_nat].
  all: try (change (2 ^ Z.of_nat 0) with 1 in H; lia).
  all: rewrite Nat2Z.inj_succ, Z.pow_succ_r in H by lia.
  all: apply le_n_S, IH; lia.
Qed.

Lemma nat_bin_bits v : is_bits (Py.nat_bin v) = true.
Proof. destruct v; [done | by apply pos_bin_bits | done]. Qed.

Lemma nat_bin_value v : 0 ≤ v → digits_value 2 0 (Py.nat_bin v) = v.
Proof.
  intros H. destruct v as [|p|p]; [done | | lia].
  cbn [Py.nat_bin]. rewrite pos_bin_value. cbn [digits_value]. lia.
Qed.

Lemma nat_bin_length v (w : nat) :
  0 ≤ v < 2 ^ Z.of_nat w → (0 < w)%nat → (String.length (Py.nat_bin v) ≤ w)%nat.
Proof.
  intros [H0 Hw] Hpos. destruct v as [|p|p]; [simpl; lia | | lia].
  cbn [Py.nat_bin]. rewrite pos_bin_length. simpl.
  pose proof (size_nat_bound p w Hw). lia.
Qed.

Lemma format_bin_nonneg v w :
  0 ≤ v →
  Py.format_bin v w
    = Py.repeat_char "0" (w - String.length (Py.nat_bin v)) +:+ Py.nat_bin v.
Proof.
  intros H. unfold Py.format_bin.
  assert ((v <? 0) = false) as -> by lia.
  rewrite Z.abs_eq by done. cbn [String.length append]. by rewrite Nat.sub_0_r.
Qed.

Lemma format_bin_length v (w : nat) :
  0 ≤ v < 2 ^ Z.of_nat w → (0 < w)%nat → String.length (Py.format_bin v w) = w.
Proof.
  intros Hv Hw. rewrite format_bin_nonneg by lia.
  rewrite length_app, repeat_char_length.
  pose proof (nat_bin_length v w Hv Hw). lia.
Qed.

Lemma format_bin_bits v w : 0 ≤ v → is_bits (Py.format_bin v w) = true.
Proof.
  intros H. rewrite format_bin_nonneg by done. unfold is_bits.
  rewrite all_chars_app, repeat_char_all by done. apply nat_bin_bits.
Qed.

Lemma format_bin_value v w : 0 ≤ v → digits_value 2 0 (Py.format_bin v w) = v.
Proof.
  intros H. rewrite format_bin_nonneg by done.
  rewrite digits_value_app, digits_value_zeros. by apply nat_bin_value.
Qed.

(** ** Immediates *)

(** [parse_immediate] on the decimal text of an integer. *)
Lemma parse_immediate_str v bits :
  0 < bits → Z.abs v < 10 ^ Py.max_str_digits →
  SMA.parse_immediate (Py.str v) bits =
    if v <? - 2 ^ (bits - 1)
    then Raise (ValueError (InvalidImmediate (Py.str v) (TooSmall v bits)))
    else if v <? 0
    then Ok (Py.format_bin (v mod 2 ^ bits) (Z.to_nat bits))
    else if 2 ^ bits - 1 <? v
    then Raise (ValueError (InvalidImmediate (Py.str v) (TooLarge v bits)))
    else Ok (Py.format_bin v (Z.to_nat bits)).
Proof.
  intros Hb Hv. unfold SMA.parse_immediate.
  rewrite remove_comma_str, int_str by done.
  assert ((0 <? bits) = true) as -> by lia.
  assert ((bits <? 0) = false) as -> by lia.
  destruct (v <? 0) eqn:Hneg.
  - destruct (v <? - 2 ^ (bits - 1)); [done |].
    rewrite Z.shiftl_1_l.
    replace (2 ^ bits - 1) with (Z.ones bits) by (rewrite Z.ones_equiv; lia).
    by rewrite Z.land_ones by lia.
  - assert ((v <? - 2 ^ (bits - 1)) = false) as ->; [| done].
    assert (0 < 2 ^ (bits - 1)) by (apply Z.pow_pos_nonneg; lia). lia.
Qed.

(** Beyond the widest field the numerals of [2^w - 1] and [2^w] have
    more digits than [int()] converts. *)
Lemma immediate_beyond_digit_limit w :
  widest_field < w →
  SMA.parse_immediate (Py.str (2 ^ w - 1)) w
    = Raise (ValueError (InvalidImmediate (Py.str (2 ^ w - 1)) NotAnInteger)) ∧
  SMA.parse_immediate (Py.str (2 ^ w)) w
    = Raise (ValueError (InvalidImmediate (Py.str (2 ^ w)) NotAnInteger)).
Proof.
  intros Hw. destruct widest_field_limit as [_ Hlim].
  assert (2 ^ (widest_field + 1) ≤ 2 ^ w) as Hmono
    by (apply Z.pow_le_mono_r; [lia | unfold widest_field in Hw |- *; lia]).
  assert (0 < 10 ^ Py.max_str_digits) as Hp
    by (apply Z.pow_pos_nonneg; unfold Py.max_str_digits; lia).
  unfold SMA.parse_immediate. rewrite !remove_comma_str.
  rewrite !int_str_long by (rewrite Z.abs_eq; lia). split; reflexivity.
Qed.

(** C3, as stated, fails from the width 14285 on: the decimal numeral of
    [2^w - 1] has more than 4300 digits there and [int()] refuses it, so
    the greatest value of the field is rejected, and [2^w] is rejected
    for the same reason and not as too large. *)
Lemma immediate_upper_bound_beyond_digit_limit :
  SMA.parse_immediate (Py.str (2 ^ 14285 - 1)) 14285
    = Raise (ValueError (InvalidImmediate (Py.str (2 ^ 14285 - 1)) NotAnInteger)) ∧
  SMA.parse_immediate (Py.str (2 ^ 14285)) 14285
    = Raise (ValueError (InvalidImmediate (Py.str (2 ^ 14285)) NotAnInteger)).
Proof. apply (immediate_beyond_digit_limit 14285). reflexivity. Qed.

(** C3, amended: for a field of [w] bits, [w] from 1 to 14284 (the
    fields of the instruction set have 15, 16 and 21 bits), the largest
    unsigned value [2^w - 1] is encoded, as a field of [w] characters
    denoting that value, and [2^w] is rejected as too large. *)
Theorem immediate_upper_bound :
  ∀ w : Z, 0 < w ≤ widest_field →
    (∃ field,
       SMA.parse_immediate (Py.str (2 ^ w - 1)) w = Ok field ∧
       Py.len field = w ∧ is_bits field = true ∧ digits_value 2 0 field = 2 ^ w - 1) ∧
    SMA.parse_immediate (Py.str (2 ^ w)) w
      = Raise (ValueError (InvalidImmediate (Py.str (2 ^ w)) (TooLarge (2 ^ w) w))).
Proof.
  intros w Hw.
  assert (0 < 2 ^ w) as Hp by (apply Z.pow_pos_nonneg; lia).
  assert (0 < 2 ^ (w - 1)) as Hp' by (apply Z.pow_pos_nonneg; lia).
  rewrite !parse_immediate_str by (apply (field_value_converts w) || idtac; lia). split.
  - assert ((2 ^ w - 1 <? - 2 ^ (w - 1)) = false) as -> by lia.
    assert ((2 ^ w - 1 <? 0) = false) as -> by lia.
    rewrite Z.ltb_irrefl.
    eexists. split; [reflexivity |]. split_and!.
    + unfold Py.len. rewrite format_bin_length; rewrite ?Z2Nat.id; lia.
    + apply format_bin_bits. lia.
    + apply format_bin_value. lia.
  - assert ((2 ^ w <? - 2 ^ (w - 1)) = false) as -> by lia.
    assert ((2 ^ w <? 0) = false) as -> by lia.
    assert ((2 ^ w - 1 <? 2 ^ w) = true) as -> by lia.
    done.
Qed.

Lemma immediate_upper_bound_witness :
  (∃ field,
     SMA.parse_immediate (Py.str (2 ^ 15 - 1)) 15 = Ok field ∧
     Py.len field = 15 ∧ is_bits field = true ∧ digits_value 2 0 field = 2 ^ 15 - 1) ∧
  SMA.parse_immediate (Py.str (2 ^ 15)) 15
    = Raise (ValueError (InvalidImmediate (Py.str (2 ^ 15)) (TooLarge (2 ^ 15) 15))).
Proof. apply (immediate_upper_bound 15). unfold widest_field. lia. Defined.

Example immediate_bound_15 :
  SMA.parse_immediate "32767" 15 = Ok "111111111111111" ∧
  SMA.parse_immediate "32768" 15
    = Raise (ValueError (InvalidImmediate "32768" (TooLarge 32768 15))).
Proof. by vm_compute. Qed.

(** ** Memory operands *)

Lemma span_digits_sound s : ∀ ds r,
  SMA.span_digits s = (ds, r) →
  s = ds +:+ r ∧ all_chars Py.is_digit ds = true ∧
  match r with String c _ => Py.is_digit c = false | "" => True end.
Proof.
  induction s as [|c s IH]; intros ds r; cbn [SMA.span_digits].
  - by intros [= <- <-].
  - destruct (Py.is_digit c) eqn:Hc.
    + destruct (SMA.span_digits s) as [d r'] eqn:Hs. intros [= <- <-].
      destruct (IH d r' eq_refl) as (-> & Hd & Hr).
      split_and!; [done | | done]. cbn [all_chars]. by rewrite Hc.
    + by intros [= <- <-].
Qed.

Lemma span_digits_app ds r :
  all_chars Py.is_digit ds = true →
  match r with String c _ => Py.is_digit c = false | "" => True end →
  SMA.span_digits (ds +:+ r) = (ds, r).
Proof.
  intros Hd Hr. induction ds as [|c ds IH].
  - rewrite app_empty_l. destruct r as [|c r]; [done |].
    cbn [SMA.span_digits]. by rewrite Hr.
  - cbn [all_chars] in Hd. apply andb_true_iff in Hd as [Hc Hd].
    rewrite app_cons. cbn [SMA.span_digits]. by rewrite Hc, (IH Hd).
Qed.

Lemma strip_prefix_sound p : ∀ s r, Py.strip_prefix p s = Some r → s = p +:+ r.
Proof.
  induction p as [|a p IH]; intros s r; [by intros [= ->] |].
  destruct s as [|b s]; [done |]. rewrite strip_prefix_cons.
  destruct (Ascii.eqb_spec a b) as [-> |]; [| done].
  intros H. by rewrite (IH _ _ H).
Qed.

Lemma strip_prefix_app p r : Py.strip_prefix p (p +:+ r) = Some r.
Proof.
  induction p as [|a p IH]; [done |].
  by rewrite app_cons, strip_prefix_cons, Ascii.eqb_refl.
Qed.

Lemma starts_with_sound p s : Py.starts_with p s = true → ∃ r, s = p +:+ r.
Proof.
  unfold Py.starts_with. destruct (Py.strip_prefix p s) as [r|] eqn:H; [| done].
  intros _. exists r. by apply strip_prefix_sound.
Qed.

Lemma digit_string_first ds r :
  digit_string ds → ∃ c t, ds +:+ r = String c t ∧ Py.is_digit c = true.
Proof.
  intros [Hd Hne]. destruct ds as [|c ds]; [done |].
  cbn [all_chars] in Hd. apply andb_true_iff in Hd as [Hc _].
  by exists c, (ds +:+ r).
Qed.

Lemma match_reg_close_spec s reg :
  SMA.match_reg_close s = Some reg ↔
  ∃ rs rest, digit_string rs ∧ reg = "%r" +:+ rs ∧ s = reg +:+ ")" +:+ rest.
Proof.
  unfold SMA.match_reg_close. split.
  - destruct (Py.strip_prefix "%r" s) as [s1|] eqn:H1; [| done].
    apply strip_prefix_sound in H1 as ->.
    destruct (SMA.span_digits s1) as [ds s2] eqn:H2.
    apply span_digits_sound in H2 as (-> & Hd & _).
    destruct (String.eqb_spec ds "") as [-> | Hne]; [done |].
    destruct (Py.starts_with ")" s2) eqn:H3; [| done].
    apply starts_with_sound in H3 as [rest ->].
    intros [= <-]. exists ds, rest. split_and!; [done.. |].
    by rewrite !app_assoc_s.
  - intros (rs & rest & [Hd Hne] & -> & ->).
    rewrite app_assoc_s, strip_prefix_app.
    rewrite span_digits_app by done.
    apply String.eqb_neq in Hne. rewrite Hne.
    unfold Py.starts_with. by rewrite strip_prefix_app.
Qed.

Lemma int_signed_digits (neg : bool) ds :
  digit_string ds →
  Py.int 10 ((if neg then "-" else "") +:+ ds)
    = if Py.max_str_digits <? Py.len ds then None
      else Some (if neg then - digits_value 10 0 ds else digits_value 10 0 ds).
Proof.
  intros [Hd Hne].
  assert (all_chars (digit_below 10) ds = true) as Hd'
    by (apply all_chars_impl with (2 := Hd), digit_below_10).
  destruct neg; [by apply int_minus_digits_limit | by apply int_digits_limit].
Qed.

Lemma match_offset_reg_spec s g1 reg :
  SMA.match_offset_reg s = Some (g1, reg) ↔
  ∃ (neg : bool) ds rs rest,
    digit_string ds ∧ digit_string rs ∧ reg = "%r" +:+ rs ∧
    g1 = (if neg then "-" else "") +:+ ds ∧
    s = g1 +:+ "(" +:+ reg +:+ ")" +:+ rest.
Proof.
  unfold SMA.match_offset_reg. split.
  - destruct (Py.strip_prefix "-" s) as [r|] eqn:Hm.
    + apply strip_prefix_sound in Hm as ->.
      destruct (SMA.span_digits r) as [ds s2] eqn:H2.
      apply span_digits_sound in H2 as (-> & Hd & _).
      destruct (String.eqb_spec ds "") as [-> | Hne]; [done |].
      destruct (Py.strip_prefix "(" s2) as [s3|] eqn:H3; [| done].
      apply strip_prefix_sound in H3 as ->.
      destruct (SMA.match_reg_close s3) as [reg'|] eqn:H4; [| done].
      apply match_reg_close_spec in H4 as (rs & rest & Hrs & -> & ->).
      intros [= <- <-]. exists true, ds, rs, rest.
      split_and!; [done.. |]. by rewrite !app_assoc_s.
    + destruct (SMA.span_digits s) as [ds s2] eqn:H2.
      apply span_digits_sound in H2 as (-> & Hd & _).
      destruct (String.eqb_spec ds "") as [-> | Hne]; [done |].
      destruct (Py.strip_prefix "(" s2) as [s3|] eqn:H3; [| done].
      apply strip_prefix_sound in H3 as ->.
      destruct (SMA.match_reg_close s3) as [reg'|] eqn:H4; [| done].
      apply match_reg_close_spec in H4 as (rs & rest & Hrs & -> & ->).
      intros [= <- <-]. exists false, ds, rs, rest.
      split_and!; [done.. |]. by rewrite !app_assoc_s.
  - intros (neg & ds & rs & rest & Hds & Hrs & -> & -> & ->).
    assert (SMA.match_reg_close (("%r" +:+ rs) +:+ ")" +:+ rest) = Some ("%r" +:+ rs))
      as Hreg by (apply match_reg_close_spec; by exists rs, rest).
    set (Y := "(" +:+ ("%r" +:+ rs) +:+ ")" +:+ rest).
    assert (SMA.span_digits (ds +:+ Y) = (ds, Y)) as Hspan
      by (apply span_digits_app; [apply Hds | done]).
    pose proof Hds as [_ Hne]. apply String.eqb_neq in Hne.
    destruct neg.
    + rewrite (app_assoc_s "-" ds Y), (strip_prefix_app "-"), Hspan, Hne.
      unfold Y. by rewrite (strip_prefix_app "("), Hreg.
    + rewrite app_empty_l.
      destruct (digit_string_first ds Y Hds) as (c & t & Hct & Hc).
      assert (Py.strip_prefix "-" (ds +:+ Y) = None) as ->
        by (rewrite Hct; by apply strip_prefix_other with Py.is_digit).
      rewrite Hspan, Hne. unfold Y. by rewrite (strip_prefix_app "("), Hreg.
Qed.

Lemma append_inj_l p a b : p +:+ a = p +:+ b → a = b.
Proof. induction p as [|c p IH]; [done |]. rewrite !app_cons. intros [= H]. by apply IH. Qed.

(** What [parse_memory_address] does with a text that the first pattern
    matches. *)
Lemma parse_memory_address_offset text (neg : bool) ds rs rest :
  digit_string ds → digit_string rs →
  Py.remove_char "," text
    = ((if neg then "-" else "") +:+ ds) +:+ "(" +:+ ("%r" +:+ rs) +:+ ")" +:+ rest →
  SMA.parse_memory_address text =
    if Py.max_str_digits <? Py.len ds
    then Raise (ValueError (InvalidLiteral 10 ((if neg then "-" else "") +:+ ds)))
    else Ok (if neg then - digits_value 10 0 ds else digits_value 10 0 ds, "%r" +:+ rs).
Proof.
  intros Hds Hrs Ht. unfold SMA.parse_memory_address. rewrite Ht.
  assert (SMA.match_offset_reg
            (((if neg then "-" else "") +:+ ds) +:+ "(" +:+ ("%r" +:+ rs) +:+ ")" +:+ rest)
          = Some ((if neg then "-" else "") +:+ ds, "%r" +:+ rs)) as ->.
  { apply match_offset_reg_spec. by exists neg, ds, rs, rest. }
  rewrite (int_signed_digits neg ds Hds). by destruct (_ <? _).
Qed.

(** The three outcomes of [parse_memory_address]. *)
Lemma parse_memory_address_cases text :
  (∃ off reg rest, SMA.parse_memory_address text = Ok (off, reg) ∧
     memory_operand_read rest (Py.remove_char "," text) off reg) ∨
  (∃ g1, SMA.parse_memory_address text = Raise (ValueError (InvalidLiteral 10 g1)) ∧
     memory_operand_too_long (Py.remove_char "," text) g1) ∨
  (SMA.parse_memory_address text
     = Raise (ValueError (InvalidMemoryAddress (Py.remove_char "," text))) ∧
   ¬ ∃ rest off reg, memory_operand_then rest (Py.remove_char "," text) off reg).
Proof.
  set (t := Py.remove_char "," text).
  destruct (SMA.match_offset_reg t) as [[g1 g2]|] eqn:Hm.
  - apply match_offset_reg_spec in Hm
      as (neg & ds & rs & rest & Hds & Hrs & -> & -> & Ht).
    rewrite (parse_memory_address_offset text neg ds rs rest Hds Hrs Ht).
    destruct (Z.ltb_spec Py.max_str_digits (Py.len ds)) as [Hlong | Hshort].
    + right. left. eexists. split; [reflexivity |]. by exists neg, ds, rs, rest.
    + left. eexists _, _, rest. split; [reflexivity |].
      exists rs. split; [done |]. split; [done |]. left. exists ds.
      split; [done |]. split; [done |].
      destruct neg; cbv iota in Ht |- *; [right | left]; (split; [| done]).
      * by rewrite Ht, app_assoc_s.
      * by rewrite Ht.
  - unfold SMA.parse_memory_address. fold t. rewrite Hm. unfold SMA.match_no_offset.
    destruct (Py.strip_prefix "(" t) as [s1|] eqn:H1.
    + pose proof (strip_prefix_sound _ _ _ H1) as Ht.
      destruct (SMA.match_reg_close s1) as [g1|] eqn:H2.
      * apply match_reg_close_spec in H2 as (rs & rest & Hrs & -> & ->).
        left. eexists _, _, rest. split; [reflexivity |].
        exists rs. split; [done |]. split; [done |]. by right.
      * right. right. split; [reflexivity |].
        intros (rest & off & reg & rs & Hrs & -> & [(ds & Hds & Hshape) | [Ht' _]]).
        -- destruct Hshape as [[Ht' _] | [Ht' _]]; rewrite Ht in Ht'.
           ++ destruct (digit_string_first ds ("(" +:+ ("%r" +:+ rs) +:+ ")" +:+ rest) Hds)
                as (c & u & Hcu & Hc).
              rewrite Hcu in Ht'. injection Ht' as <- _. discriminate Hc.
           ++ discriminate Ht'.
        -- rewrite Ht in Ht'. apply append_inj_l in Ht'. subst s1.
           assert (SMA.match_reg_close (("%r" +:+ rs) +:+ ")" +:+ rest) = Some ("%r" +:+ rs))
             as E by (apply match_reg_close_spec; by exists rs, rest).
           congruence.
    + right. right. split; [reflexivity |].
      intros (rest & off & reg & rs & Hrs & -> & [(ds & Hds & Hshape) | [Ht' _]]).
      * assert (∃ neg : bool,
                  t = ((if neg then "-" else "") +:+ ds)
                        +:+ "(" +:+ ("%r" +:+ rs) +:+ ")" +:+ rest) as (neg & Ht').
        { destruct Hshape as [[-> _] | [-> _]]; [by exists false | exists true].
          by rewrite app_assoc_s. }
        assert (SMA.match_offset_reg t
                = Some ((if neg then "-" else "") +:+ ds, "%r" +:+ rs)) as E
          by (apply match_offset_reg_spec; by exists neg, ds, rs, rest).
        congruence.
      * rewrite Ht' in H1. by rewrite (strip_prefix_app "(") in H1.
Qed.

(** The two readings of one text agree. *)
Lemma memory_operand_read_then rest text off reg :
  memory_operand_read rest text off reg → memory_operand_then rest text off reg.
Proof.
  intros (rs & Hrs & Hreg & [(ds & Hds & _ & Hshape) | Hbare]).
  - exists rs. split; [done |]. split; [done |]. left. by exists ds.
  - exists rs. split; [done |]. split; [done |]. by right.
Qed.

Lemma memory_operand_too_long_then text g1 :
  memory_operand_too_long text g1 → ∃ rest off reg, memory_operand_then rest text off reg.
Proof.
  intros (neg & ds & rs & rest & Hds & Hrs & _ & -> & ->).
  exists rest, (if neg then - digits_value 10 0 ds else digits_value 10 0 ds), ("%r" +:+ rs).
  exists rs. split; [done |]. split; [done |]. left. exists ds. split; [done |].
  destruct neg; [right | left]; (split; [| done]); [by rewrite app_assoc_s | done].
Qed.

Lemma parse_memory_address_ok text off reg :
  SMA.parse_memory_address text = Ok (off, reg) ↔
  ∃ rest, memory_operand_read rest (Py.remove_char "," text) off reg.
Proof.
  set (t := Py.remove_char "," text). split.
  - intros H.
    destruct (parse_memory_address_cases text)
      as [(off' & reg' & rest & H' & Hr) | [(g1 & H' & _) | [H' _]]];
      rewrite H in H'; [| discriminate H' | discriminate H'].
    injection H' as <- <-. by exists rest.
  - intros (rest & rs & Hrs & -> & [(ds & Hds & Hlen & Hshape) | [Ht ->]]).
    + assert (∃ neg : bool,
                t = ((if neg then "-" else "") +:+ ds)
                      +:+ "(" +:+ ("%r" +:+ rs) +:+ ")" +:+ rest ∧
                off = if neg then - digits_value 10 0 ds else digits_value 10 0 ds)
        as (neg & Ht & ->).
      { destruct Hshape as [[-> ->] | [-> ->]]; [by exists false | exists true].
        by rewrite app_assoc_s. }
      rewrite (parse_memory_address_offset text neg ds rs rest Hds Hrs Ht).
      by assert ((Py.max_str_digits <? Py.len ds) = false) as -> by lia.
    + destruct (parse_memory_address_cases text)
        as [(off' & reg' & rest' & H' & Hr) | [(g1 & H' & Hlong) | [_ Hno]]].
      * rewrite H'. fold t in Hr.
        destruct Hr as (rs' & Hrs' & -> & [(ds & Hds & _ & Hshape) | [Ht' ->]]).
        -- exfalso. rewrite Ht in Hshape.
           destruct Hshape as [[Ht' _] | [Ht' _]]; [| discriminate Ht'].
           destruct (digit_string_first ds ("(" +:+ ("%r" +:+ rs') +:+ ")" +:+ rest') Hds)
             as (c & u & Hcu & Hc).
           rewrite Hcu in Ht'. injection Ht' as <- _. discriminate Hc.
        -- rewrite Ht in Ht'. apply append_inj_l in Ht'.
           rewrite !app_assoc_s in Ht'. apply append_inj_l in Ht'.
           assert (rs = rs') as <-; [| done].
           assert (∀ r x, digit_string r →
                     SMA.span_digits (r +:+ ")" +:+ x) = (r, ")" +:+ x)) as Hspan
             by (intros r x [Hr _]; by apply span_digits_app).
           pose proof (Hspan rs rest Hrs) as E. rewrite Ht', (Hspan rs' rest' Hrs') in E.
           congruence.
      * exfalso. fold t in Hlong.
        destruct Hlong as (neg & ds & rs' & rest' & Hds & _ & _ & -> & Ht').
        rewrite Ht in Ht'. destruct neg; [discriminate Ht' |].
        rewrite app_empty_l in Ht'.
        destruct (digit_string_first ds ("(" +:+ ("%r" +:+ rs') +:+ ")" +:+ rest') Hds)
          as (c & u & Hcu & Hc).
        rewrite Hcu in Ht'. injection Ht' as <- _. discriminate Hc.
      * exfalso. apply Hno. exists rest, 0, ("%r" +:+ rs), rs. split; [done |].
        split; [done |]. by right.
Qed.

Lemma parse_memory_address_too_long text g1 :
  SMA.parse_memory_address text = Raise (ValueError (InvalidLiteral 10 g1)) ↔
  memory_operand_too_long (Py.remove_char "," text) g1.
Proof.
  split.
  - intros H.
    destruct (parse_memory_address_cases text)
      as [(off' & reg' & rest & H' & Hr) | [(g & H' & Hlong) | [H' _]]];
      rewrite H in H'; [discriminate H' | | discriminate H'].
    by injection H' as <-.
  - intros (neg & ds & rs & rest & Hds & Hrs & Hlen & -> & Ht).
    rewrite (parse_memory_address_offset text neg ds rs rest Hds Hrs Ht).
    by assert ((Py.max_str_digits <? Py.len ds) = true) as -> by lia.
Qed.

Lemma last_char_app a c : last_char (a +:+ String c "") = Some c.
Proof.
  induction a as [|x a IH]; [done |]. rewrite app_cons. cbn [last_char].
  destruct (a +:+ String c "") eqn:E; [by destruct a | done].
Qed.

Lemma spec_memory_operand_ends text : spec_memory_operand text → last_char text = Some ")"%char.
Proof.
  intros (off & reg & rs & _ & _ & [(ds & _ & [[-> _] | [-> _]]) | [-> _]]).
  - rewrite <- (last_char_app (ds +:+ "(" +:+ reg) ")"). by rewrite !app_assoc_s.
  - rewrite <- (last_char_app ("-" +:+ ds +:+ "(" +:+ reg) ")").
    by rewrite !app_assoc_s.
  - rewrite <- (last_char_app ("(" +:+ reg) ")"). by rewrite !app_assoc_s.
Qed.

(** C4, as stated, fails: text after the closing parenthesis is accepted. *)
Lemma memory_operand_trailing_text_accepted :
  SMA.parse_memory_address "8(%r2)+4" = Ok (8, "%r2") ∧
  ¬ spec_memory_operand "8(%r2)+4".
Proof.
  split; [by vm_compute |].
  intros H. apply spec_memory_operand_ends in H. discriminate H.
Qed.

(** C4, amended: with its commas removed, a text (of code points below
    256) must only start with one of the two shapes.  The parser returns
    the pair (offset, register) exactly when it does, with an offset of
    at most 4300 digits, whatever follows the closing parenthesis; an
    offset of more digits makes [int()] raise its own ValueError; every
    other text raises the invalid-memory-address error.  The shapes of
    the specification, with such an offset, are accepted. *)
Theorem memory_operand_prefix_accepted :
  ∀ text : string,
    (∀ off reg,
       SMA.parse_memory_address text = Ok (off, reg) ↔
       ∃ rest, memory_operand_read rest (Py.remove_char "," text) off reg) ∧
    (∀ g1,
       SMA.parse_memory_address text = Raise (ValueError (InvalidLiteral 10 g1)) ↔
       memory_operand_too_long (Py.remove_char "," text) g1) ∧
    (SMA.parse_memory_address text
       = Raise (ValueError (InvalidMemoryAddress (Py.remove_char "," text))) ↔
     ¬ ∃ rest off reg, memory_operand_then rest (Py.remove_char "," text) off reg) ∧
    (∀ off reg, memory_operand_read "" text off reg →
       SMA.parse_memory_address text = Ok (off, reg)).
Proof.
  intros text. split_and!.
  - intros off reg. apply parse_memory_address_ok.
  - intros g1. apply parse_memory_address_too_long.
  - split.
    + intros H.
      destruct (parse_memory_address_cases text)
        as [(off' & reg' & rest & H' & _) | [(g & H' & _) | [_ Hno]]];
        [rewrite H in H'; discriminate H' | rewrite H in H'; discriminate H' | exact Hno].
    + intros Hno.
      destruct (parse_memory_address_cases text)
        as [(off' & reg' & rest & _ & Hr) | [(g & _ & Hlong) | [H' _]]]; [| | exact H'].
      * exfalso. apply Hno. exists rest, off', reg'. by apply memory_operand_read_then.
      * exfalso. apply Hno. by eapply memory_operand_too_long_then.
  - intros off reg H.
    assert (Py.remove_char "," text = text) as Hc.
    { apply remove_char_absent.
      destruct H as (rs & [Hrs _] & -> & Hshape).
      assert (∀ s, all_chars Py.is_digit s = true →
                all_chars (λ c, negb (Ascii.eqb c ",")) s = true) as Hdig.
      { intros s. apply all_chars_impl. intros c. ascii_cases c. }
      pose proof (Hdig rs Hrs) as Hrs'.
      destruct Hshape as [(ds & [Hds%Hdig _] & _ & [[-> _] | [-> _]]) | [-> _]];
        rewrite ?all_chars_app, ?Hds, Hrs'; reflexivity. }
    apply parse_memory_address_ok. exists "". by rewrite Hc.
Qed.

Lemma memory_operand_prefix_accepted_example :
  SMA.parse_memory_address "(%r1)" = Ok (0, "%r1") ∧
  SMA.parse_memory_address "-12(%r30), x" = Ok (-12, "%r30") ∧
  SMA.parse_memory_address "12 (%r3)"
    = Raise (ValueError (InvalidMemoryAddress "12 (%r3)")).
Proof. split_and!; reflexivity. Qed.

(** ** Round trip: where the claim fails *)

(** C1, as stated, fails: 1048576 fits the 21-bit field as an unsigned
    value and is accepted by the assembler; the disassembler reads the
    field as signed and writes -1048576. *)
Lemma ldim_upper_half_not_round_trip :
  source_text (LoadImm 1048576 1) = "ldim 1048576, %r1" ∧
  SMA.assemble_line "ldim 1048576, %r1" ∅ 0
    = Ok (Some "01010110000000000000000000000001") ∧
  SMD.disassemble_instruction "01010110000000000000000000000001" 0
    = Ok "ldim -1048576, %r1" ∧
  ¬ round_trips ∅ (LoadImm 1048576 1).
Proof.
  split_and!; [by vm_compute | by vm_compute | by vm_compute |].
  intros H. destruct (H "ldim 1048576, %r1" 0 0) as (word & Ha & Hd).
  - exists "ldim", ["1048576, %r1"]. split_and!; [by vm_compute | by vm_compute |].
    exists "1048576, %r1". split; by vm_compute.
  - vm_compute in Ha. injection Ha as <-. vm_compute in Hd. discriminate Hd.
Qed.

(** C2 fails on the code: the register-immediate arithmetic group is
    encoded on 31 characters (opcode 6, register 5, immediate 15,
    register 5), so Pass 2 stops on its own width check, also on the
    example program the assembler ships, and the disassembler answers
    such a word with the invalid-length marker. *)
Theorem immediate_arithmetic_word_31_bits :
  SMA.assemble_line "cmbi %r3, 100, %r5" ∅ 0
    = Ok (Some "0001010001100000000110010000101") ∧
  Py.len "0001010001100000000110010000101" = 31 ∧
  SMA.run_assembler (Some ["cmbi %r3, 100, %r5"])
    = Exit1 (ValueError (InternalWidth "cmbi %r3, 100, %r5" 31)) ∧
  SMA.run_assembler (Some example_program)
    = Exit1 (ValueError (InternalWidth "cmbi %r3, 100, %r5" 31)) ∧
  SMD.disassemble_instruction "0001010001100000000110010000101" 0
    = Ok "; Error: Invalid instruction length (31 bits) at address 0: 0001010001100000000110010000101".
Proof. split_and!; by vm_compute. Qed.

(** ** Splitting canonical text *)

Lemma plain_not_space c : plain c = true → Py.is_space c = false.
Proof. unfold plain. intros [H _]%andb_true_iff. by apply negb_true_iff. Qed.

Lemma plain_not_comma c : plain c = true → Ascii.eqb c "," = false.
Proof. unfold plain. intros [_ H]%andb_true_iff. by apply negb_true_iff. Qed.

Lemma lstrip_plain s : all_chars plain s = true → Py.lstrip s = s.
Proof.
  destruct s as [|c s]; [done |]. cbn [all_chars Py.lstrip].
  intros [Hc _]%andb_true_iff. by rewrite (plain_not_space c Hc).
Qed.

Lemma lstrip_plain_app s r :
  all_chars plain s = true → s ≠ "" → Py.lstrip (s +:+ r) = s +:+ r.
Proof.
  destruct s as [|c s]; [done |]. cbn [all_chars]. rewrite app_cons.
  cbn [Py.lstrip]. intros [Hc _]%andb_true_iff _. by rewrite (plain_not_space c Hc).
Qed.

Lemma rstrip_plain s : all_chars plain s = true → Py.rstrip s = s.
Proof.
  induction s as [|c s IH]; [done |]. cbn [all_chars Py.rstrip].
  intros [Hc Hs]%andb_true_iff. rewrite (IH Hs), (plain_not_space c Hc).
  by destruct s.
Qed.

Lemma strip_plain s : all_chars plain s = true → Py.strip s = s.
Proof. intros H. unfold Py.strip. by rewrite lstrip_plain, rstrip_plain. Qed.

Lemma lstrip_space s : Py.lstrip (" " +:+ s) = Py.lstrip s.
Proof. reflexivity. Qed.

Lemma strip_space_plain s : all_chars plain s = true → Py.strip (" " +:+ s) = s.
Proof. intros H. unfold Py.strip. rewrite lstrip_space. by apply strip_plain. Qed.

Lemma span_word_plain w r :
  all_chars plain w = true → Py.span_word (w +:+ " " +:+ r) = (w, " " +:+ r).
Proof.
  induction w as [|c w IH]; [done |]. cbn [all_chars].
  intros [Hc Hw]%andb_true_iff. rewrite app_cons. cbn [Py.span_word].
  by rewrite (plain_not_space c Hc), (IH Hw).
Qed.

(** The line of an instruction with operands: mnemonic, one space, the
    operand text. *)
Lemma split_ws_1_two m c rest :
  all_chars plain m = true → m ≠ "" → Py.is_space c = false →
  Py.split_ws_1 (m +:+ " " +:+ String c rest) = [m; String c rest].
Proof.
  intros Hm Hne Hc. unfold Py.split_ws_1.
  rewrite lstrip_plain_app by done.
  destruct m as [|x m]; [done |]. rewrite app_cons.
  rewrite <- app_cons. rewrite span_word_plain by done.
  rewrite lstrip_space. cbn [Py.lstrip]. by rewrite Hc.
Qed.

Lemma split_char_plain s : all_chars plain s = true → Py.split_char "," s = [s].
Proof.
  induction s as [|c s IH]; [done |]. cbn [all_chars Py.split_char].
  intros [Hc Hs]%andb_true_iff. by rewrite (plain_not_comma c Hc), (IH Hs).
Qed.

Lemma split_char_comma a b :
  all_chars plain a = true →
  Py.split_char "," (a +:+ ", " +:+ b) = a :: Py.split_char "," (" " +:+ b).
Proof.
  induction a as [|c a IH]; [done |]. cbn [all_chars].
  intros [Hc Ha]%andb_true_iff. rewrite app_cons. cbn [Py.split_char].
  by rewrite (plain_not_comma c Hc), (IH Ha).
Qed.

Lemma split_char_space_plain s :
  all_chars plain s = true → Py.split_char "," (" " +:+ s) = [" " +:+ s].
Proof.
  intros H. change (" " +:+ s) with (String " " s). cbn [Py.split_char].
  change (Ascii.eqb " " ",") with false. cbv iota. by rewrite split_char_plain.
Qed.

(** The operand lists of the canonical texts. *)
Lemma operands_1 a :
  all_chars plain a = true →
  Py.strip <$> Py.split_char "," a = [a].
Proof. intros Ha. rewrite split_char_plain by done. cbn. by rewrite strip_plain. Qed.

Lemma operands_2 a b :
  all_chars plain a = true → all_chars plain b = true →
  Py.strip <$> Py.split_char "," (a +:+ ", " +:+ b) = [a; b].
Proof.
  intros Ha Hb. rewrite split_char_comma, split_char_space_plain by done.
  cbn [fmap list_fmap]. by rewrite strip_plain, strip_space_plain.
Qed.

Lemma operands_3 a b c :
  all_chars plain a = true → all_chars plain b = true → all_chars plain c = true →
  Py.strip <$> Py.split_char "," (a +:+ ", " +:+ b +:+ ", " +:+ c) = [a; b; c].
Proof.
  intros Ha Hb Hc. rewrite split_char_comma by done.
  change (" " +:+ b +:+ ", " +:+ c) with (String " " (b +:+ ", " +:+ c)).
  cbn [Py.split_char]. change (Ascii.eqb " " ",") with false. cbv iota.
  rewrite split_char_comma, split_char_space_plain by done.
  cbn [fmap list_fmap]. rewrite strip_plain by done.
  change (String " " b) with (" " +:+ b). by rewrite !strip_space_plain.
Qed.

(** ** Registers *)

Lemma registers_checked : Forall (λ r, register_checked r = true) (seqZ 0 32).
Proof. apply (bool_decide_unpack _). by vm_compute. Qed.

Lemma register_facts r :
  is_register r →
  SMA.parse_register (reg_name r) = Ok (Py.format_bin r 5) ∧
  SMD.get_register_name (Py.format_bin r 5) = reg_name r ∧
  String.length (Py.format_bin r 5) = 5%nat ∧
  all_chars plain (reg_name r) = true.
Proof.
  intros Hr. pose proof registers_checked as H.
  rewrite Forall_seqZ in H. specialize (H r ltac:(unfold is_register in Hr; lia)).
  unfold register_checked in H.
  destruct (SMA.parse_register (reg_name r)) as [code|]; [| done].
  apply andb_true_iff in H as [H H4]. apply andb_true_iff in H as [H H3].
  apply andb_true_iff in H as [H1 H2].
  apply String.eqb_eq in H1 as ->. apply String.eqb_eq in H2.
  apply Nat.eqb_eq in H3. split; [reflexivity |]. split; [exact H2 |].
  split; [exact H3 | exact H4].
Qed.

(** ** Label operands *)

Lemma ident_char_plain c : ident_char c = true → plain c = true.
Proof. ascii_cases c. Qed.

Lemma span_ident_sound s : ∀ w r,
  SMA.span_ident s = (w, r) → all_chars ident_char w = true.
Proof.
  induction s as [|c s IH]; intros w r; cbn [SMA.span_ident].
  - by intros [= <- <-].
  - destruct (Py.is_alpha c || Py.is_digit c || Ascii.eqb c "_") eqn:Hc.
    + destruct (SMA.span_ident s) as [w' r'] eqn:Hs. intros [= <- <-].
      cbn [all_chars]. unfold ident_char at 1. rewrite Hc. by apply (IH w' r').
    + by intros [= <- <-].
Qed.

Lemma label_plain label :
  SMA.label_match (label +:+ ":") = Some label →
  all_chars plain label = true ∧ label ≠ "".
Proof.
  unfold SMA.label_match. destruct (label +:+ ":") as [|c s'] eqn:E; [done |].
  destruct (Py.is_alpha c || Ascii.eqb c "_") eqn:Hc; [| done].
  destruct (SMA.span_ident s') as [w r] eqn:Hs.
  destruct (Py.strip_prefix ":" r) as [r'|]; [| done].
  destruct ((r' =? "")%string || _); [| done]. intros [= <-]. split; [| done].
  apply all_chars_impl with ident_char; [apply ident_char_plain |].
  cbn [all_chars]. rewrite (span_ident_sound _ _ _ Hs), andb_true_r.
  unfold ident_char. apply orb_true_iff in Hc as [-> | ->]; [done |].
  by rewrite orb_true_r.
Qed.

Lemma target_facts lt bits label :
  is_target lt bits label →
  all_chars plain label = true ∧ label ≠ "" ∧
  ∃ address, lt !! label = Some address ∧ 0 ≤ address < 2 ^ bits.
Proof. intros [Hl Ha]. by destruct (label_plain label Hl). Qed.

(** ** Numeric fields, encoded and decoded *)

Lemma bin_to_int_format a w : 0 ≤ a → SMD.bin_to_int (Py.format_bin a w) = Ok a.
Proof.
  intros H. rewrite bin_to_int_bits by (by apply format_bin_bits).
  by rewrite format_bin_value.
Qed.

Lemma single_bit_test x k :
  0 ≤ k → 0 ≤ x < 2 ^ (k + 1) → (Z.land x (Z.shiftl 1 k) =? 0) = (x <? 2 ^ k).
Proof.
  intros Hk Hx. rewrite Z.shiftl_1_l.
  assert (0 < 2 ^ k) as Hp by (apply Z.pow_pos_nonneg; lia).
  replace (k + 1) with (Z.succ k) in Hx by lia.
  rewrite Z.pow_succ_r in Hx by done.
  destruct (Z.ltb_spec x (2 ^ k)) as [Hlt | Hge].
  - apply Z.eqb_eq. apply Z.bits_inj'. intros n Hn.
    rewrite Z.land_spec, Z.bits_0, Z.pow2_bits_eqb by done.
    destruct (Z.eqb_spec k n) as [<- |]; [| apply andb_false_r].
    rewrite andb_true_r. apply Z.testbit_false; [done |].
    by rewrite Z.div_small by lia.
  - apply Z.eqb_neq. intros E.
    assert (Z.testbit (Z.land x (2 ^ k)) k = true) as Hbit.
    { rewrite Z.land_spec, Z.pow2_bits_true, andb_true_r by done.
      apply Z.testbit_true; [done |].
      replace (x / 2 ^ k) with 1; [done |].
      apply Z.div_unique with (x - 2 ^ k); lia. }
    rewrite E, Z.bits_0 in Hbit. discriminate Hbit.
Qed.

Lemma fits_signed_mod bits v :
  0 < bits → fits_signed bits v →
  0 ≤ v mod 2 ^ bits < 2 ^ bits ∧
  v mod 2 ^ bits = (if v <? 0 then v + 2 ^ bits else v) ∧
  2 ^ bits = 2 * 2 ^ (bits - 1) ∧ 0 < 2 ^ (bits - 1).
Proof.
  intros Hb [Hlo Hhi].
  assert (0 < 2 ^ (bits - 1)) as Hp by (apply Z.pow_pos_nonneg; lia).
  assert (2 ^ bits = 2 * 2 ^ (bits - 1)) as Hpow.
  { replace bits with (Z.succ (bits - 1)) at 1 by lia. apply Z.pow_succ_r. lia. }
  split; [apply Z.mod_pos_bound; lia |]. split; [| done].
  destruct (Z.ltb_spec v 0).
  - symmetry. apply Z.mod_unique with (-1); lia.
  - apply Z.mod_small. lia.
Qed.

(** A signed field as [bin_to_signed_int] reads it. *)
Lemma signed_field_read bits v :
  0 < bits → fits_signed bits v →
  SMD.bin_to_signed_int (Py.format_bin (v mod 2 ^ bits) (Z.to_nat bits)) = Ok v ∧
  String.length (Py.format_bin (v mod 2 ^ bits) (Z.to_nat bits)) = Z.to_nat bits.
Proof.
  intros Hb Hv. pose proof Hv as [Hlo Hhi].
  destruct (fits_signed_mod bits v Hb Hv) as (Hrange & Hmod & Hpow & Hp).
  assert (String.length (Py.format_bin (v mod 2 ^ bits) (Z.to_nat bits)) = Z.to_nat bits)
    as Hlen by (apply format_bin_length; rewrite ?Z2Nat.id; lia).
  split; [| done].
  unfold SMD.bin_to_signed_int, SMD.int2.
  pose proof (format_bin_value (v mod 2 ^ bits) (Z.to_nat bits) (proj1 Hrange)) as Hval.
  set (field := Py.format_bin (v mod 2 ^ bits) (Z.to_nat bits)) in *.
  assert ((field =? "")%string = false) as Hne.
  { apply String.eqb_neq. intros E. rewrite E in Hlen. simpl in Hlen. lia. }
  rewrite Hne. apply String.eqb_neq in Hne.
  rewrite (int_bits field) by (done || apply format_bin_bits; lia).
  rewrite Hval. cbn [mbind result_bind]. unfold Py.len. rewrite Hlen, Z2Nat.id by lia.
  rewrite single_bit_test by (rewrite ?Z.sub_add; lia).
  rewrite Z.shiftl_1_l, Hmod.
  destruct (Z.ltb_spec v 0).
  - assert ((v + 2 ^ bits <? 2 ^ (bits - 1)) = false) as -> by lia.
    cbn [negb]. f_equal. lia.
  - by assert ((v <? 2 ^ (bits - 1)) = true) as -> by lia.
Qed.

(** A signed field as [parse_immediate] writes it. *)
Lemma signed_field_written bits v :
  0 < bits → bits ≤ widest_field → fits_signed bits v →
  SMA.parse_immediate (Py.str v) bits
    = Ok (Py.format_bin (v mod 2 ^ bits) (Z.to_nat bits)).
Proof.
  intros Hb Hw Hv. pose proof Hv as [Hlo Hhi].
  destruct (fits_signed_mod bits v Hb Hv) as (Hrange & Hmod & Hpow & Hp).
  rewrite parse_immediate_str by (done || apply (field_value_converts bits); lia).
  assert ((v <? - 2 ^ (bits - 1)) = false) as -> by lia.
  destruct (Z.ltb_spec v 0); [done |].
  assert ((2 ^ bits - 1 <? v) = false) as -> by lia.
  by rewrite Z.mod_small by lia.
Qed.

(** A signed field: what [parse_immediate] writes and what
    [bin_to_signed_int] reads back. *)
Lemma signed_field bits v :
  0 < bits → bits ≤ widest_field → fits_signed bits v →
  SMA.parse_immediate (Py.str v) bits
    = Ok (Py.format_bin (v mod 2 ^ bits) (Z.to_nat bits)) ∧
  SMD.bin_to_signed_int (Py.format_bin (v mod 2 ^ bits) (Z.to_nat bits)) = Ok v ∧
  String.length (Py.format_bin (v mod 2 ^ bits) (Z.to_nat bits)) = Z.to_nat bits.
Proof.
  intros Hb Hw Hv. split; [by apply signed_field_written |]. by apply signed_field_read.
Qed.

(** An address field. *)
Lemma address_field (bits : nat) a :
  (0 < bits)%nat → 0 ≤ a < 2 ^ Z.of_nat bits →
  SMD.bin_to_int (Py.format_bin a bits) = Ok a ∧
  String.length (Py.format_bin a bits) = bits.
Proof.
  intros Hb Ha. split; [apply bin_to_int_format; lia | by apply format_bin_length].
Qed.

Lemma str_nonneg v :
  0 ≤ v → digit_string (Py.str v) ∧ digits_value 10 0 (Py.str v) = v.
Proof.
  intros H. destruct v as [|p|p]; [done | | lia].
  rewrite str_pos. split; [split |].
  - apply uint_digits.
  - apply pos_digits_nonempty.
  - apply pos_digits_value.
Qed.

Lemma str_plain v : all_chars plain (Py.str v) = true.
Proof.
  apply all_chars_impl with (2 := str_chars v). intros c. ascii_cases c.
Qed.

Lemma str_first v : ∃ c t, Py.str v = String c t ∧ Py.is_space c = false.
Proof.
  pose proof (str_plain v) as H.
  destruct (Py.str v) as [|c t] eqn:E.
  - destruct v as [|p|p]; [done | | by rewrite str_neg in E].
    rewrite str_pos in E. by destruct (pos_digits_nonempty p).
  - exists c, t. split; [done |]. cbn [all_chars] in H.
    apply andb_true_iff in H as [Hc _]. by apply plain_not_space.
Qed.

Lemma remove_comma_plain s : all_chars plain s = true → Py.remove_char "," s = s.
Proof.
  intros H. apply remove_char_absent. apply all_chars_impl with (2 := H).
  intros c Hc. by rewrite (plain_not_comma c Hc).
Qed.

Lemma memory_operand_plain offset r :
  is_register r → all_chars plain (mem_operand offset r) = true.
Proof.
  intros Hr. destruct (register_facts r Hr) as (_ & _ & _ & Hp).
  unfold mem_operand. by rewrite !all_chars_app, str_plain, Hp.
Qed.

(** The memory operand of the canonical text is parsed back. *)
Lemma parse_memory_operand offset r :
  is_register r → Z.abs offset < 10 ^ Py.max_str_digits →
  SMA.parse_memory_address (mem_operand offset r) = Ok (offset, reg_name r).
Proof.
  intros Hr Hoff. apply parse_memory_address_ok. exists "".
  rewrite remove_comma_plain by (by apply memory_operand_plain).
  unfold mem_operand.
  destruct (str_nonneg r) as [Hrs _]; [unfold is_register in Hr; lia |].
  exists (Py.str r). split; [exact Hrs |]. split; [reflexivity |]. left.
  destruct offset as [|p|p].
  - exists "0". split; [done |]. split; [by compute |]. by left.
  - destruct (str_nonneg (Zpos p)) as [Hds Hval]; [lia |].
    exists (Py.str (Zpos p)). split; [exact Hds |].
    split; [rewrite str_pos; by apply pos_digits_length |]. left. by rewrite Hval.
  - exists (pos_digits p). split; [| split].
    + split; [apply uint_digits | apply pos_digits_nonempty].
    + by apply pos_digits_length.
    + right. rewrite str_neg, pos_digits_value. split; reflexivity.
Qed.

(** ** Fields of a word *)

Lemma substring_take n f r : String.length f = n → substring 0 n (f +:+ r) = f.
Proof.
  revert n. induction f as [|c f IH]; intros n <-; [by destruct r |].
  rewrite app_cons. cbn [String.length substring]. by rewrite IH.
Qed.

Lemma substring_all n f : String.length f = n → substring 0 n f = f.
Proof. intros H. rewrite <- (app_empty_r f) at 1. by apply substring_take. Qed.

Lemma substring_skip k n' n m f r :
  String.length f = k → n = (k + n')%nat →
  substring n m (f +:+ r) = substring n' m r.
Proof.
  intros <- ->. induction f as [|c f IH]; [done |].
  rewrite app_cons. cbn [String.length Nat.add substring]. apply IH.
Qed.

(** ** The line of an instruction *)

Lemma plain_first x y :
  all_chars plain x = true → x ≠ "" →
  ∃ c t, x +:+ y = String c t ∧ Py.is_space c = false.
Proof.
  intros Hx Hne. destruct x as [|c x]; [done |]. cbn [all_chars] in Hx.
  apply andb_true_iff in Hx as [Hc _]. exists c, (x +:+ y).
  split; [done | by apply plain_not_space].
Qed.

Lemma split_line m x y :
  all_chars plain m = true → m ≠ "" → all_chars plain x = true → x ≠ "" →
  Py.split_ws_1 (m +:+ " " +:+ x +:+ y) = [m; x +:+ y].
Proof.
  intros Hm Hmne Hx Hxne. destruct (plain_first x y Hx Hxne) as (c & t & -> & Hc).
  by apply split_ws_1_two.
Qed.

Lemma split_line_1 m x :
  all_chars plain m = true → m ≠ "" → all_chars plain x = true → x ≠ "" →
  Py.split_ws_1 (m +:+ " " +:+ x) = [m; x].
Proof.
  intros Hm Hmne Hx Hxne. rewrite <- (app_empty_r x). by apply split_line.
Qed.

Lemma reg_name_nonempty r : reg_name r ≠ "".
Proof. done. Qed.

Lemma str_nonempty v : Py.str v ≠ "".
Proof. destruct (str_first v) as (c & t & -> & _). done. Qed.

Lemma mem_operand_nonempty offset r : mem_operand offset r ≠ "".
Proof.
  unfold mem_operand. destruct (str_first offset) as (c & t & -> & _). done.
Qed.

(** ** The branch of [assemble_line] taken for each mnemonic *)

Ltac assemble_branch H Hl :=
  unfold SMA.assemble_line; rewrite H; cbv beta iota zeta; rewrite Hl; reflexivity.

Lemma assemble_reg3 op line m rest lt a :
  Py.split_ws_1 line = [m; rest] → Py.lower m = reg3_name op →
  SMA.assemble_line line lt a =
    match Py.strip <$> Py.split_char "," rest with
    | [o0; o1; o2] =>
        rs ← SMA.parse_register o0;
        rt ← SMA.parse_register o1;
        rd ← SMA.parse_register o2;
        Ok (Some (reg3_code op +:+ rs +:+ rt +:+ rd +:+ Py.repeat_char "0" 11))
    | _ => Raise (ValueError (OperandCount (reg3_name op) rest))
    end.
Proof. intros H Hl. destruct op; assemble_branch H Hl. Qed.

Lemma assemble_ldwd line m rest lt a :
  Py.split_ws_1 line = [m; rest] → Py.lower m = "ldwd" →
  SMA.assemble_line line lt a =
    match Py.strip <$> Py.split_char "," rest with
    | [o0; o1] =>
        '(offset_val, rs_str) ← SMA.parse_memory_address o0;
        rt ← SMA.parse_register o1;
        rs ← SMA.parse_register rs_str;
        offset_bin ← SMA.parse_immediate (Py.str offset_val) 16;
        Ok (Some ("000110" +:+ rs +:+ rt +:+ offset_bin))
    | _ => Raise (ValueError (OperandCount "ldwd" rest))
    end.
Proof. intros H Hl. assemble_branch H Hl. Qed.

Lemma assemble_srwd line m rest lt a :
  Py.split_ws_1 line = [m; rest] → Py.lower m = "srwd" →
  SMA.assemble_line line lt a =
    match Py.strip <$> Py.split_char "," rest with
    | [o0; o1] =>
        rt ← SMA.parse_register o0;
        '(offset_val, rs_str) ← SMA.parse_memory_address o1;
        rs ← SMA.parse_register rs_str;
        offset_bin ← SMA.parse_immediate (Py.str offset_val) 16;
        Ok (Some ("000111" +:+ rs +:+ rt +:+ offset_bin))
    | _ => Raise (ValueError (OperandCount "srwd" rest))
    end.
Proof. intros H Hl. assemble_branch H Hl. Qed.

Lemma assemble_jmp line m rest lt a :
  Py.split_ws_1 line = [m; rest] → Py.lower m = "jmp" →
  SMA.assemble_line line lt a =
    match Py.strip <$> Py.split_char "," rest with
    | [label] =>
        address ← SMA.lookup_label lt label;
        Ok (Some ("001000" +:+ Py.format_bin address 26))
    | _ => Raise (ValueError (OperandCount "jmp" rest))
    end.
Proof. intros H Hl. assemble_branch H Hl. Qed.

Lemma assemble_pint line m rest lt a :
  Py.split_ws_1 line = [m; rest] → Py.lower m = "pint" →
  SMA.assemble_line line lt a =
    match Py.strip <$> Py.split_char "," rest with
    | [o0] =>
        rs ← SMA.parse_register o0;
        Ok (Some ("001001" +:+ rs +:+ Py.repeat_char "0" 21))
    | _ => Raise (ValueError (OperandCount "pint" rest))
    end.
Proof. intros H Hl. assemble_branch H Hl. Qed.

Lemma assemble_pstr line m rest lt a :
  Py.split_ws_1 line = [m; rest] → Py.lower m = "pstr" →
  SMA.assemble_line line lt a =
    match Py.strip <$> Py.split_char "," rest with
    | [o0] =>
        '(offset_val, rs_str) ← SMA.parse_memory_address o0;
        rs ← SMA.parse_register rs_str;
        offset_bin ← SMA.parse_immediate (Py.str offset_val) 21;
        Ok (Some ("001010" +:+ offset_bin +:+ rs))
    | _ => Raise (ValueError (OperandCount "pstr" rest))
    end.
Proof. intros H Hl. assemble_branch H Hl. Qed.

Lemma assemble_for line m rest lt a :
  Py.split_ws_1 line = [m; rest] → Py.lower m = "for" →
  SMA.assemble_line line lt a =
    match Py.strip <$> Py.split_char "," rest with
    | [o0; label] =>
        rs ← SMA.parse_register o0;
        address ← SMA.lookup_label lt label;
        Ok (Some ("001110" +:+ rs +:+ Py.format_bin address 21))
    | _ => Raise (ValueError (OperandCount "for" rest))
    end.
Proof. intros H Hl. assemble_branch H Hl. Qed.

Lemma assemble_reg2 op line m rest lt a :
  Py.split_ws_1 line = [m; rest] → Py.lower m = reg2_name op →
  SMA.assemble_line line lt a =
    match Py.strip <$> Py.split_char "," rest with
    | [o0; o1] =>
        rs ← SMA.parse_register o0;
        rd ← SMA.parse_register o1;
        Ok (Some (reg2_code op +:+ rs +:+ rd +:+ Py.repeat_char "0" 16))
    | _ => Raise (ValueError (OperandCount (reg2_name op) rest))
    end.
Proof. intros H Hl. destruct op; assemble_branch H Hl. Qed.

Lemma assemble_branch_op op line m rest lt a :
  Py.split_ws_1 line = [m; rest] → Py.lower m = branch_name op →
  SMA.assemble_line line lt a =
    match Py.strip <$> Py.split_char "," rest with
    | [o0; o1; label] =>
        rs ← SMA.parse_register o0;
        rt ← SMA.parse_register o1;
        address ← SMA.lookup_label lt label;
        Ok (Some (branch_code op +:+ rs +:+ rt +:+ Py.format_bin address 16))
    | _ => Raise (ValueError (OperandCount (branch_name op) rest))
    end.
Proof. intros H Hl. destruct op; assemble_branch H Hl. Qed.

Lemma assemble_ldad line m rest lt a :
  Py.split_ws_1 line = [m; rest] → Py.lower m = "ldad" →
  SMA.assemble_line line lt a =
    match Py.strip <$> Py.split_char "," rest with
    | [label; o1] =>
        rd ← SMA.parse_register o1;
        match lt !! label with
        | None => Raise (ValueError (UndefinedVariable label))
        | Some address => Ok (Some ("010100" +:+ Py.format_bin address 21 +:+ rd))
        end
    | _ => Raise (ValueError (OperandCount "ldad" rest))
    end.
Proof. intros H Hl. assemble_branch H Hl. Qed.

Lemma assemble_ldim line m rest lt a :
  Py.split_ws_1 line = [m; rest] → Py.lower m = "ldim" →
  SMA.assemble_line line lt a =
    match Py.strip <$> Py.split_char "," rest with
    | [o0; o1] =>
        imm ← SMA.parse_immediate o0 21;
        rd ← SMA.parse_register o1;
        Ok (Some ("010101" +:+ imm +:+ rd))
    | _ => Raise (ValueError (OperandCount "ldim" rest))
    end.
Proof. intros H Hl. assemble_branch H Hl. Qed.

Lemma assemble_imm op line m rest lt a :
  Py.split_ws_1 line = [m; rest] → Py.lower m = imm_name op →
  SMA.assemble_line line lt a =
    match Py.strip <$> Py.split_char "," rest with
    | [o0; o1; o2] =>
        rs ← SMA.parse_register o0;
        imm ← SMA.parse_immediate o1 15;
        rd ← SMA.parse_register o2;
        Ok (Some (default "" (SMA.opcodes !! imm_name op) +:+ rs +:+ imm +:+ rd))
    | _ => Raise (ValueError (OperandCount (imm_name op) rest))
    end.
Proof. intros H Hl. destruct op; assemble_branch H Hl. Qed.

Lemma assemble_clr line m ps lt a :
  Py.split_ws_1 line = m :: ps → Py.lower m = "clr" →
  SMA.assemble_line line lt a = Ok (Some zeros32).
Proof. intros H Hl. assemble_branch H Hl. Qed.

Lemma assemble_end line m ps lt a :
  Py.split_ws_1 line = m :: ps → Py.lower m = "end" →
  SMA.assemble_line line lt a = Ok (Some "11111111111111111111111111111111").
Proof. intros H Hl. assemble_branch H Hl. Qed.

(** ** The branch of [disassemble_instruction] taken for each opcode *)

Ltac disassemble_branch H :=
  unfold SMD.disassemble_instruction, Py.len;
  rewrite length_app, H;
  lazymatch goal with
  | |- context [Py.slice 0 6 (?code +:+ ?rest)] =>
      change (Py.slice 0 6 (code +:+ rest)) with (substring 0 6 (code +:+ rest));
      rewrite (substring_take 6 code rest eq_refl)
  end;
  reflexivity.

Lemma disassemble_reg3 op rest a :
  String.length rest = 26%nat →
  SMD.disassemble_instruction (reg3_code op +:+ rest) a =
    Ok (reg3_name op +:+ " " +:+ SMD.get_register_name (substring 0 5 rest) +:+ ", "
        +:+ SMD.get_register_name (substring 5 5 rest) +:+ ", "
        +:+ SMD.get_register_name (substring 10 5 rest)).
Proof. intros H. destruct op; disassemble_branch H. Qed.

Lemma disassemble_ldwd rest a :
  String.length rest = 26%nat →
  SMD.disassemble_instruction ("000110" +:+ rest) a =
    offset_val ← SMD.bin_to_signed_int (substring 10 16 rest);
    Ok ("ldwd" +:+ " " +:+ Py.str offset_val +:+ "("
        +:+ SMD.get_register_name (substring 0 5 rest) +:+ "), "
        +:+ SMD.get_register_name (substring 5 5 rest)).
Proof. intros H. disassemble_branch H. Qed.

Lemma disassemble_srwd rest a :
  String.length rest = 26%nat →
  SMD.disassemble_instruction ("000111" +:+ rest) a =
    offset_val ← SMD.bin_to_signed_int (substring 10 16 rest);
    Ok ("srwd" +:+ " " +:+ SMD.get_register_name (substring 5 5 rest) +:+ ", "
        +:+ Py.str offset_val +:+ "("
        +:+ SMD.get_register_name (substring 0 5 rest) +:+ ")").
Proof. intros H. disassemble_branch H. Qed.

Lemma disassemble_jmp rest a :
  String.length rest = 26%nat →
  SMD.disassemble_instruction ("001000" +:+ rest) a =
    target_address ← SMD.bin_to_int (substring 0 26 rest);
    Ok ("jmp" +:+ " " +:+ Py.str target_address).
Proof. intros H. disassemble_branch H. Qed.

Lemma disassemble_pint rest a :
  String.length rest = 26%nat →
  SMD.disassemble_instruction ("001001" +:+ rest) a =
    Ok ("pint" +:+ " " +:+ SMD.get_register_name (substring 0 5 rest)).
Proof. intros H. disassemble_branch H. Qed.

Lemma disassemble_pstr rest a :
  String.length rest = 26%nat →
  SMD.disassemble_instruction ("001010" +:+ rest) a =
    offset_val ← SMD.bin_to_signed_int (substring 0 21 rest);
    Ok ("pstr" +:+ " " +:+ Py.str offset_val +:+ "("
        +:+ SMD.get_register_name (substring 21 5 rest) +:+ ")").
Proof. intros H. disassemble_branch H. Qed.

Lemma disassemble_for rest a :
  String.length rest = 26%nat →
  SMD.disassemble_instruction ("001110" +:+ rest) a =
    target_address ← SMD.bin_to_int (substring 5 21 rest);
    Ok ("for" +:+ " " +:+ SMD.get_register_name (substring 0 5 rest) +:+ ", "
        +:+ Py.str target_address).
Proof. intros H. disassemble_branch H. Qed.

Lemma disassemble_reg2 op rest a :
  String.length rest = 26%nat →
  SMD.disassemble_instruction (reg2_code op +:+ rest) a =
    Ok (reg2_name op +:+ " " +:+ SMD.get_register_name (substring 0 5 rest) +:+ ", "
        +:+ SMD.get_register_name (substring 5 5 rest)).
Proof. intros H. destruct op; disassemble_branch H. Qed.

Lemma disassemble_branch_op op rest a :
  String.length rest = 26%nat →
  SMD.disassemble_instruction (branch_code op +:+ rest) a =
    target_address ← SMD.bin_to_int (substring 10 16 rest);
    Ok (branch_name op +:+ " " +:+ SMD.get_register_name (substring 0 5 rest) +:+ ", "
        +:+ SMD.get_register_name (substring 5 5 rest) +:+ ", "
        +:+ Py.str target_address).
Proof. intros H. destruct op; disassemble_branch H. Qed.

Lemma disassemble_ldad rest a :
  String.length rest = 26%nat →
  SMD.disassemble_instruction ("010100" +:+ rest) a =
    address_val ← SMD.bin_to_int (substring 0 21 rest);
    Ok ("ldad" +:+ " " +:+ Py.str address_val +:+ ", "
        +:+ SMD.get_register_name (substring 21 5 rest)).
Proof. intros H. disassemble_branch H. Qed.

Lemma disassemble_ldim rest a :
  String.length rest = 26%nat →
  SMD.disassemble_instruction ("010101" +:+ rest) a =
    imm_val ← SMD.bin_to_signed_int (substring 0 21 rest);
    Ok ("ldim" +:+ " " +:+ Py.str imm_val +:+ ", "
        +:+ SMD.get_register_name (substring 21 5 rest)).
Proof. intros H. disassemble_branch H. Qed.

(** ** Round trip, format by format *)

Section round_trip.
Context (lt : gmap string Z) (ca a : Z).
Context (text m rest : string).
Hypothesis text_split : Py.split_ws_1 text = [m; rest].

Lemma lookup_target bits label :
  is_target lt bits label →
  ∃ address, lt !! label = Some address ∧
    SMA.lookup_label lt label = Ok address ∧
    default 0 (lt !! label) = address ∧
    0 ≤ address < 2 ^ bits.
Proof using Type.
  intros [_ (addr & Hl & Hb)].
  exists addr. unfold SMA.lookup_label. by rewrite Hl.
Qed.

Lemma round_trip_reg3 op rs rt rd :
  Py.lower m = reg3_name op →
  Py.strip <$> Py.split_char "," rest = [reg_name rs; reg_name rt; reg_name rd] →
  is_register rs → is_register rt → is_register rd →
  trip lt ca a text (decoded_text lt (Reg3 op rs rt rd)).
Proof using text_split.
  intros Hm Hops Hrs Hrt Hrd. unfold trip, decoded_text, render.
  destruct (register_facts rs Hrs) as (Hp1 & Hn1 & Hl1 & _).
  destruct (register_facts rt Hrt) as (Hp2 & Hn2 & Hl2 & _).
  destruct (register_facts rd Hrd) as (Hp3 & Hn3 & Hl3 & _).
  eexists. split_and!.
  - rewrite (assemble_reg3 op text m rest lt ca text_split Hm), Hops.
    rewrite Hp1. cbn [mbind result_bind]. rewrite Hp2. cbn [mbind result_bind].
    rewrite Hp3. reflexivity.
  - rewrite !length_app, Hl1, Hl2, Hl3. by destruct op.
  - rewrite disassemble_reg3 by (rewrite !length_app, Hl1, Hl2, Hl3; reflexivity).
    rewrite (substring_take 5) by done.
    rewrite (substring_skip 5 0 5 5 _ _ Hl1 eq_refl), (substring_take 5) by done.
    rewrite (substring_skip 5 5 10 5 _ _ Hl1 eq_refl).
    rewrite (substring_skip 5 0 5 5 _ _ Hl2 eq_refl), (substring_take 5) by done.
    by rewrite Hn1, Hn2, Hn3.
Qed.

Lemma round_trip_ldwd offset rs rt :
  Py.lower m = "ldwd" →
  Py.strip <$> Py.split_char "," rest = [mem_operand offset rs; reg_name rt] →
  fits_signed 16 offset → is_register rs → is_register rt →
  trip lt ca a text (decoded_text lt (LoadWord offset rs rt)).
Proof using text_split.
  intros Hm Hops Hoff Hrs Hrt. unfold trip, decoded_text, render.
  destruct (register_facts rs Hrs) as (Hp1 & Hn1 & Hl1 & _).
  destruct (register_facts rt Hrt) as (Hp2 & Hn2 & Hl2 & _).
  destruct (signed_field 16 offset ltac:(lia) ltac:(by compute) Hoff) as (Henc & Hdec & Hlen).
  change (Z.to_nat 16) with 16%nat in *.
  eexists. split_and!.
  - rewrite (assemble_ldwd text m rest lt ca text_split Hm), Hops.
    rewrite parse_memory_operand by (assumption || numeral_fits). cbn [mbind result_bind].
    rewrite Hp2. cbn [mbind result_bind]. rewrite Hp1. cbn [mbind result_bind].
    rewrite Henc. reflexivity.
  - by rewrite !length_app, Hl1, Hl2, Hlen.
  - rewrite disassemble_ldwd by (by rewrite !length_app, Hl1, Hl2, Hlen).
    rewrite (substring_skip 5 5 10 16 _ _ Hl1 eq_refl).
    rewrite (substring_skip 5 0 5 16 _ _ Hl2 eq_refl), (substring_all 16) by done.
    rewrite Hdec. cbn [mbind result_bind].
    rewrite (substring_take 5) by done.
    rewrite (substring_skip 5 0 5 5 _ _ Hl1 eq_refl), (substring_take 5) by done.
    rewrite Hn1, Hn2. unfold mem_operand. by rewrite !app_assoc_s.
Qed.

Lemma round_trip_srwd rt offset rs :
  Py.lower m = "srwd" →
  Py.strip <$> Py.split_char "," rest = [reg_name rt; mem_operand offset rs] →
  fits_signed 16 offset → is_register rs → is_register rt →
  trip lt ca a text (decoded_text lt (StoreWord rt offset rs)).
Proof using text_split.
  intros Hm Hops Hoff Hrs Hrt. unfold trip, decoded_text, render.
  destruct (register_facts rs Hrs) as (Hp1 & Hn1 & Hl1 & _).
  destruct (register_facts rt Hrt) as (Hp2 & Hn2 & Hl2 & _).
  destruct (signed_field 16 offset ltac:(lia) ltac:(by compute) Hoff) as (Henc & Hdec & Hlen).
  change (Z.to_nat 16) with 16%nat in *.
  eexists. split_and!.
  - rewrite (assemble_srwd text m rest lt ca text_split Hm), Hops.
    rewrite Hp2. cbn [mbind result_bind].
    rewrite parse_memory_operand by (assumption || numeral_fits). cbn [mbind result_bind].
    rewrite Hp1. cbn [mbind result_bind]. rewrite Henc. reflexivity.
  - by rewrite !length_app, Hl1, Hl2, Hlen.
  - rewrite disassemble_srwd by (by rewrite !length_app, Hl1, Hl2, Hlen).
    rewrite (substring_skip 5 5 10 16 _ _ Hl1 eq_refl).
    rewrite (substring_skip 5 0 5 16 _ _ Hl2 eq_refl), (substring_all 16) by done.
    rewrite Hdec. cbn [mbind result_bind].
    rewrite (substring_take 5) by done.
    rewrite (substring_skip 5 0 5 5 _ _ Hl1 eq_refl), (substring_take 5) by done.
    by rewrite Hn1, Hn2.
Qed.

Lemma round_trip_jmp target :
  Py.lower m = "jmp" →
  Py.strip <$> Py.split_char "," rest = [target] →
  is_target lt 26 target →
  trip lt ca a text (decoded_text lt (Jump target)).
Proof using text_split.
  intros Hm Hops Ht. unfold trip, decoded_text, render.
  destruct (lookup_target 26 target Ht) as (addr & Hl & Hlk & Hd & Hb).
  destruct (address_field 26 addr ltac:(lia) Hb) as (Hdec & Hlen).
  eexists. split_and!.
  - rewrite (assemble_jmp text m rest lt ca text_split Hm), Hops.
    rewrite Hlk. reflexivity.
  - by rewrite !length_app, Hlen.
  - rewrite disassemble_jmp by done.
    rewrite (substring_all 26) by done. rewrite Hdec. cbn [mbind result_bind].
    by rewrite Hd.
Qed.

Lemma round_trip_pint rs :
  Py.lower m = "pint" →
  Py.strip <$> Py.split_char "," rest = [reg_name rs] →
  is_register rs →
  trip lt ca a text (decoded_text lt (PrintInt rs)).
Proof using text_split.
  intros Hm Hops Hrs. unfold trip, decoded_text, render.
  destruct (register_facts rs Hrs) as (Hp1 & Hn1 & Hl1 & _).
  eexists. split_and!.
  - rewrite (assemble_pint text m rest lt ca text_split Hm), Hops.
    rewrite Hp1. reflexivity.
  - by rewrite !length_app, Hl1.
  - rewrite disassemble_pint by (by rewrite !length_app, Hl1).
    rewrite (substring_take 5) by done. by rewrite Hn1.
Qed.

Lemma round_trip_pstr offset rs :
  Py.lower m = "pstr" →
  Py.strip <$> Py.split_char "," rest = [mem_operand offset rs] →
  fits_signed 21 offset → is_register rs →
  trip lt ca a text (decoded_text lt (PrintStr offset rs)).
Proof using text_split.
  intros Hm Hops Hoff Hrs. unfold trip, decoded_text, render.
  destruct (register_facts rs Hrs) as (Hp1 & Hn1 & Hl1 & _).
  destruct (signed_field 21 offset ltac:(lia) ltac:(by compute) Hoff) as (Henc & Hdec & Hlen).
  change (Z.to_nat 21) with 21%nat in *.
  eexists. split_and!.
  - rewrite (assemble_pstr text m rest lt ca text_split Hm), Hops.
    rewrite parse_memory_operand by (assumption || numeral_fits). cbn [mbind result_bind].
    rewrite Hp1. cbn [mbind result_bind]. rewrite Henc. reflexivity.
  - by rewrite !length_app, Hl1, Hlen.
  - rewrite disassemble_pstr by (by rewrite !length_app, Hl1, Hlen).
    rewrite (substring_take 21) by done. rewrite Hdec. cbn [mbind result_bind].
    rewrite (substring_skip 21 0 21 5 _ _ Hlen eq_refl), (substring_all 5) by done.
    by rewrite Hn1.
Qed.

Lemma round_trip_for rs target :
  Py.lower m = "for" →
  Py.strip <$> Py.split_char "," rest = [reg_name rs; target] →
  is_register rs → is_target lt 21 target →
  trip lt ca a text (decoded_text lt (ForLoop rs target)).
Proof using text_split.
  intros Hm Hops Hrs Ht. unfold trip, decoded_text, render.
  destruct (register_facts rs Hrs) as (Hp1 & Hn1 & Hl1 & _).
  destruct (lookup_target 21 target Ht) as (addr & Hl & Hlk & Hd & Hb).
  destruct (address_field 21 addr ltac:(lia) Hb) as (Hdec & Hlen).
  eexists. split_and!.
  - rewrite (assemble_for text m rest lt ca text_split Hm), Hops.
    rewrite Hp1. cbn [mbind result_bind]. rewrite Hlk. reflexivity.
  - by rewrite !length_app, Hl1, Hlen.
  - rewrite disassemble_for by (by rewrite !length_app, Hl1, Hlen).
    rewrite (substring_skip 5 0 5 21 _ _ Hl1 eq_refl), (substring_all 21) by done.
    rewrite Hdec. cbn [mbind result_bind].
    rewrite (substring_take 5) by done. by rewrite Hn1, Hd.
Qed.

Lemma round_trip_reg2 op rs rd :
  Py.lower m = reg2_name op →
  Py.strip <$> Py.split_char "," rest = [reg_name rs; reg_name rd] →
  is_register rs → is_register rd →
  trip lt ca a text (decoded_text lt (Reg2 op rs rd)).
Proof using text_split.
  intros Hm Hops Hrs Hrd. unfold trip, decoded_text, render.
  destruct (register_facts rs Hrs) as (Hp1 & Hn1 & Hl1 & _).
  destruct (register_facts rd Hrd) as (Hp3 & Hn3 & Hl3 & _).
  eexists. split_and!.
  - rewrite (assemble_reg2 op text m rest lt ca text_split Hm), Hops.
    rewrite Hp1. cbn [mbind result_bind]. rewrite Hp3. reflexivity.
  - rewrite !length_app, Hl1, Hl3. by destruct op.
  - rewrite disassemble_reg2 by (rewrite !length_app, Hl1, Hl3; reflexivity).
    rewrite (substring_take 5) by done.
    rewrite (substring_skip 5 0 5 5 _ _ Hl1 eq_refl), (substring_take 5) by done.
    by rewrite Hn1, Hn3.
Qed.

Lemma round_trip_branch op rs rt target :
  Py.lower m = branch_name op →
  Py.strip <$> Py.split_char "," rest = [reg_name rs; reg_name rt; target] →
  is_register rs → is_register rt → is_target lt 16 target →
  trip lt ca a text (decoded_text lt (Branch op rs rt target)).
Proof using text_split.
  intros Hm Hops Hrs Hrt Ht. unfold trip, decoded_text, render.
  destruct (register_facts rs Hrs) as (Hp1 & Hn1 & Hl1 & _).
  destruct (register_facts rt Hrt) as (Hp2 & Hn2 & Hl2 & _).
  destruct (lookup_target 16 target Ht) as (addr & Hl & Hlk & Hd & Hb).
  destruct (address_field 16 addr ltac:(lia) Hb) as (Hdec & Hlen).
  eexists. split_and!.
  - rewrite (assemble_branch_op op text m rest lt ca text_split Hm), Hops.
    rewrite Hp1. cbn [mbind result_bind]. rewrite Hp2. cbn [mbind result_bind].
    rewrite Hlk. reflexivity.
  - rewrite !length_app, Hl1, Hl2, Hlen. by destruct op.
  - rewrite disassemble_branch_op by (by rewrite !length_app, Hl1, Hl2, Hlen).
    rewrite (substring_skip 5 5 10 16 _ _ Hl1 eq_refl).
    rewrite (substring_skip 5 0 5 16 _ _ Hl2 eq_refl), (substring_all 16) by done.
    rewrite Hdec. cbn [mbind result_bind].
    rewrite (substring_take 5) by done.
    rewrite (substring_skip 5 0 5 5 _ _ Hl1 eq_refl), (substring_take 5) by done.
    by rewrite Hn1, Hn2, Hd.
Qed.

Lemma round_trip_ldad target rd :
  Py.lower m = "ldad" →
  Py.strip <$> Py.split_char "," rest = [target; reg_name rd] →
  is_target lt 21 target → is_register rd →
  trip lt ca a text (decoded_text lt (LoadAddr target rd)).
Proof using text_split.
  intros Hm Hops Ht Hrd. unfold trip, decoded_text, render.
  destruct (register_facts rd Hrd) as (Hp3 & Hn3 & Hl3 & _).
  destruct (lookup_target 21 target Ht) as (addr & Hl & Hlk & Hd & Hb).
  destruct (address_field 21 addr ltac:(lia) Hb) as (Hdec & Hlen).
  eexists. split_and!.
  - rewrite (assemble_ldad text m rest lt ca text_split Hm), Hops.
    rewrite Hp3. cbn [mbind result_bind]. rewrite Hl. reflexivity.
  - by rewrite !length_app, Hl3, Hlen.
  - rewrite disassemble_ldad by (by rewrite !length_app, Hl3, Hlen).
    rewrite (substring_take 21) by done. rewrite Hdec. cbn [mbind result_bind].
    rewrite (substring_skip 21 0 21 5 _ _ Hlen eq_refl), (substring_all 5) by done.
    by rewrite Hn3, Hd.
Qed.

Lemma round_trip_ldim imm rd :
  Py.lower m = "ldim" →
  Py.strip <$> Py.split_char "," rest = [Py.str imm; reg_name rd] →
  fits_signed 21 imm → is_register rd →
  trip lt ca a text (decoded_text lt (LoadImm imm rd)).
Proof using text_split.
  intros Hm Hops Himm Hrd. unfold trip, decoded_text, render.
  destruct (register_facts rd Hrd) as (Hp3 & Hn3 & Hl3 & _).
  destruct (signed_field 21 imm ltac:(lia) ltac:(by compute) Himm) as (Henc & Hdec & Hlen).
  change (Z.to_nat 21) with 21%nat in *.
  eexists. split_and!.
  - rewrite (assemble_ldim text m rest lt ca text_split Hm), Hops.
    rewrite Henc. cbn [mbind result_bind]. rewrite Hp3. reflexivity.
  - by rewrite !length_app, Hl3, Hlen.
  - rewrite disassemble_ldim by (by rewrite !length_app, Hl3, Hlen).
    rewrite (substring_take 21) by done. rewrite Hdec. cbn [mbind result_bind].
    rewrite (substring_skip 21 0 21 5 _ _ Hlen eq_refl), (substring_all 5) by done.
    by rewrite Hn3.
Qed.

End round_trip.

(** Every instruction outside the register-immediate arithmetic group,
    with operands within their fields, makes the round trip through a
    word of 32 characters, however the line that spells it is spaced. *)
Lemma round_trip_word lt ca a text i :
  round_trip_valid lt i → reads_as text i → trip lt ca a text (decoded_text lt i).
Proof.
  intros Hv (m & ps & Hs & Hm & Hops).
  destruct i; cbn [round_trip_valid mnemonic operand_texts] in Hv, Hm, Hops;
    try destruct Hops as (rest & -> & Hops).
  - destruct Hv as (? & ? & ?). by eapply round_trip_reg3.
  - done.
  - destruct Hv as (? & ? & ?). by eapply round_trip_ldwd.
  - destruct Hv as (? & ? & ?). by eapply round_trip_srwd.
  - by eapply round_trip_jmp.
  - by eapply round_trip_pint.
  - destruct Hv as (? & ?). by eapply round_trip_pstr.
  - destruct Hv as (? & ?). by eapply round_trip_for.
  - destruct Hv as (? & ?). by eapply round_trip_reg2.
  - destruct Hv as (? & ? & ?). by eapply round_trip_branch.
  - destruct Hv as (? & ?). by eapply round_trip_ldad.
  - destruct Hv as (? & ?). by eapply round_trip_ldim.
  - exists zeros32. split_and!; [by eapply assemble_clr | done | by vm_compute].
  - exists "11111111111111111111111111111111".
    split_and!; [by eapply assemble_end | done | by vm_compute].
Qed.

(** The canonical text of an instruction is read as that instruction. *)
Lemma canonical_text_read lt i : round_trip_valid lt i → reads_as (source_text i) i.
Proof.
  intros Hv. unfold reads_as, source_text.
  destruct i; cbn [round_trip_valid render mnemonic operand_texts] in *.
  - destruct Hv as (Hrs & Hrt & Hrd).
    destruct (register_facts rs Hrs) as (_ & _ & _ & ?).
    destruct (register_facts rt Hrt) as (_ & _ & _ & ?).
    destruct (register_facts rd Hrd) as (_ & _ & _ & ?).
    eexists _, _. split_and!; [apply split_line; by destruct op | by destruct op |].
    eexists. split; [done |]. by apply operands_3.
  - done.
  - destruct Hv as (_ & Hrs & Hrt).
    destruct (register_facts rt Hrt) as (_ & _ & _ & ?).
    pose proof (memory_operand_plain offset rs Hrs).
    eexists _, _. split_and!;
      [apply split_line; [done | done | done | apply mem_operand_nonempty] | done |].
    eexists. split; [done |]. by apply operands_2.
  - destruct Hv as (_ & Hrs & Hrt).
    destruct (register_facts rt Hrt) as (_ & _ & _ & ?).
    pose proof (memory_operand_plain offset rs Hrs).
    eexists _, _. split_and!; [by apply split_line | done |].
    eexists. split; [done |]. by apply operands_2.
  - destruct (target_facts _ _ _ Hv) as (? & ? & _).
    eexists _, _. split_and!; [by apply split_line_1 | done |].
    eexists. split; [done |]. by apply operands_1.
  - destruct (register_facts rs Hv) as (_ & _ & _ & ?).
    eexists _, _. split_and!; [by apply split_line_1 | done |].
    eexists. split; [done |]. by apply operands_1.
  - destruct Hv as (_ & Hrs).
    pose proof (memory_operand_plain offset rs Hrs).
    eexists _, _. split_and!;
      [apply split_line_1; [done | done | done | apply mem_operand_nonempty] | done |].
    eexists. split; [done |]. by apply operands_1.
  - destruct Hv as (Hrs & Ht).
    destruct (register_facts rs Hrs) as (_ & _ & _ & ?).
    destruct (target_facts _ _ _ Ht) as (? & ? & _).
    eexists _, _. split_and!; [by apply split_line | done |].
    eexists. split; [done |]. by apply operands_2.
  - destruct Hv as (Hrs & Hrd).
    destruct (register_facts rs Hrs) as (_ & _ & _ & ?).
    destruct (register_facts rd Hrd) as (_ & _ & _ & ?).
    eexists _, _. split_and!; [apply split_line; by destruct op | by destruct op |].
    eexists. split; [done |]. by apply operands_2.
  - destruct Hv as (Hrs & Hrt & Ht).
    destruct (register_facts rs Hrs) as (_ & _ & _ & ?).
    destruct (register_facts rt Hrt) as (_ & _ & _ & ?).
    destruct (target_facts _ _ _ Ht) as (? & ? & _).
    eexists _, _. split_and!; [apply split_line; by destruct op | by destruct op |].
    eexists. split; [done |]. by apply operands_3.
  - destruct Hv as (Ht & Hrd).
    destruct (register_facts rd Hrd) as (_ & _ & _ & ?).
    destruct (target_facts _ _ _ Ht) as (? & ? & _).
    eexists _, _. split_and!; [by apply split_line | done |].
    eexists. split; [done |]. by apply operands_2.
  - destruct Hv as (_ & Hrd).
    destruct (register_facts rd Hrd) as (_ & _ & _ & ?).
    eexists _, _. split_and!;
      [apply split_line; [done | done | apply str_plain | apply str_nonempty] | done |].
    eexists. split; [done |]. apply operands_2; [apply str_plain | done].
  - by exists "clr", [].
  - by exists "end", [].
Qed.

Example branch_round_trip :
  source_text (Branch Ife 1 2 "skip") = "ife %r1, %r2, skip" ∧
  SMA.assemble_line "ife %r1, %r2, skip" {[ "skip" := 6 ]} 4
    = Ok (Some "01001000001000100000000000000110") ∧
  SMD.disassemble_instruction "01001000001000100000000000000110" 4
    = Ok "ife %r1, %r2, 6" ∧
  decoded_text {[ "skip" := 6 ]} (Branch Ife 1 2 "skip") = "ife %r1, %r2, 6".
Proof. split_and!; by vm_compute. Qed.

(** A line spaced and capitalised freely is read as the same
    instruction. *)
Example loose_line_read : reads_as "  LdIm   10 ,%r1 " (LoadImm 10 1).
Proof.
  exists "LdIm", ["10 ,%r1 "]. split_and!; [by vm_compute | by vm_compute |].
  exists "10 ,%r1 ". split; by vm_compute.
Qed.

(** ** Word width *)

(** The instructions of the round trip are encoded on 32 characters. *)
Lemma valid_instruction_word_32 lt i text ca :
  round_trip_valid lt i → reads_as text i →
  ∃ word, SMA.assemble_line text lt ca = Ok (Some word) ∧ Py.len word = 32.
Proof.
  intros H Hr. destruct (round_trip_word lt ca 0 text i H Hr) as (word & Ha & Hl & _).
  exists word. split; [done |]. unfold Py.len. by rewrite Hl.
Qed.

(** The register-immediate arithmetic group is encoded on 31 characters,
    whatever the registers and the immediate. *)
Lemma immediate_arithmetic_word_31 lt ca op rs imm rd :
  is_register rs → 0 ≤ imm < 2 ^ 15 → is_register rd →
  ∃ word,
    SMA.assemble_line (source_text (ImmArith op rs imm rd)) lt ca = Ok (Some word) ∧
    Py.len word = 31.
Proof.
  intros Hrs Himm Hrd. unfold source_text, render.
  destruct (register_facts rs Hrs) as (Hp1 & _ & Hl1 & Hpl1).
  destruct (register_facts rd Hrd) as (Hp3 & _ & Hl3 & Hpl3).
  eexists. split.
  - rewrite (assemble_imm op _ (imm_name op)
               (reg_name rs +:+ ", " +:+ Py.str imm +:+ ", " +:+ reg_name rd)).
    + rewrite operands_3 by (apply str_plain || done).
      rewrite Hp1. cbn [mbind result_bind].
      rewrite parse_immediate_str by (lia || numeral_fits).
      assert ((imm <? - 2 ^ (15 - 1)) = false) as -> by lia.
      assert ((imm <? 0) = false) as -> by lia.
      assert ((2 ^ 15 - 1 <? imm) = false) as -> by lia.
      cbn [mbind result_bind]. rewrite Hp3. reflexivity.
    + apply split_line; by destruct op.
    + by destruct op.
  - unfold Py.len. rewrite !length_app, Hl1, Hl3.
    rewrite (format_bin_length imm (Z.to_nat 15)) by (done || lia). by destruct op.
Qed.

(** * Further properties *)

(** ** Bit strings and the numbers they denote *)

Lemma is_bit_cases c : is_bit c = true → c = "0"%char ∨ c = "1"%char.
Proof.
  destruct c as [[|] [|] [|] [|] [|] [|] [|] [|]]; intros H;
    first [left; reflexivity | right; reflexivity | vm_compute in H; discriminate H].
Qed.

Lemma digits_value_acc base s : ∀ a,
  digits_value base a s
    = a * base ^ Z.of_nat (String.length s) + digits_value base 0 s.
Proof.
  induction s as [|c s IH]; intros a; cbn [digits_value String.length].
  - rewrite Z.pow_0_r. lia.
  - rewrite IH, (IH (0 * base + _)), Nat2Z.inj_succ, Z.pow_succ_r by lia. ring.
Qed.

Lemma bits_value_bound s :
  is_bits s = true → 0 ≤ digits_value 2 0 s < 2 ^ Z.of_nat (String.length s).
Proof.
  induction s as [|c s IH]; cbn [is_bits all_chars digits_value String.length].
  - intros _. rewrite Z.pow_0_r. lia.
  - intros [Hc Hs]%andb_true_iff. specialize (IH Hs).
    rewrite digits_value_acc, Nat2Z.inj_succ, Z.pow_succ_r by lia.
    destruct (is_bit_cases c Hc) as [-> | ->];
      [change (Py.digit_value "0") with 0 | change (Py.digit_value "1") with 1]; lia.
Qed.

(** Two bit strings of one length that denote one number are equal. *)
Lemma bits_inj s : ∀ t,
  is_bits s = true → is_bits t = true → String.length s = String.length t →
  digits_value 2 0 s = digits_value 2 0 t → s = t.
Proof.
  induction s as [|c s IH]; intros [|d t]; cbn [String.length]; try done.
  cbn [is_bits all_chars digits_value].
  intros [Hc Hs]%andb_true_iff [Hd Ht]%andb_true_iff [= Hlen] Hv.
  rewrite (digits_value_acc 2 s), (digits_value_acc 2 t), Hlen in Hv.
  pose proof (bits_value_bound s Hs) as Bs. pose proof (bits_value_bound t Ht) as Bt.
  rewrite Hlen in Bs.
  change (Py.digit_value "0") with 0 in *. change (Py.digit_value "1") with 1 in *.
  destruct (is_bit_cases c Hc) as [-> | ->], (is_bit_cases d Hd) as [-> | ->];
    change (Py.digit_value "0") with 0 in Hv; change (Py.digit_value "1") with 1 in Hv;
    try lia; f_equal; apply IH; try done; lia.
Qed.

(** Formatting the value of a bit string on its own width gives it back. *)
Lemma format_digits s :
  is_bits s = true → s ≠ "" →
  Py.format_bin (digits_value 2 0 s) (String.length s) = s.
Proof.
  intros Hs Hne. pose proof (bits_value_bound s Hs) as B.
  assert (0 < String.length s)%nat as Hpos by (destruct s; [done | cbn; lia]).
  apply bits_inj.
  - apply format_bin_bits. lia.
  - done.
  - by apply format_bin_length.
  - apply format_bin_value. lia.
Qed.

(** The signed reading of a bit string. *)
Lemma signed_decode s :
  is_bits s = true → s ≠ "" →
  ∃ v, SMD.bin_to_signed_int s = Ok v ∧ fits_signed (Py.len s) v ∧
    v mod 2 ^ Py.len s = digits_value 2 0 s ∧
    (Py.len s ≤ widest_field → SMA.parse_immediate (Py.str v) (Py.len s) = Ok s).
Proof.
  intros Hs Hne. pose proof (bits_value_bound s Hs) as B.
  assert (0 < Py.len s) as Hpos by (unfold Py.len; destruct s; [done | cbn; lia]).
  fold (Py.len s) in B. set (w := Py.len s) in *. set (u := digits_value 2 0 s) in *.
  assert (2 ^ w = 2 * 2 ^ (w - 1)) as Hpow.
  { replace w with (Z.succ (w - 1)) at 1 by lia. apply Z.pow_succ_r. lia. }
  set (v := if u <? 2 ^ (w - 1) then u else u - 2 ^ w).
  assert (fits_signed w v) as Hfit.
  { unfold fits_signed, v. destruct (Z.ltb_spec u (2 ^ (w - 1))); lia. }
  assert (v mod 2 ^ w = u) as Hmod.
  { unfold v. destruct (Z.ltb_spec u (2 ^ (w - 1))).
    - apply Z.mod_small. lia.
    - symmetry. apply Z.mod_unique with (-1); lia. }
  destruct (signed_field_read w v Hpos Hfit) as (Hdec & _).
  assert (Py.format_bin u (Z.to_nat w) = s) as Hfmt.
  { unfold w, Py.len. rewrite Nat2Z.id. by apply format_digits. }
  rewrite Hmod, Hfmt in Hdec. exists v. split; [exact Hdec |]. split; [exact Hfit |].
  split; [exact Hmod |]. intros Hw.
  pose proof (signed_field_written w v Hpos Hw Hfit) as Henc.
  by rewrite Hmod, Hfmt in Henc.
Qed.

(** The unsigned reading of a bit string. *)
Lemma unsigned_decode s :
  is_bits s = true → s ≠ "" →
  ∃ v, SMD.bin_to_int s = Ok v ∧ 0 ≤ v < 2 ^ Py.len s ∧
    v = digits_value 2 0 s ∧ Py.format_bin v (String.length s) = s.
Proof.
  intros Hs Hne. exists (digits_value 2 0 s).
  split; [by apply bin_to_int_bits |]. split; [by apply bits_value_bound |].
  split; [done | by apply format_digits].
Qed.

(** X1: every non-empty string over 0 and 1 is read by [bin_to_signed_int] as a
    number of the two's complement range of its length, congruent to its
    unsigned value; when the string has at most 14284 characters (the
    fields of the instruction set have at most 26), [parse_immediate]
    writes that number, on that many bits, as the same string: decoding
    a signed field and encoding it again loses nothing.  (Of a longer
    string the number can have more decimal digits than [int()]
    converts.) *)
Theorem signed_field_decode_encode :
  ∀ s : string, is_bits s = true → s ≠ "" →
    ∃ v, SMD.bin_to_signed_int s = Ok v ∧
      fits_signed (Py.len s) v ∧
      v mod 2 ^ Py.len s = digits_value 2 0 s ∧
      (Py.len s ≤ widest_field → SMA.parse_immediate (Py.str v) (Py.len s) = Ok s).
Proof. exact signed_decode. Qed.

Lemma signed_field_decode_encode_witness :
  ∃ v, SMD.bin_to_signed_int "1111111111110100" = Ok v ∧
    fits_signed (Py.len "1111111111110100") v ∧
    v mod 2 ^ Py.len "1111111111110100" = digits_value 2 0 "1111111111110100" ∧
    (Py.len "1111111111110100" ≤ widest_field →
     SMA.parse_immediate (Py.str v) (Py.len "1111111111110100") = Ok "1111111111110100").
Proof. apply (signed_field_decode_encode "1111111111110100"); [reflexivity | discriminate]. Defined.

(** X2: every non-empty string over 0 and 1 is read by [bin_to_int] as its
    unsigned value, below 2 to the power of its length, and formatting
    that value on the same width gives the string back. *)
Theorem unsigned_field_decode_encode :
  ∀ s : string, is_bits s = true → s ≠ "" →
    ∃ v, SMD.bin_to_int s = Ok v ∧ 0 ≤ v < 2 ^ Py.len s ∧
      v = digits_value 2 0 s ∧ Py.format_bin v (String.length s) = s.
Proof. exact unsigned_decode. Qed.

Lemma unsigned_field_decode_encode_witness :
  ∃ v, SMD.bin_to_int "000110" = Ok v ∧ 0 ≤ v < 2 ^ Py.len "000110" ∧
    v = digits_value 2 0 "000110" ∧ Py.format_bin v (String.length "000110") = "000110".
Proof. apply (unsigned_field_decode_encode "000110"); [reflexivity | discriminate]. Defined.

(** ** Register codes *)

Lemma register_items_elem k code :
  SMA.registers !! k = Some code ↔
  ∃ r, is_register r ∧ k = reg_name r ∧ code = Py.format_bin r 5.
Proof.
  unfold SMA.registers.
  rewrite <- (elem_of_list_to_map (M := gmap string)) by apply register_items_keys.
  unfold SMA.register_items. rewrite list_elem_of_fmap. unfold is_register, reg_name.
  split.
  - intros (r & [= -> ->] & Hr%elem_of_seqZ). exists r. split; [lia | done].
  - intros (r & Hr & -> & ->). exists r. split; [done | apply elem_of_seqZ; lia].
Qed.

Lemma name_items_elem code k :
  SMD.registers_to_names !! code = Some k ↔ SMA.registers !! k = Some code.
Proof.
  unfold SMD.registers_to_names, SMA.registers. rewrite name_items_swap.
  symmetry. apply table_inverse; [apply register_items_keys | apply register_items_codes].
Qed.

(** A register code is a string of five bits, and conversely. *)
Lemma register_code_bits code :
  (∃ r, is_register r ∧ code = Py.format_bin r 5) ↔
  is_bits code = true ∧ String.length code = 5%nat.
Proof.
  split.
  - intros (r & Hr & ->). split.
    + apply format_bin_bits. unfold is_register in Hr. lia.
    + by apply register_facts.
  - intros [Hb Hl]. exists (digits_value 2 0 code).
    pose proof (bits_value_bound code Hb) as B. rewrite Hl in B.
    split; [unfold is_register; change (2 ^ Z.of_nat 5) with 32 in B; lia |].
    assert (code ≠ "") as Hne by (intros ->; discriminate Hl).
    pose proof (format_digits code Hb Hne) as F. by rewrite Hl in F.
Qed.

Lemma register_decode s :
  is_bits s = true → String.length s = 5%nat →
  ∃ r, is_register r ∧ r = digits_value 2 0 s ∧ Py.format_bin r 5 = s ∧
    SMD.get_register_name s = reg_name r ∧
    SMA.parse_register (reg_name r) = Ok s.
Proof.
  intros Hb Hl. pose proof (bits_value_bound s Hb) as B. rewrite Hl in B.
  assert (is_register (digits_value 2 0 s)) as Hr
    by (unfold is_register; change (2 ^ Z.of_nat 5) with 32 in B; lia).
  assert (Py.format_bin (digits_value 2 0 s) 5 = s) as Hf.
  { assert (s ≠ "") as Hne by (intros ->; discriminate Hl).
    pose proof (format_digits s Hb Hne) as F. by rewrite Hl in F. }
  destruct (register_facts _ Hr) as (Hp & Hg & _).
  rewrite Hf in Hp, Hg. exists (digits_value 2 0 s).
  exact (conj Hr (conj eq_refl (conj Hf (conj Hg Hp)))).
Qed.

(** X3: [get_register_name] maps every string of five bits to the name of the
    register it numbers, and [parse_register] maps that name back to the
    same five bits; every other string is rendered as INVALID with the
    string in parentheses. *)
Theorem register_code_decode_encode :
  ∀ s : string,
    (is_bits s = true ∧ String.length s = 5%nat →
     ∃ r, is_register r ∧ r = digits_value 2 0 s ∧
       SMD.get_register_name s = reg_name r ∧
       SMA.parse_register (reg_name r) = Ok s) ∧
    (¬ (is_bits s = true ∧ String.length s = 5%nat) →
     SMD.get_register_name s = "INVALID(" +:+ s +:+ ")").
Proof.
  intros s. split.
  - intros [Hb Hl]. destruct (register_decode s Hb Hl) as (r & H1 & H2 & _ & H3 & H4).
    exists r. exact (conj H1 (conj H2 (conj H3 H4))).
  - intros Hn. unfold SMD.get_register_name.
    destruct (SMD.registers_to_names !! s) as [k|] eqn:E; [| done].
    exfalso. apply Hn, register_code_bits.
    apply name_items_elem, register_items_elem in E as (r & Hr & _ & ->).
    exists r. exact (conj Hr eq_refl).
Qed.

Lemma register_code_decode_encode_witness :
  (is_bits "10110" = true ∧ String.length "10110" = 5%nat →
   ∃ r, is_register r ∧ r = digits_value 2 0 "10110" ∧
     SMD.get_register_name "10110" = reg_name r ∧
     SMA.parse_register (reg_name r) = Ok "10110") ∧
  (¬ (is_bits "1011" = true ∧ String.length "1011" = 5%nat) →
   SMD.get_register_name "1011" = "INVALID(" +:+ "1011" +:+ ")").
Proof.
  split.
  - apply (register_code_decode_encode "10110").
  - apply (register_code_decode_encode "1011").
Defined.

(** X4: [parse_register] succeeds exactly on the texts that, commas removed,
    are %r followed by the decimal numeral of a number from 0 to 31 as
    [str] writes it, and returns that number on five bits; every other
    text raises the invalid-register error naming the text without its
    commas. *)
Theorem parse_register_exact :
  ∀ reg_str : string,
    (∀ code, SMA.parse_register reg_str = Ok code ↔
       ∃ r, is_register r ∧ Py.remove_char "," reg_str = reg_name r ∧
         code = Py.format_bin r 5) ∧
    ((¬ ∃ r, is_register r ∧ Py.remove_char "," reg_str = reg_name r) →
     SMA.parse_register reg_str
       = Raise (ValueError (InvalidRegisterName (Py.remove_char "," reg_str)))).
Proof.
  intros reg_str. unfold SMA.parse_register.
  destruct (SMA.registers !! Py.remove_char "," reg_str) as [c|] eqn:E.
  - pose proof E as (r & Hr & Hk & ->)%register_items_elem. split.
    + intros code. split.
      * intros [= <-]. exists r. exact (conj Hr (conj Hk eq_refl)).
      * intros (r' & Hr' & Hk' & ->).
        assert (SMA.registers !! Py.remove_char "," reg_str = Some (Py.format_bin r' 5)) as E'.
        { apply register_items_elem. exists r'. exact (conj Hr' (conj Hk' eq_refl)). }
        rewrite E in E'. by injection E' as ->.
    + intros Hn. exfalso. apply Hn. exists r. exact (conj Hr Hk).
  - split; [| done]. intros code. split; [done |].
    intros (r & Hr & Hk & ->).
    assert (SMA.registers !! Py.remove_char "," reg_str = Some (Py.format_bin r 5)) as E'.
    { apply register_items_elem. exists r. exact (conj Hr (conj Hk eq_refl)). }
    rewrite E in E'. discriminate E'.
Qed.

(** ** The accepted range of an immediate *)

Lemma parse_immediate_value imm_str v bits :
  Py.int 10 (Py.remove_char "," imm_str) = Some v → 0 < bits →
  SMA.parse_immediate imm_str bits =
    if v <? - 2 ^ (bits - 1)
    then Raise (ValueError (InvalidImmediate (Py.remove_char "," imm_str) (TooSmall v bits)))
    else if 2 ^ bits - 1 <? v
    then Raise (ValueError (InvalidImmediate (Py.remove_char "," imm_str) (TooLarge v bits)))
    else Ok (Py.format_bin (v mod 2 ^ bits) (Z.to_nat bits)).
Proof.
  intros Hint Hb. unfold SMA.parse_immediate. rewrite Hint.
  assert ((0 <? bits) = true) as -> by lia.
  assert ((bits <? 0) = false) as -> by lia.
  assert (0 < 2 ^ (bits - 1)) by (apply Z.pow_pos_nonneg; lia).
  assert (0 < 2 ^ bits) by (apply Z.pow_pos_nonneg; lia).
  destruct (v <? 0) eqn:Hneg.
  - destruct (v <? - 2 ^ (bits - 1)); [done |].
    assert ((2 ^ bits - 1 <? v) = false) as -> by lia.
    rewrite Z.shiftl_1_l.
    replace (2 ^ bits - 1) with (Z.ones bits) by (rewrite Z.ones_equiv; lia).
    by rewrite Z.land_ones by lia.
  - assert ((v <? - 2 ^ (bits - 1)) = false) as -> by lia.
    destruct (Z.ltb_spec (2 ^ bits - 1) v); [done |].
    by rewrite Z.mod_small by lia.
Qed.

Lemma imm_field_accepted (bits : nat) v :
  (0 < bits)%nat → Z.of_nat bits ≤ widest_field → fits_field (Z.of_nat bits) v →
  SMA.parse_immediate (Py.str v) (Z.of_nat bits) = Ok (imm_field bits v) ∧
  String.length (imm_field bits v) = bits ∧
  is_bits (imm_field bits v) = true ∧
  digits_value 2 0 (imm_field bits v) = v mod 2 ^ Z.of_nat bits.
Proof.
  intros Hb Hw [Hlo Hhi]. unfold imm_field.
  assert (0 < 2 ^ Z.of_nat bits) by (apply Z.pow_pos_nonneg; lia).
  assert (2 ^ (Z.of_nat bits - 1) ≤ 2 ^ Z.of_nat bits) by (apply Z.pow_le_mono_r; lia).
  pose proof (Z.mod_pos_bound v (2 ^ Z.of_nat bits) ltac:(lia)) as Hm.
  assert (Py.int 10 (Py.remove_char "," (Py.str v)) = Some v) as Hint.
  { rewrite remove_comma_str. apply int_str.
    apply (field_value_converts (Z.of_nat bits)); lia. }
  split_and!.
  - rewrite (parse_immediate_value _ v _ Hint) by lia.
    assert ((v <? - 2 ^ (Z.of_nat bits - 1)) = false) as -> by lia.
    assert ((2 ^ Z.of_nat bits - 1 <? v) = false) as -> by lia.
    by rewrite Nat2Z.id.
  - by apply format_bin_length.
  - apply format_bin_bits. lia.
  - apply format_bin_value. lia.
Qed.

(** X5: for a text that [int] reads as [v] and a width [w > 0],
    [parse_immediate] accepts exactly the values from [-2^(w-1)] to
    [2^w - 1]: it returns [w] characters over 0 and 1 that denote
    [v mod 2^w]; a smaller value is rejected as too small and a larger
    one as too large. *)
Theorem immediate_accepted_range :
  ∀ (imm_str : string) (v w : Z),
    Py.int 10 (Py.remove_char "," imm_str) = Some v → 0 < w →
    (fits_field w v →
     ∃ field, SMA.parse_immediate imm_str w = Ok field ∧
       Py.len field = w ∧ is_bits field = true ∧
       digits_value 2 0 field = v mod 2 ^ w) ∧
    (v < - 2 ^ (w - 1) →
     SMA.parse_immediate imm_str w
       = Raise (ValueError (InvalidImmediate (Py.remove_char "," imm_str) (TooSmall v w)))) ∧
    (2 ^ w - 1 < v →
     SMA.parse_immediate imm_str w
       = Raise (ValueError (InvalidImmediate (Py.remove_char "," imm_str) (TooLarge v w)))).
Proof.
  intros imm_str v w Hint Hw. rewrite (parse_immediate_value imm_str v w Hint Hw).
  assert (0 < 2 ^ (w - 1)) by (apply Z.pow_pos_nonneg; lia).
  assert (0 < 2 ^ w) as Hp by (apply Z.pow_pos_nonneg; lia).
  split_and!.
  - intros [Hlo Hhi].
    assert ((v <? - 2 ^ (w - 1)) = false) as -> by lia.
    assert ((2 ^ w - 1 <? v) = false) as -> by lia.
    pose proof (Z.mod_pos_bound v (2 ^ w) Hp) as Hm.
    eexists. split; [reflexivity |]. split_and!.
    + unfold Py.len. rewrite format_bin_length by (rewrite ?Z2Nat.id; lia). lia.
    + apply format_bin_bits. lia.
    + apply format_bin_value. lia.
  - intros Hlo. by assert ((v <? - 2 ^ (w - 1)) = true) as -> by lia.
  - intros Hhi.
    assert ((v <? - 2 ^ (w - 1)) = false) as -> by lia.
    by assert ((2 ^ w - 1 <? v) = true) as -> by lia.
Qed.

Lemma immediate_accepted_range_witness :
  (fits_field 15 (-16384) →
   ∃ field, SMA.parse_immediate " -16_384 " 15 = Ok field ∧
     Py.len field = 15 ∧ is_bits field = true ∧
     digits_value 2 0 field = (-16384) mod 2 ^ 15) ∧
  (-16384 < - 2 ^ (15 - 1) →
   SMA.parse_immediate " -16_384 " 15
     = Raise (ValueError (InvalidImmediate (Py.remove_char "," " -16_384 ")
                            (TooSmall (-16384) 15)))) ∧
  (2 ^ 15 - 1 < -16384 →
   SMA.parse_immediate " -16_384 " 15
     = Raise (ValueError (InvalidImmediate (Py.remove_char "," " -16_384 ")
                            (TooLarge (-16384) 15)))).
Proof. apply (immediate_accepted_range " -16_384 " (-16384) 15); [reflexivity | lia]. Defined.

(** X6: for a field of at most 14284 bits (the fields of the instruction
    set have 15, 16 and 21), a value [v] of the upper half of the
    unsigned range of the field and the negative value [v - 2^w] are
    encoded as the same field, which the signed reader decodes as
    [v - 2^w] and the unsigned reader as [v]. *)
Theorem immediate_field_shared :
  ∀ v w : Z, 0 < w ≤ widest_field → 2 ^ (w - 1) ≤ v < 2 ^ w →
    ∃ field,
      SMA.parse_immediate (Py.str v) w = Ok field ∧
      SMA.parse_immediate (Py.str (v - 2 ^ w)) w = Ok field ∧
      SMD.bin_to_signed_int field = Ok (v - 2 ^ w) ∧
      SMD.bin_to_int field = Ok v.
Proof.
  intros v w [Hw Hwide] Hv.
  assert (2 ^ w = 2 * 2 ^ (w - 1)) as Hpow.
  { replace w with (Z.succ (w - 1)) at 1 by lia. apply Z.pow_succ_r. lia. }
  assert (fits_signed w (v - 2 ^ w)) as Hfit by (unfold fits_signed; lia).
  destruct (signed_field w (v - 2 ^ w) Hw Hwide Hfit) as (Henc & Hdec & _).
  assert ((v - 2 ^ w) mod 2 ^ w = v) as Hmod
    by (symmetry; apply Z.mod_unique with (-1); lia).
  rewrite Hmod in Henc, Hdec.
  assert (Py.int 10 (Py.remove_char "," (Py.str v)) = Some v) as Hint.
  { rewrite remove_comma_str. apply int_str. apply (field_value_converts w); lia. }
  exists (Py.format_bin v (Z.to_nat w)). split_and!; [| done | done |].
  - rewrite (parse_immediate_value _ v _ Hint) by done.
    assert ((v <? - 2 ^ (w - 1)) = false) as -> by lia.
    assert ((2 ^ w - 1 <? v) = false) as -> by lia.
    by rewrite Z.mod_small by lia.
  - apply bin_to_int_format. lia.
Qed.

Lemma immediate_field_shared_witness :
  ∃ field,
    SMA.parse_immediate (Py.str 65535) 16 = Ok field ∧
    SMA.parse_immediate (Py.str (65535 - 2 ^ 16)) 16 = Ok field ∧
    SMD.bin_to_signed_int field = Ok (65535 - 2 ^ 16) ∧
    SMD.bin_to_int field = Ok 65535.
Proof. apply (immediate_field_shared 65535 16); unfold widest_field; lia. Defined.

(** ** The layout of the words *)

Lemma imm_opcode op : default "" (SMA.opcodes !! imm_name op) = imm_code op.
Proof. by destruct op. Qed.

Lemma lookup_bound (lt : gmap string Z) label :
  is_Some (lt !! label) →
  ∃ address, lt !! label = Some address ∧ SMA.lookup_label lt label = Ok address ∧
    default 0 (lt !! label) = address.
Proof. intros [address H]. exists address. unfold SMA.lookup_label. by rewrite H. Qed.

Ltac bind_with H := rewrite H; cbn [mbind result_bind].

Ltac bind_imm bits v H :=
  let Hi := fresh in
  pose proof (proj1 (imm_field_accepted bits v ltac:(lia) ltac:(by compute) H)) as Hi;
  let z := eval cbv in (Z.of_nat bits) in
  change (Z.of_nat bits) with z in Hi; bind_with Hi; clear Hi.

Lemma assemble_encode lt ca text i :
  encodable lt i → reads_as text i →
  SMA.assemble_line text lt ca = Ok (Some (encode lt i)).
Proof.
  intros Hv (m & ps & Hs & Hm & Hops).
  destruct i; cbn [encodable mnemonic operand_texts encode] in Hv, Hm, Hops |- *;
    try destruct Hops as (rest & -> & Hops);
    unfold reg_field, target_field.
  - destruct Hv as (Hrs & Hrt & Hrd).
    rewrite (assemble_reg3 op text m rest lt ca Hs Hm), Hops.
    bind_with (proj1 (register_facts rs Hrs)). bind_with (proj1 (register_facts rt Hrt)).
    bind_with (proj1 (register_facts rd Hrd)). reflexivity.
  - destruct Hv as (Hrs & Himm & Hrd).
    rewrite (assemble_imm op text m rest lt ca Hs Hm), Hops.
    bind_with (proj1 (register_facts rs Hrs)).
    bind_imm 15%nat imm Himm.
    bind_with (proj1 (register_facts rd Hrd)). by rewrite imm_opcode.
  - destruct Hv as (Hoff & Hrs & Hrt).
    rewrite (assemble_ldwd text m rest lt ca Hs Hm), Hops.
    rewrite parse_memory_operand by (assumption || numeral_fits). cbn [mbind result_bind].
    bind_with (proj1 (register_facts rt Hrt)). bind_with (proj1 (register_facts rs Hrs)).
    bind_imm 16%nat offset Hoff. reflexivity.
  - destruct Hv as (Hoff & Hrs & Hrt).
    rewrite (assemble_srwd text m rest lt ca Hs Hm), Hops.
    bind_with (proj1 (register_facts rt Hrt)).
    rewrite parse_memory_operand by (assumption || numeral_fits). cbn [mbind result_bind].
    bind_with (proj1 (register_facts rs Hrs)).
    bind_imm 16%nat offset Hoff. reflexivity.
  - destruct (lookup_bound lt target Hv) as (addr & Hl & Hlk & ->).
    rewrite (assemble_jmp text m rest lt ca Hs Hm), Hops.
    bind_with Hlk. reflexivity.
  - rewrite (assemble_pint text m rest lt ca Hs Hm), Hops.
    bind_with (proj1 (register_facts rs Hv)). reflexivity.
  - destruct Hv as (Hoff & Hrs).
    rewrite (assemble_pstr text m rest lt ca Hs Hm), Hops.
    rewrite parse_memory_operand by (assumption || numeral_fits). cbn [mbind result_bind].
    bind_with (proj1 (register_facts rs Hrs)).
    bind_imm 21%nat offset Hoff. reflexivity.
  - destruct Hv as (Hrs & Ht).
    destruct (lookup_bound lt target Ht) as (addr & Hl & Hlk & ->).
    rewrite (assemble_for text m rest lt ca Hs Hm), Hops.
    bind_with (proj1 (register_facts rs Hrs)). bind_with Hlk. reflexivity.
  - destruct Hv as (Hrs & Hrd).
    rewrite (assemble_reg2 op text m rest lt ca Hs Hm), Hops.
    bind_with (proj1 (register_facts rs Hrs)). bind_with (proj1 (register_facts rd Hrd)).
    reflexivity.
  - destruct Hv as (Hrs & Hrt & Ht).
    destruct (lookup_bound lt target Ht) as (addr & Hl & Hlk & ->).
    rewrite (assemble_branch_op op text m rest lt ca Hs Hm), Hops.
    bind_with (proj1 (register_facts rs Hrs)). bind_with (proj1 (register_facts rt Hrt)).
    bind_with Hlk. reflexivity.
  - destruct Hv as (Ht & Hrd).
    destruct (lookup_bound lt target Ht) as (addr & Hl & Hlk & Hd).
    rewrite (assemble_ldad text m rest lt ca Hs Hm), Hops.
    bind_with (proj1 (register_facts rd Hrd)). by rewrite Hl.
  - destruct Hv as (Himm & Hrd).
    rewrite (assemble_ldim text m rest lt ca Hs Hm), Hops.
    bind_imm 21%nat imm Himm.
    bind_with (proj1 (register_facts rd Hrd)). reflexivity.
  - by eapply assemble_clr.
  - by eapply assemble_end.
Qed.

(** X7: whatever line the assembler reads as an instruction with registers
    %r0 to %r31, numbers in the accepted range of their field and label
    operands bound by the table is assembled to the opcode followed by
    the fields in the order of [encode]: registers on five bits, numbers
    modulo the width of their field, label addresses as the table gives
    them. *)
Theorem word_layout :
  ∀ (label_table : gmap string Z) (current_address : Z) (text : string) (i : instr),
    encodable label_table i → reads_as text i →
    SMA.assemble_line text label_table current_address = Ok (Some (encode label_table i)).
Proof. intros lt ca text i. apply assemble_encode. Qed.

Lemma word_layout_witness :
  SMA.assemble_line "SRWD %r7 , -4(%r30)" ∅ 0
    = Ok (Some (encode ∅ (StoreWord 7 (-4) 30))).
Proof.
  apply (word_layout ∅ 0 "SRWD %r7 , -4(%r30)" (StoreWord 7 (-4) 30)).
  - cbn [encodable]. unfold fits_field, is_register. lia.
  - exists "SRWD", ["%r7 , -4(%r30)"]. split; [reflexivity |]. split; [reflexivity |].
    exists "%r7 , -4(%r30)". split; reflexivity.
Defined.

(** ** From words back to text *)

Lemma valid_encodable lt i : round_trip_valid lt i → encodable lt i.
Proof.
  assert (∀ v, fits_signed 16 v → fits_field 16 v) as H16
    by (unfold fits_signed, fits_field; lia).
  assert (∀ v, fits_signed 21 v → fits_field 21 v) as H21
    by (unfold fits_signed, fits_field; lia).
  assert (∀ bits x, is_target lt bits x → is_Some (lt !! x)) as Ht
    by (intros bits x (_ & address & Hl & _); by exists address).
  destruct i; cbn [round_trip_valid encodable]; try done; intros Hv;
    repeat match goal with H : _ ∧ _ |- _ => destruct H end; eauto 6.
Qed.

(** The word of a valid instruction is decoded as that instruction. *)
Lemma encode_decodes lt i a :
  round_trip_valid lt i →
  SMD.disassemble_instruction (encode lt i) a = Ok (decoded_text lt i).
Proof.
  intros Hv. pose proof (canonical_text_read lt i Hv) as Hr.
  destruct (round_trip_word lt 0 a (source_text i) i Hv Hr) as (word & Ha & _ & Hd).
  rewrite (assemble_encode lt 0 _ i (valid_encodable lt i Hv) Hr) in Ha.
  by injection Ha as <-.
Qed.

Lemma reassemble lt ca a i :
  round_trip_valid lt i → decoded_text lt i = source_text i →
  SMD.disassemble_instruction (encode lt i) a = Ok (source_text i) ∧
  SMA.assemble_line (source_text i) lt ca = Ok (Some (encode lt i)).
Proof.
  intros Hv Ht. split.
  - rewrite <- Ht. by apply encode_decodes.
  - apply assemble_encode; [by apply valid_encodable | by apply (canonical_text_read lt)].
Qed.

Lemma cut_at n : ∀ s, (n ≤ String.length s)%nat →
  ∃ a b, s = a +:+ b ∧ String.length a = n ∧ String.length b = (String.length s - n)%nat.
Proof.
  induction n as [|n IH]; intros s H.
  - exists "", s. split; [done |]. split; [done |]. lia.
  - destruct s as [|c s]; cbn [String.length] in H; [lia |].
    destruct (IH s ltac:(lia)) as (x & y & -> & Hx & Hy).
    exists (String c x), y. split; [done |]. cbn [String.length]. split; [lia | done].
Qed.

Lemma bits_app a b :
  is_bits (a +:+ b) = true → is_bits a = true ∧ is_bits b = true.
Proof. unfold is_bits. rewrite all_chars_app. apply andb_true_iff. Qed.

Lemma signed_field_of s (n : nat) :
  is_bits s = true → String.length s = n → (0 < n)%nat →
  ∃ v, fits_signed (Z.of_nat n) v ∧ imm_field n v = s.
Proof.
  intros Hb Hl Hn. assert (s ≠ "") as Hne by (intros ->; cbn in Hl; lia).
  destruct (signed_decode s Hb Hne) as (v & _ & Hfit & Hmod & _).
  unfold Py.len in Hfit, Hmod. rewrite Hl in Hfit, Hmod.
  exists v. split; [done |]. unfold imm_field. rewrite Hmod, <- Hl.
  by apply format_digits.
Qed.

Lemma unsigned_field_of s (n : nat) :
  is_bits s = true → String.length s = n → (0 < n)%nat →
  ∃ v, 0 ≤ v < 2 ^ Z.of_nat n ∧ imm_field n v = s ∧ SMD.bin_to_int s = Ok v.
Proof.
  intros Hb Hl Hn. assert (s ≠ "") as Hne by (intros ->; cbn in Hl; lia).
  destruct (unsigned_decode s Hb Hne) as (v & Hd & Hr & _ & Hf).
  unfold Py.len in Hr. rewrite Hl in Hr, Hf.
  exists v. split; [done |]. split; [| done].
  unfold imm_field. by rewrite Z.mod_small by done.
Qed.

Lemma reg_field_of s :
  is_bits s = true → String.length s = 5%nat →
  ∃ r, is_register r ∧ reg_field r = s ∧ SMD.get_register_name s = reg_name r.
Proof.
  intros Hb Hl. destruct (register_decode s Hb Hl) as (r & Hr & _ & Hf & Hg & _).
  exists r. exact (conj Hr (conj Hf Hg)).
Qed.

(** The fields of a word of 32 bits after its opcode. *)
Lemma word_parts word :
  is_bits word = true → String.length word = 32%nat →
  ∃ code rest, word = code +:+ rest ∧ Py.slice 0 6 word = code ∧
    String.length code = 6%nat ∧ String.length rest = 26%nat ∧ is_bits rest = true.
Proof.
  intros Hb Hl. destruct (cut_at 6 word ltac:(lia)) as (code & rest & -> & Hc & Hr).
  apply bits_app in Hb as [_ Hb]. exists code, rest.
  split; [done |]. split; [by apply substring_take |]. split; [done |].
  split; [lia | done].
Qed.

Lemma parts_5_5_16 rest :
  is_bits rest = true → String.length rest = 26%nat →
  ∃ f1 f2 f3, rest = f1 +:+ f2 +:+ f3 ∧
    String.length f1 = 5%nat ∧ String.length f2 = 5%nat ∧ String.length f3 = 16%nat ∧
    is_bits f1 = true ∧ is_bits f2 = true ∧ is_bits f3 = true.
Proof.
  intros Hb Hl. destruct (cut_at 5 rest ltac:(lia)) as (f1 & r1 & -> & H1 & Hr1).
  destruct (cut_at 5 r1 ltac:(lia)) as (f2 & f3 & -> & H2 & H3).
  apply bits_app in Hb as [B1 Hb]. apply bits_app in Hb as [B2 B3].
  exists f1, f2, f3. split_and!; try done. lia.
Qed.

Lemma parts_21_5 rest :
  is_bits rest = true → String.length rest = 26%nat →
  ∃ f1 f2, rest = f1 +:+ f2 ∧
    String.length f1 = 21%nat ∧ String.length f2 = 5%nat ∧
    is_bits f1 = true ∧ is_bits f2 = true.
Proof.
  intros Hb Hl. destruct (cut_at 21 rest ltac:(lia)) as (f1 & f2 & -> & H1 & H2).
  apply bits_app in Hb as [B1 B2].
  exists f1, f2. split_and!; try done. lia.
Qed.

(** X8: every word of 32 bits with the opcode of ldwd, srwd, pstr or ldim is
    disassembled to a text that the assembler, under any label table,
    assembles to the same word. *)
Theorem decoded_text_reassembles :
  ∀ (word : string) (address : Z) (label_table : gmap string Z) (current_address : Z),
    is_bits word = true → String.length word = 32%nat →
    Py.slice 0 6 word ∈ ["000110"; "000111"; "001010"; "010101"] →
    ∃ text,
      SMD.disassemble_instruction word address = Ok text ∧
      SMA.assemble_line text label_table current_address = Ok (Some word).
Proof.
  intros word a lt ca Hb Hl Hop.
  destruct (word_parts word Hb Hl) as (code & rest & -> & Hc & _ & Hr & Hbr).
  rewrite Hc in Hop. clear Hc Hb Hl.
  rewrite !elem_of_cons in Hop.
  destruct Hop as [-> | [-> | [-> | [-> | Hop]]]]; [| | | | by apply elem_of_nil in Hop].
  - destruct (parts_5_5_16 rest Hbr Hr) as (f1 & f2 & f3 & -> & H1 & H2 & H3 & B1 & B2 & B3).
    destruct (reg_field_of f1 B1 H1) as (rs & Hrs & <- & _).
    destruct (reg_field_of f2 B2 H2) as (rt & Hrt & <- & _).
    destruct (signed_field_of f3 16 B3 H3 ltac:(lia)) as (off & Hoff & <-).
    exists (source_text (LoadWord off rs rt)).
    by apply (reassemble lt ca a (LoadWord off rs rt)).
  - destruct (parts_5_5_16 rest Hbr Hr) as (f1 & f2 & f3 & -> & H1 & H2 & H3 & B1 & B2 & B3).
    destruct (reg_field_of f1 B1 H1) as (rs & Hrs & <- & _).
    destruct (reg_field_of f2 B2 H2) as (rt & Hrt & <- & _).
    destruct (signed_field_of f3 16 B3 H3 ltac:(lia)) as (off & Hoff & <-).
    exists (source_text (StoreWord rt off rs)).
    by apply (reassemble lt ca a (StoreWord rt off rs)).
  - destruct (parts_21_5 rest Hbr Hr) as (f1 & f2 & -> & H1 & H2 & B1 & B2).
    destruct (signed_field_of f1 21 B1 H1 ltac:(lia)) as (off & Hoff & <-).
    destruct (reg_field_of f2 B2 H2) as (rs & Hrs & <- & _).
    exists (source_text (PrintStr off rs)).
    by apply (reassemble lt ca a (PrintStr off rs)).
  - destruct (parts_21_5 rest Hbr Hr) as (f1 & f2 & -> & H1 & H2 & B1 & B2).
    destruct (signed_field_of f1 21 B1 H1 ltac:(lia)) as (imm & Himm & <-).
    destruct (reg_field_of f2 B2 H2) as (rd & Hrd & <- & _).
    exists (source_text (LoadImm imm rd)).
    by apply (reassemble lt ca a (LoadImm imm rd)).
Qed.

Lemma decoded_text_reassembles_witness :
  ∃ text,
    SMD.disassemble_instruction "00011100010001111111111111111100" 3 = Ok text ∧
    SMA.assemble_line text ∅ 0 = Ok (Some "00011100010001111111111111111100").
Proof.
  apply (decoded_text_reassembles "00011100010001111111111111111100" 3 ∅ 0);
    [reflexivity | reflexivity |].
  apply list_elem_of_further, list_elem_of_here.
Defined.

Lemma disassemble_imm op rest a :
  String.length rest = 26%nat →
  SMD.disassemble_instruction (imm_code op +:+ rest) a =
    imm_val ← SMD.bin_to_int (substring 5 15 rest);
    Ok (imm_name op +:+ " " +:+ SMD.get_register_name (substring 0 5 rest) +:+ ", "
        +:+ Py.str imm_val +:+ ", " +:+ SMD.get_register_name (substring 20 5 rest)).
Proof. intros H. destruct op; disassemble_branch H. Qed.

Lemma canonical_imm_read op rs imm rd :
  is_register rs → is_register rd →
  reads_as (source_text (ImmArith op rs imm rd)) (ImmArith op rs imm rd).
Proof.
  intros Hrs Hrd. unfold reads_as, source_text. cbn [render mnemonic operand_texts].
  destruct (register_facts rs Hrs) as (_ & _ & _ & ?).
  destruct (register_facts rd Hrd) as (_ & _ & _ & ?).
  exists (imm_name op), [reg_name rs +:+ ", " +:+ Py.str imm +:+ ", " +:+ reg_name rd].
  split_and!; [apply split_line; by destruct op | by destruct op |].
  eexists. split; [done |]. apply operands_3; [done | apply str_plain | done].
Qed.

(** X9: every word of 32 bits with the opcode of cmbi, mnsi, mlti or dvdi is
    disassembled to a text that the assembler assembles to the first 31
    characters of the word: the disassembler never looks at the last
    bit and the assembler never writes it. *)
Theorem decoded_immediate_arithmetic_loses_a_bit :
  ∀ (word : string) (address : Z) (label_table : gmap string Z) (current_address : Z)
    (op : imm_op),
    is_bits word = true → String.length word = 32%nat →
    Py.slice 0 6 word = imm_code op →
    ∃ text,
      SMD.disassemble_instruction word address = Ok text ∧
      SMA.assemble_line text label_table current_address = Ok (Some (Py.slice 0 31 word)) ∧
      Py.len (Py.slice 0 31 word) = 31.
Proof.
  intros word a lt ca op Hb Hl Hop.
  destruct (word_parts word Hb Hl) as (code & rest & -> & Hc & _ & Hr & Hbr).
  rewrite Hc in Hop. subst code. clear Hc Hb Hl.
  destruct (cut_at 5 rest ltac:(lia)) as (f1 & r1 & -> & H1 & Hr1).
  destruct (cut_at 15 r1 ltac:(lia)) as (f2 & r2 & -> & H2 & Hr2).
  destruct (cut_at 5 r2 ltac:(lia)) as (f3 & x & -> & H3 & Hx).
  apply bits_app in Hbr as [B1 Hbr]. apply bits_app in Hbr as [B2 Hbr].
  apply bits_app in Hbr as [B3 _].
  destruct (reg_field_of f1 B1 H1) as (rs & Hrs & Hf1 & Hg1).
  destruct (unsigned_field_of f2 15 B2 H2 ltac:(lia)) as (imm & Himm & Hf2 & Hd2).
  destruct (reg_field_of f3 B3 H3) as (rd & Hrd & Hf3 & Hg3).
  exists (source_text (ImmArith op rs imm rd)).
  assert (Py.slice 0 31 (imm_code op +:+ f1 +:+ f2 +:+ f3 +:+ x)
            = encode lt (ImmArith op rs imm rd)) as Hw.
  { cbn [encode]. rewrite Hf1, Hf2, Hf3.
    replace (imm_code op +:+ f1 +:+ f2 +:+ f3 +:+ x)
      with ((imm_code op +:+ f1 +:+ f2 +:+ f3) +:+ x) by (by rewrite !app_assoc_s).
    apply substring_take. rewrite !length_app, H1, H2, H3. by destruct op. }
  split_and!.
  - rewrite disassemble_imm by done.
    rewrite (substring_skip 5 0 5 15 _ _ H1 eq_refl), (substring_take 15) by done.
    rewrite Hd2. cbn [mbind result_bind].
    rewrite (substring_take 5) by done.
    rewrite (substring_skip 5 15 20 5 _ _ H1 eq_refl).
    rewrite (substring_skip 15 0 15 5 _ _ H2 eq_refl), (substring_take 5) by done.
    by rewrite Hg1, Hg3.
  - rewrite Hw. apply assemble_encode; [| by apply canonical_imm_read].
    cbn [encodable]. split; [exact Hrs |]. split; [| exact Hrd]. unfold fits_field.
    change (Z.of_nat 15) with 15 in Himm. lia.
  - rewrite Hw. unfold Py.len. cbn [encode].
    rewrite Hf1, Hf2, Hf3, !length_app, H1, H2, H3. by destruct op.
Qed.

Lemma decoded_immediate_arithmetic_loses_a_bit_witness :
  ∃ text,
    SMD.disassemble_instruction "00010100011000000001100100001011" 0 = Ok text ∧
    SMA.assemble_line text ∅ 0
      = Ok (Some (Py.slice 0 31 "00010100011000000001100100001011")) ∧
    Py.len (Py.slice 0 31 "00010100011000000001100100001011") = 31.
Proof.
  apply (decoded_immediate_arithmetic_loses_a_bit
           "00010100011000000001100100001011" 0 ∅ 0 Cmbi); reflexivity.
Defined.

(** X10: every word of 32 bits with the opcode of a three-register
    instruction, of sqrt or sqr, or of pint is disassembled without
    looking at the bits after its last register field, to a text that
    the assembler assembles to the same word with those bits zero. *)
Theorem decoded_register_word_padding_cleared :
  ∀ (word : string) (address : Z) (label_table : gmap string Z) (current_address : Z)
    (used : nat),
    is_bits word = true → String.length word = 32%nat →
    (∃ op, Py.slice 0 6 word = reg3_code op) ∧ used = 21%nat ∨
    (∃ op, Py.slice 0 6 word = reg2_code op) ∧ used = 16%nat ∨
    Py.slice 0 6 word = "001001" ∧ used = 11%nat →
    ∃ text,
      SMD.disassemble_instruction word address = Ok text ∧
      SMA.assemble_line text label_table current_address
        = Ok (Some (Py.slice 0 used word +:+ Py.repeat_char "0" (32 - used))).
Proof.
  intros word a lt ca used Hb Hl Hop.
  destruct (word_parts word Hb Hl) as (code & rest & -> & Hc & _ & Hr & Hbr).
  rewrite Hc in Hop. clear Hc Hb Hl.
  destruct Hop as [[[op ->] ->] | [[[op ->] ->] | [-> ->]]].
  - destruct (parts_5_5_16 rest Hbr Hr) as (f1 & f2 & r3 & -> & H1 & H2 & Hr3 & B1 & B2 & B3).
    destruct (cut_at 5 r3 ltac:(lia)) as (f3 & pad & -> & H3 & Hp).
    apply bits_app in B3 as [B3 _].
    destruct (reg_field_of f1 B1 H1) as (rs & Hrs & Hf1 & Hg1).
    destruct (reg_field_of f2 B2 H2) as (rt & Hrt & Hf2 & Hg2).
    destruct (reg_field_of f3 B3 H3) as (rd & Hrd & Hf3 & Hg3).
    exists (source_text (Reg3 op rs rt rd)). split.
    + rewrite disassemble_reg3 by (rewrite !length_app; lia).
      rewrite (substring_take 5) by done.
      rewrite (substring_skip 5 0 5 5 _ _ H1 eq_refl), (substring_take 5) by done.
      rewrite (substring_skip 5 5 10 5 _ _ H1 eq_refl).
      rewrite (substring_skip 5 0 5 5 _ _ H2 eq_refl), (substring_take 5) by done.
      by rewrite Hg1, Hg2, Hg3.
    + assert (Py.slice 0 21 (reg3_code op +:+ f1 +:+ f2 +:+ f3 +:+ pad)
                = reg3_code op +:+ f1 +:+ f2 +:+ f3) as ->.
      { replace (reg3_code op +:+ f1 +:+ f2 +:+ f3 +:+ pad)
          with ((reg3_code op +:+ f1 +:+ f2 +:+ f3) +:+ pad) by (by rewrite !app_assoc_s).
        apply substring_take. rewrite !length_app, H1, H2, H3. by destruct op. }
      pose proof (assemble_encode lt ca _ (Reg3 op rs rt rd) (conj Hrs (conj Hrt Hrd))
                    (canonical_text_read lt (Reg3 op rs rt rd) (conj Hrs (conj Hrt Hrd))))
        as Ha.
      cbn [encode] in Ha. rewrite Hf1, Hf2, Hf3 in Ha. rewrite Ha.
      change (32 - 21)%nat with 11%nat. by rewrite !app_assoc_s.
  - destruct (parts_5_5_16 rest Hbr Hr) as (f1 & f2 & pad & -> & H1 & H2 & Hp & B1 & B2 & _).
    destruct (reg_field_of f1 B1 H1) as (rs & Hrs & Hf1 & Hg1).
    destruct (reg_field_of f2 B2 H2) as (rd & Hrd & Hf2 & Hg2).
    exists (source_text (Reg2 op rs rd)). split.
    + rewrite disassemble_reg2 by (rewrite !length_app; lia).
      rewrite (substring_take 5) by done.
      rewrite (substring_skip 5 0 5 5 _ _ H1 eq_refl), (substring_take 5) by done.
      by rewrite Hg1, Hg2.
    + assert (Py.slice 0 16 (reg2_code op +:+ f1 +:+ f2 +:+ pad)
                = reg2_code op +:+ f1 +:+ f2) as ->.
      { replace (reg2_code op +:+ f1 +:+ f2 +:+ pad)
          with ((reg2_code op +:+ f1 +:+ f2) +:+ pad) by (by rewrite !app_assoc_s).
        apply substring_take. rewrite !length_app, H1, H2. by destruct op. }
      pose proof (assemble_encode lt ca _ (Reg2 op rs rd) (conj Hrs Hrd)
                    (canonical_text_read lt (Reg2 op rs rd) (conj Hrs Hrd))) as Ha.
      cbn [encode] in Ha. rewrite Hf1, Hf2 in Ha. rewrite Ha.
      change (32 - 16)%nat with 16%nat. by rewrite !app_assoc_s.
  - destruct (cut_at 5 rest ltac:(lia)) as (f1 & pad & -> & H1 & Hp).
    apply bits_app in Hbr as [B1 _].
    destruct (reg_field_of f1 B1 H1) as (rs & Hrs & Hf1 & Hg1).
    exists (source_text (PrintInt rs)). split.
    + rewrite disassemble_pint by (rewrite !length_app; lia).
      rewrite (substring_take 5) by done. by rewrite Hg1.
    + assert (Py.slice 0 11 ("001001" +:+ f1 +:+ pad) = "001001" +:+ f1) as ->.
      { replace ("001001" +:+ f1 +:+ pad)
          with (("001001" +:+ f1) +:+ pad) by (by rewrite !app_assoc_s).
        apply substring_take. by rewrite !length_app, H1. }
      pose proof (assemble_encode lt ca _ (PrintInt rs) Hrs
                    (canonical_text_read lt (PrintInt rs) Hrs)) as Ha.
      cbn [encode] in Ha. rewrite Hf1 in Ha. rewrite Ha.
      change (32 - 11)%nat with 21%nat. by rewrite !app_assoc_s.
Qed.

Lemma decoded_register_word_padding_cleared_witness :
  ∃ text,
    SMD.disassemble_instruction "00100100011000000000000000000101" 0 = Ok text ∧
    SMA.assemble_line text ∅ 0
      = Ok (Some (Py.slice 0 11 "00100100011000000000000000000101"
                  +:+ Py.repeat_char "0" (32 - 11))).
Proof.
  apply (decoded_register_word_padding_cleared
           "00100100011000000000000000000101" 0 ∅ 0 11); [reflexivity | reflexivity |].
  right. right. split; reflexivity.
Defined.

(** ** Pass 1: what is recorded *)

Lemma pass1_from_app pre : ∀ post st n,
  SMA.pass1_from st n (pre ++ post)
    = st' ← SMA.pass1_from st n pre; SMA.pass1_from st' (n + Z.of_nat (length pre)) post.
Proof.
  induction pre as [|ln pre IH]; intros post st n.
  - cbn. by rewrite Z.add_0_r.
  - cbn [app SMA.pass1_from length].
    destruct (SMA.pass1_line st n ln) as [st1|e]; [| done].
    cbn [mbind result_bind]. rewrite IH.
    by replace (n + Z.of_nat (S (length pre))) with (n + 1 + Z.of_nat (length pre)) by lia.
Qed.

Lemma pass1_from_cleaned lines : ∀ st n st',
  SMA.pass1_from st n lines = Ok st' →
  SMA.cleaned_lines st'
    = SMA.cleaned_lines st ++ instructions_from n (SMA.current_address st) lines.
Proof.
  induction lines as [|ln rest IH]; intros st n st'.
  - cbn. intros [= <-]. by rewrite app_nil_r.
  - cbn [SMA.pass1_from instructions_from]. rewrite pass1_line_spec.
    unfold is_instruction at 2.
    destruct (label_of ln) as [z|] eqn:Hz.
    + rewrite andb_false_r.
      destruct (SMA.label_table st !! z); [done |]. cbn [mbind result_bind].
      intros H. by rewrite (IH _ _ _ H).
    + fold (is_instruction ln). rewrite bool_decide_eq_true_2 by done.
      rewrite andb_true_r. fold (is_instruction ln).
      destruct (negb (clean ln =? "")%string) eqn:Hi.
      * assert (is_instruction ln = true) as ->
          by (unfold is_instruction; rewrite Hi, Hz; by rewrite bool_decide_eq_true_2).
        cbn [mbind result_bind]. intros H. rewrite (IH _ _ _ H). cbn.
        by rewrite <- app_assoc.
      * assert (is_instruction ln = false) as ->
          by (unfold is_instruction; by rewrite Hi).
        cbn [mbind result_bind]. intros H. by rewrite (IH _ _ _ H).
Qed.

Lemma instructions_from_length lines : ∀ n a,
  Z.of_nat (length (instructions_from n a lines)) = count_instr lines.
Proof.
  induction lines as [|ln rest IH]; intros n a; [done |].
  cbn [instructions_from]. rewrite count_instr_cons.
  destruct (is_instruction ln); cbn [length]; rewrite ?Nat2Z.inj_succ, IH; lia.
Qed.

Lemma instructions_from_lookup lines : ∀ n a (i : nat) item,
  instructions_from n a lines !! i = Some item →
  SMA.addr item = a + Z.of_nat i ∧
  ∃ (k : nat) ln, lines !! k = Some ln ∧ is_instruction ln = true ∧
    SMA.line item = clean ln ∧ SMA.orig_line item = n + Z.of_nat k ∧
    count_instr (take k lines) = Z.of_nat i.
Proof.
  induction lines as [|ln rest IH]; intros n a i item; [done |].
  cbn [instructions_from]. destruct (is_instruction ln) eqn:Hi.
  - destruct i as [|i]; cbn.
    + intros [= <-]. cbn. split; [lia |]. exists 0%nat, ln.
      split_and!; try done. lia.
    + intros H. destruct (IH _ _ _ _ H) as (Ha & k & l & Hk & Hl & Hc & Ho & Hn).
      split; [lia |]. exists (S k), l. split_and!; try done; [lia |].
      cbn [take]. rewrite count_instr_cons, Hi. lia.
  - intros H. destruct (IH _ _ _ _ H) as (Ha & k & l & Hk & Hl & Hc & Ho & Hn).
    split; [done |]. exists (S k), l. split_and!; try done; [lia |].
    cbn [take]. by rewrite count_instr_cons, Hi.
Qed.

(** A run of Pass 1 that succeeds met distinct labels, none of them
    bound before, and binds exactly these. *)
Lemma pass1_from_labels lines : ∀ st n st',
  SMA.pass1_from st n lines = Ok st' →
  NoDup (labels_of lines) ∧
  (∀ x, x ∈ labels_of lines → SMA.label_table st !! x = None) ∧
  (∀ x, is_Some (SMA.label_table st' !! x) ↔
        is_Some (SMA.label_table st !! x) ∨ x ∈ labels_of lines).
Proof.
  induction lines as [|ln rest IH]; intros st n st'.
  - cbn. intros [= <-]. split; [constructor |]. split.
    + intros x Hx. by apply elem_of_nil in Hx.
    + intros x. split; [by left |]. intros [H | H]; [done | by apply elem_of_nil in H].
  - cbn [SMA.pass1_from]. rewrite pass1_line_spec, labels_of_cons.
    destruct (label_of ln) as [z|] eqn:Hz.
    + destruct (SMA.label_table st !! z) eqn:Hlz; [done |]. cbn [mbind result_bind].
      intros H. destruct (IH _ _ _ H) as (Hnd & Hfresh & Hkeys). cbn in Hfresh, Hkeys.
      assert (z ∉ labels_of rest) as Hnotin.
      { intros Hin. specialize (Hfresh z Hin). by rewrite lookup_insert_eq in Hfresh. }
      split; [by constructor |]. split.
      * intros x [-> | Hx]%elem_of_cons; [done |].
        specialize (Hfresh x Hx). rewrite lookup_insert_ne in Hfresh; [done |].
        by intros ->.
      * intros x. rewrite Hkeys, elem_of_cons.
        destruct (decide (x = z)) as [-> | Hne].
        -- rewrite lookup_insert_eq. split; [intros _; right; by left |].
           intros _. left. by eexists.
        -- rewrite lookup_insert_ne by done. tauto.
    + destruct (is_instruction ln); cbn [mbind result_bind];
        intros H; by destruct (IH _ _ _ H) as (Hnd & Hfresh & Hkeys).
Qed.

Lemma label_of_lookup lines x :
  x ∈ labels_of lines → ∃ (k : nat) ln, lines !! k = Some ln ∧ label_of ln = Some x.
Proof.
  intros (ln & Hin & Hx)%list_elem_of_omap.
  apply list_elem_of_lookup_1 in Hin as [k Hk]. by exists k, ln.
Qed.

(** What Pass 1 leaves when it succeeds. *)
Lemma pass1_result lines st :
  SMA.pass1 lines = Ok st →
  NoDup (labels_of lines) ∧
  SMA.cleaned_lines st = instructions_from 1 0 lines ∧
  SMA.current_address st = count_instr lines ∧
  (∀ x, is_Some (SMA.label_table st !! x) ↔ x ∈ labels_of lines) ∧
  (∀ x address, SMA.label_table st !! x = Some address →
     ∃ (k : nat) ln, lines !! k = Some ln ∧ label_of ln = Some x ∧
       address = count_instr (take k lines)).
Proof.
  intros H. unfold SMA.pass1 in H.
  destruct (pass1_from_labels _ _ _ _ H) as (Hnd & Hfresh & Hkeys).
  pose proof (pass1_from_cleaned _ _ _ _ H) as Hcl. cbn in Hcl, Hkeys.
  destruct (pass1_from_ok lines _ 1 Hnd Hfresh) as (st2 & H2 & Haddr & Hdef & _).
  rewrite H in H2. injection H2 as <-. cbn in Haddr, Hdef.
  assert (∀ x, is_Some (SMA.label_table st !! x) ↔ x ∈ labels_of lines) as Hk.
  { intros x. rewrite Hkeys. rewrite lookup_empty. split; [| by right].
    intros [[? ?] | ?]; done. }
  split_and!; try done.
  intros x address Hx.
  destruct (label_of_lookup lines x) as (k & ln & Hl & Hlab); [apply Hk; by eexists |].
  exists k, ln. split_and!; try done.
  rewrite (Hdef k ln x Hl Hlab) in Hx. injection Hx as <-. lia.
Qed.

(** X11: Pass 1 succeeds exactly when no two label-definition lines of the
    program define the same identifier. *)
Theorem pass1_succeeds_iff_labels_distinct :
  ∀ lines : list string,
    (∃ st, SMA.pass1 lines = Ok st) ↔ NoDup (labels_of lines).
Proof.
  intros lines. split.
  - intros [st H]. by apply pass1_result in H as (? & _).
  - intros Hnd.
    destruct (pass1_from_ok lines initial_state 1 Hnd) as (st & H & _); [done |].
    by exists st.
Qed.

(** X12: when Pass 1 succeeds it has recorded as many lines as the program
    has instructions, in program order: the entry at position [i] has
    address [i], the cleaned text of an instruction line of the source,
    the 1-based number of that line, and exactly [i] instructions stand
    before that line. *)
Theorem instruction_addresses_consecutive :
  ∀ (lines : list string) (st : SMA.pass1_state),
    SMA.pass1 lines = Ok st →
    Z.of_nat (length (SMA.cleaned_lines st)) = count_instr lines ∧
    SMA.current_address st = count_instr lines ∧
    ∀ (i : nat) item, SMA.cleaned_lines st !! i = Some item →
      SMA.addr item = Z.of_nat i ∧
      ∃ (k : nat) ln, lines !! k = Some ln ∧ is_instruction ln = true ∧
        SMA.line item = clean ln ∧ SMA.orig_line item = Z.of_nat k + 1 ∧
        count_instr (take k lines) = Z.of_nat i.
Proof.
  intros lines st H. destruct (pass1_result lines st H) as (_ & Hcl & Ha & _).
  rewrite Hcl. split; [apply instructions_from_length |]. split; [done |].
  intros i item Hi.
  destruct (instructions_from_lookup _ _ _ _ _ Hi) as (Haddr & k & ln & ? & ? & ? & ? & ?).
  split; [lia |]. exists k, ln. split_and!; try done. lia.
Qed.

Lemma instruction_addresses_consecutive_witness :
  Z.of_nat (length (SMA.cleaned_lines
     {| SMA.label_table := {[ "a" := 1 ]};
        SMA.cleaned_lines := [ {| SMA.line := "clr"; SMA.addr := 0; SMA.orig_line := 2 |};
                               {| SMA.line := "end"; SMA.addr := 1; SMA.orig_line := 4 |} ];
        SMA.current_address := 2 |}))
    = count_instr ["# c"; " clr"; "a:"; "end"] ∧
  SMA.current_address
     {| SMA.label_table := {[ "a" := 1 ]};
        SMA.cleaned_lines := [ {| SMA.line := "clr"; SMA.addr := 0; SMA.orig_line := 2 |};
                               {| SMA.line := "end"; SMA.addr := 1; SMA.orig_line := 4 |} ];
        SMA.current_address := 2 |}
    = count_instr ["# c"; " clr"; "a:"; "end"] ∧
  ∀ (i : nat) item,
    SMA.cleaned_lines
     {| SMA.label_table := {[ "a" := 1 ]};
        SMA.cleaned_lines := [ {| SMA.line := "clr"; SMA.addr := 0; SMA.orig_line := 2 |};
                               {| SMA.line := "end"; SMA.addr := 1; SMA.orig_line := 4 |} ];
        SMA.current_address := 2 |} !! i = Some item →
    SMA.addr item = Z.of_nat i ∧
    ∃ (k : nat) ln, ["# c"; " clr"; "a:"; "end"] !! k = Some ln ∧ is_instruction ln = true ∧
      SMA.line item = clean ln ∧ SMA.orig_line item = Z.of_nat k + 1 ∧
      count_instr (take k ["# c"; " clr"; "a:"; "end"]) = Z.of_nat i.
Proof.
  apply (instruction_addresses_consecutive ["# c"; " clr"; "a:"; "end"]). reflexivity.
Defined.

(** The first line that defines a label again is the one reported. *)
Lemma pass1_first_duplicate pre ln post x :
  NoDup (labels_of pre) → label_of ln = Some x → x ∈ labels_of pre →
  SMA.pass1 (pre ++ ln :: post)
    = Raise (ValueError (DuplicateLabel x (Z.of_nat (length pre) + 1))).
Proof.
  intros Hnd Hx Hin. unfold SMA.pass1. rewrite pass1_from_app.
  destruct (pass1_from_ok pre initial_state 1 Hnd) as (st & H & _ & Hdef & _); [done |].
  fold initial_state. rewrite H. cbn [mbind result_bind SMA.pass1_from].
  rewrite pass1_line_spec, Hx.
  destruct (label_of_lookup pre x Hin) as (k & l & Hl & Hlab).
  rewrite (Hdef k l x Hl Hlab). cbn [mbind result_bind]. do 3 f_equal. lia.
Qed.

(** X13: when the labels of the first lines of a program are distinct and the
    next line defines one of them again, the run ends with the
    duplicate-label error naming that label and the 1-based number of
    that line, whatever follows. *)
Theorem duplicate_label_reported :
  ∀ (pre post : list string) (ln x : string),
    NoDup (labels_of pre) → label_of ln = Some x → x ∈ labels_of pre →
    SMA.run_assembler (Some (pre ++ ln :: post))
      = Exit1 (ValueError (DuplicateLabel x (Z.of_nat (length pre) + 1))).
Proof.
  intros pre post ln x Hnd Hx Hin. unfold SMA.run_assembler.
  by rewrite (pass1_first_duplicate pre ln post x Hnd Hx Hin).
Qed.

Lemma duplicate_label_reported_witness :
  SMA.run_assembler (Some (["a:"; "pint %r1"; "b:"] ++ "a:  # again" :: ["b:"; "end"]))
    = Exit1 (ValueError (DuplicateLabel "a" (Z.of_nat (length ["a:"; "pint %r1"; "b:"]) + 1))).
Proof.
  apply (duplicate_label_reported ["a:"; "pint %r1"; "b:"] ["b:"; "end"] "a:  # again" "a").
  - apply (bool_decide_unpack _). reflexivity.
  - reflexivity.
  - apply list_elem_of_here.
Defined.

(** ** Which exceptions [assemble_line] raises *)

Lemma veo_value {A} v : value_errors_only (Raise (A := A) (ValueError v)).
Proof. intros e [= <-]. by eexists. Qed.

Lemma veo_ok {A} (a : A) : value_errors_only (Ok a).
Proof. by intros e. Qed.

Lemma veo_bind {A B} (m : result A) (f : A → result B) :
  value_errors_only m → (∀ a, value_errors_only (f a)) → value_errors_only (m ≫= f).
Proof. intros Hm Hf. destruct m as [a|e]; [apply Hf |]. intros e' [= <-]. by apply Hm. Qed.

Lemma parse_register_errors s : value_errors_only (SMA.parse_register s).
Proof.
  unfold SMA.parse_register. destruct (SMA.registers !! _); [apply veo_ok | apply veo_value].
Qed.

Lemma parse_immediate_errors s bits : value_errors_only (SMA.parse_immediate s bits).
Proof.
  unfold SMA.parse_immediate.
  repeat lazymatch goal with
  | |- value_errors_only (Raise (ValueError _)) => apply veo_value
  | |- value_errors_only (Ok _) => apply veo_ok
  | |- value_errors_only (if ?b then _ else _) => destruct b
  | |- value_errors_only (match ?x with _ => _ end) => destruct x
  end.
Qed.

Lemma parse_memory_address_errors s : value_errors_only (SMA.parse_memory_address s).
Proof.
  unfold SMA.parse_memory_address.
  repeat lazymatch goal with
  | |- value_errors_only (Raise (ValueError _)) => apply veo_value
  | |- value_errors_only (Ok _) => apply veo_ok
  | |- value_errors_only (if ?b then _ else _) => destruct b
  | |- value_errors_only (match ?x with _ => _ end) => destruct x
  end.
Qed.

Lemma lookup_label_errors lt s : value_errors_only (SMA.lookup_label lt s).
Proof. unfold SMA.lookup_label. destruct (lt !! s); [apply veo_ok | apply veo_value]. Qed.

(** Every mnemonic of the table has its branch in [assemble_line]. *)
Lemma opcode_dispatch op c :
  SMA.opcodes !! op = Some c →
  (op =? "clr")%string || (op =? "end")%string
  || Py.in_list op ["cmb"; "mns"; "mlt"; "dvd"; "mdlo"]
  || Py.in_list op ["cmbi"; "mnsi"; "mlti"; "dvdi"]
  || (op =? "ldwd")%string || (op =? "srwd")%string || (op =? "jmp")%string
  || (op =? "pint")%string || (op =? "pstr")%string || (op =? "for")%string
  || (op =? "sqrt")%string || (op =? "sqr")%string
  || Py.in_list op ["ife"; "ifne"]
  || (op =? "ldad")%string || (op =? "ldim")%string = true.
Proof.
  intros H. apply elem_of_list_to_map in H; [| apply opcode_items_keys].
  unfold SMA.opcode_items in H.
  repeat (apply elem_of_cons in H as [[= -> ->] | H]; [reflexivity |]).
  by apply elem_of_nil in H.
Qed.

Ltac veo_step :=
  lazymatch goal with
  | |- value_errors_only (Raise (ValueError _)) => apply veo_value
  | |- value_errors_only (Ok _) => apply veo_ok
  | |- value_errors_only (mbind _ (SMA.parse_register _)) =>
      apply veo_bind; [apply parse_register_errors | intros ?]
  | |- value_errors_only (mbind _ (SMA.parse_immediate _ _)) =>
      apply veo_bind; [apply parse_immediate_errors | intros ?]
  | |- value_errors_only (mbind _ (SMA.parse_memory_address _)) =>
      apply veo_bind; [apply parse_memory_address_errors | intros ?]
  | |- value_errors_only (mbind _ (SMA.lookup_label _ _)) =>
      apply veo_bind; [apply lookup_label_errors | intros ?]
  | |- value_errors_only (if ?b then _ else _) => destruct b eqn:?
  | |- value_errors_only (match ?x with _ => _ end) => destruct x
  end.

Lemma assemble_line_errors ln lt a :
  Py.split_ws_1 ln ≠ [] → value_errors_only (SMA.assemble_line ln lt a).
Proof.
  intros Hs. unfold SMA.assemble_line.
  destruct (Py.split_ws_1 ln) as [|p0 ps]; [done |]. clear Hs.
  generalize (Py.lower p0). intros op.
  destruct (op =? "")%string; [apply veo_ok |].
  destruct (op =? "clr")%string eqn:Hclr; [apply veo_ok |].
  destruct (op =? "end")%string eqn:Hend; [apply veo_ok |].
  destruct (SMA.opcodes !! op) as [opcode_bin|] eqn:Hc; [| apply veo_value].
  apply opcode_dispatch in Hc. rewrite Hclr, Hend in Hc. cbn [orb] in Hc.
  generalize (Py.strip <$> Py.split_char "," match ps with [] => "" | p1 :: _ => p1 end).
  intros operands.
  repeat veo_step.
  repeat match goal with H : _ = false |- _ => rewrite H in Hc; clear H end.
  discriminate Hc.
Qed.

(** ** The words that [assemble_line] returns are over 0 and 1 *)

Lemma bits_app_intro a b : is_bits a = true → is_bits b = true → is_bits (a +:+ b) = true.
Proof. unfold is_bits. intros Ha Hb. by rewrite all_chars_app, Ha, Hb. Qed.

Lemma parse_register_bits s c :
  SMA.parse_register s = Ok c → is_bits c = true ∧ String.length c = 5%nat.
Proof.
  unfold SMA.parse_register.
  destruct (SMA.registers !! _) as [c'|] eqn:E; [| done]. intros [= <-].
  apply register_items_elem in E as (r & Hr & _ & ->).
  apply register_code_bits. exists r. exact (conj Hr eq_refl).
Qed.

Lemma parse_immediate_bits s bits f :
  SMA.parse_immediate s bits = Ok f → is_bits f = true.
Proof.
  unfold SMA.parse_immediate. cbv zeta. destruct (Py.int 10 _) as [v|]; [| done].
  destruct (v <? 0) eqn:Hneg.
  - destruct (v <? (if 0 <? bits then _ else _)); [done |].
    destruct (bits <? 0) eqn:Hb; [done |].
    intros [= <-]. apply format_bin_bits. apply Z.land_nonneg. right.
    rewrite Z.shiftl_1_l.
    assert (0 < 2 ^ bits) by (apply Z.pow_pos_nonneg; lia). lia.
  - destruct ((if 0 <? bits then _ else _) <? v); [done |]. destruct (bits <? 0); [done |].
    intros [= <-]. apply format_bin_bits. lia.
Qed.

Lemma opcode_bits m c : SMA.opcodes !! m = Some c → is_bits c = true.
Proof.
  intros H. apply elem_of_list_to_map in H; [| apply opcode_items_keys].
  assert (Forall (λ p, is_bits p.2 = true) SMA.opcode_items) as HF
    by (apply (bool_decide_unpack _); by vm_compute).
  rewrite Forall_forall in HF. apply (HF _ H).
Qed.

Lemma bits_word_raise e : bits_word (Raise e).
Proof. by intros code. Qed.

Lemma bits_word_none : bits_word (Ok None).
Proof. by intros code. Qed.

Lemma bits_word_some code : is_bits code = true → bits_word (Ok (Some code)).
Proof. by intros H c [= <-]. Qed.

Lemma bits_word_register s f :
  (∀ c, is_bits c = true → bits_word (f c)) → bits_word (SMA.parse_register s ≫= f).
Proof.
  intros Hf. destruct (SMA.parse_register s) as [c|e] eqn:E; [| apply bits_word_raise].
  apply Hf. by apply parse_register_bits in E as [? _].
Qed.

Lemma bits_word_immediate s bits f :
  (∀ c, is_bits c = true → bits_word (f c)) → bits_word (SMA.parse_immediate s bits ≫= f).
Proof.
  intros Hf. destruct (SMA.parse_immediate s bits) as [c|e] eqn:E; [| apply bits_word_raise].
  apply Hf. by apply parse_immediate_bits in E.
Qed.

Lemma bits_word_bind {A} (m : result A) f :
  (∀ a, bits_word (f a)) → bits_word (m ≫= f).
Proof. intros Hf. destruct m as [a|e]; [apply Hf | apply bits_word_raise]. Qed.

Lemma bits_word_label lt s f :
  addresses_nonneg lt →
  (∀ address, 0 ≤ address → bits_word (f address)) → bits_word (SMA.lookup_label lt s ≫= f).
Proof.
  intros Hlt Hf. unfold SMA.lookup_label.
  destruct (lt !! s) as [address|] eqn:E; [| apply bits_word_raise].
  apply Hf. by apply (Hlt s).
Qed.

Ltac bits_solve :=
  repeat (match goal with |- is_bits (_ +:+ _) = true => apply bits_app_intro end);
  first [ assumption
        | apply format_bin_bits; assumption
        | apply repeat_char_all; reflexivity ].

Ltac bits_step Hlt :=
  lazymatch goal with
  | |- bits_word (Raise _) => apply bits_word_raise
  | |- bits_word (Ok None) => apply bits_word_none
  | |- bits_word (Ok (Some _)) => apply bits_word_some; bits_solve
  | |- bits_word (mbind _ (SMA.parse_register _)) =>
      apply bits_word_register; intros ? ?
  | |- bits_word (mbind _ (SMA.parse_immediate _ _)) =>
      apply bits_word_immediate; intros ? ?
  | |- bits_word (mbind _ (SMA.lookup_label _ _)) =>
      apply (bits_word_label _ _ _ Hlt); intros ? ?
  | |- bits_word (mbind _ _) => apply bits_word_bind; intros ?
  | |- bits_word (if ?b then _ else _) => destruct b
  | |- bits_word (match ?lt !! ?x with _ => _ end) =>
      let E := fresh in destruct (lt !! x) eqn:E; [apply Hlt in E |]
  | |- bits_word (match ?x with _ => _ end) => destruct x
  end.

Lemma assemble_line_bits ln lt a :
  addresses_nonneg lt → bits_word (SMA.assemble_line ln lt a).
Proof.
  intros Hlt. unfold SMA.assemble_line.
  destruct (Py.split_ws_1 ln) as [|p0 ps]; [apply bits_word_raise |].
  generalize (Py.lower p0). intros op.
  destruct (op =? "")%string; [apply bits_word_none |].
  destruct (op =? "clr")%string; [by apply bits_word_some |].
  destruct (op =? "end")%string; [by apply bits_word_some |].
  destruct (SMA.opcodes !! op) as [opcode_bin|] eqn:Hc; [| apply bits_word_raise].
  apply opcode_bits in Hc.
  generalize (Py.strip <$> Py.split_char "," match ps with [] => "" | p1 :: _ => p1 end).
  intros operands.
  repeat bits_step Hlt.
Qed.

(** ** The lines that Pass 1 hands to Pass 2 *)

Lemma rstrip_head s c r : Py.rstrip s = String c r → ∃ r', s = String c r'.
Proof.
  destruct s as [|d s]; cbn [Py.rstrip]; [done |].
  destruct (Py.rstrip s); [destruct (Py.is_space d) |]; intros [= <- <-]; by eexists.
Qed.

Lemma strip_head s c r : Py.strip s = String c r → Py.is_space c = false.
Proof.
  unfold Py.strip. intros [r' H]%rstrip_head. by apply lstrip_first in H.
Qed.

Lemma split_ws_1_stripped s : Py.strip s ≠ "" → Py.split_ws_1 (Py.strip s) ≠ [].
Proof.
  intros Hne. unfold Py.split_ws_1.
  destruct (Py.strip s) as [|c r] eqn:E; [done |].
  apply strip_head in E. cbn [Py.lstrip]. rewrite E.
  destruct (span_word_first c r E) as (w & r' & ->).
  by destruct (Py.lstrip r').
Qed.

Lemma instruction_nonblank ln :
  is_instruction ln = true → Py.split_ws_1 (clean ln) ≠ [].
Proof.
  unfold is_instruction. intros [Hne _]%andb_true_iff.
  apply negb_true_iff, String.eqb_neq in Hne. by apply split_ws_1_stripped.
Qed.

Lemma instructions_from_nonblank lines : ∀ n a,
  Forall (λ item, Py.split_ws_1 (SMA.line item) ≠ []) (instructions_from n a lines).
Proof.
  induction lines as [|ln rest IH]; intros n a; cbn [instructions_from]; [constructor |].
  destruct (is_instruction ln) eqn:Hi; [| apply IH].
  constructor; [by apply instruction_nonblank | apply IH].
Qed.

Lemma instructions_from_elem lines : ∀ n a (k : nat) ln,
  lines !! k = Some ln → is_instruction ln = true →
  ∃ item, item ∈ instructions_from n a lines ∧ SMA.line item = clean ln.
Proof.
  induction lines as [|l rest IH]; intros n a k ln Hk Hi; [done |].
  cbn [instructions_from]. destruct k as [|k]; cbn in Hk.
  - injection Hk as ->. rewrite Hi. eexists. split; [apply list_elem_of_here | done].
  - destruct (IH (n + 1) (if is_instruction l then a + 1 else a) k ln Hk Hi)
      as (item & Hin & Hl).
    exists item. split; [| done].
    destruct (is_instruction l); [by apply list_elem_of_further | done].
Qed.

Lemma count_instr_nonneg lines : 0 ≤ count_instr lines.
Proof. unfold count_instr. lia. Qed.

Lemma pass1_addresses_nonneg lines st :
  SMA.pass1 lines = Ok st → addresses_nonneg (SMA.label_table st).
Proof.
  intros H x address Hx.
  destruct (pass1_result lines st H) as (_ & _ & _ & _ & Hv).
  destruct (Hv x address Hx) as (k & ln & _ & _ & ->). apply count_instr_nonneg.
Qed.

(** ** Pass 2 *)

Lemma pass2_errors lt items : ∀ acc,
  Forall (λ item, Py.split_ws_1 (SMA.line item) ≠ []) items →
  value_errors_only (SMA.pass2 lt items acc).
Proof.
  induction items as [|item rest IH]; intros acc HF; cbn [SMA.pass2]; [apply veo_ok |].
  apply Forall_cons in HF as [Hi HF].
  apply veo_bind; [by apply assemble_line_errors |].
  intros [code|]; [| by apply IH].
  destruct (code =? "")%string; [by apply IH |].
  destruct (negb (Py.len code =? 32)); [apply veo_value | by apply IH].
Qed.

Lemma pass2_shape lt items : ∀ acc out,
  addresses_nonneg lt →
  SMA.pass2 lt items acc = Ok out →
  ∃ codes, out = acc ++ codes ∧ length codes = length items ∧ Forall is_word codes.
Proof.
  induction items as [|item rest IH]; intros acc out Hlt H.
  - injection H as <-. exists []. by rewrite app_nil_r.
  - cbn [SMA.pass2] in H.
    destruct (SMA.assemble_line (SMA.line item) lt (SMA.addr item)) as [r|e] eqn:Ha;
      [| done].
    destruct (assemble_line_emits_word _ _ _ _ Ha) as (code & -> & Hne).
    pose proof (assemble_line_bits _ _ _ Hlt _ Ha) as Hb.
    cbn in H. apply String.eqb_neq in Hne. rewrite Hne in H.
    destruct (Py.len code =? 32) eqn:Hl; [| done]. cbn [negb] in H.
    destruct (IH _ _ Hlt H) as (codes & -> & Hlen & HF).
    exists (code :: codes). split; [by rewrite <- app_assoc |].
    split; [cbn; by rewrite Hlen |]. constructor; [| done].
    split; [done |]. unfold Py.len in Hl. lia.
Qed.

(** ** The outcomes of [run_assembler] *)

Lemma pass1_from_errors lines : ∀ st n, value_errors_only (SMA.pass1_from st n lines).
Proof.
  induction lines as [|ln rest IH]; intros st n; cbn [SMA.pass1_from]; [apply veo_ok |].
  apply veo_bind; [| intros st1; apply IH].
  rewrite pass1_line_spec.
  destruct (label_of ln) as [x|].
  - destruct (SMA.label_table st !! x); [apply veo_value | apply veo_ok].
  - destruct (is_instruction ln); apply veo_ok.
Qed.

Lemma run_assembler_cases lines :
  (∃ v, SMA.run_assembler (Some lines) = Exit1 (ValueError v)) ∨
  (∃ st out, SMA.pass1 lines = Ok st ∧
     SMA.pass2 (SMA.label_table st) (SMA.cleaned_lines st) [] = Ok out ∧
     SMA.run_assembler (Some lines) = Written out).
Proof.
  unfold SMA.run_assembler.
  destruct (SMA.pass1 lines) as [st|e] eqn:H1.
  - destruct (SMA.pass2 _ _ _) as [out|e] eqn:H2.
    + right. by exists st, out.
    + left. destruct (pass2_errors (SMA.label_table st) (SMA.cleaned_lines st) []) with e
        as [v ->]; [| done | by exists v].
      destruct (pass1_result lines st H1) as (_ & -> & _).
      apply instructions_from_nonblank.
  - left. destruct (pass1_from_errors lines initial_state 1 e H1) as [v ->]. by exists v.
Qed.

(** X14: on an input file that exists, [run_assembler] either reports a
    ValueError and exits or writes the output file: the IndexError of
    an empty line and the NotImplementedError of [assemble_line] cannot
    occur, since Pass 1 records no blank line and every mnemonic of the
    opcode table has its branch. *)
Theorem run_assembler_never_crashes :
  ∀ lines : list string,
    (∃ v, SMA.run_assembler (Some lines) = Exit1 (ValueError v)) ∨
    (∃ out, SMA.run_assembler (Some lines) = Written out).
Proof.
  intros lines. destruct (run_assembler_cases lines) as [H | (st & out & _ & _ & H)];
    [by left | right; by exists out].
Qed.

Lemma written_shape lines out :
  SMA.run_assembler (Some lines) = Written out →
  Z.of_nat (length out) = count_instr lines ∧ Forall is_word out.
Proof.
  intros H. destruct (run_assembler_cases lines) as [[v Hv] | (st & out' & H1 & H2 & Hw)];
    [congruence |].
  rewrite Hw in H. injection H as ->.
  destruct (pass2_shape _ _ _ _ (pass1_addresses_nonneg lines st H1) H2)
    as (codes & -> & Hlen & HF).
  destruct (pass1_result lines st H1) as (_ & Hcl & _).
  split; [| done]. cbn [app]. rewrite Hlen, Hcl. apply instructions_from_length.
Qed.

(** X15: when [run_assembler] writes its output, the output has one line per
    instruction of the program, each of 32 characters over 0 and 1. *)
Theorem assembled_output_well_formed :
  ∀ (lines out : list string),
    SMA.run_assembler (Some lines) = Written out →
    Z.of_nat (length out) = count_instr lines ∧ Forall is_word out.
Proof. exact written_shape. Qed.

Lemma assembled_output_well_formed_witness :
  Z.of_nat (length [ "00100000000000000000000000000010";
                     "00100100001000000000000000000000";
                     "00100000000000000000000000000010";
                     "11111111111111111111111111111111" ])
    = count_instr ["jmp done"; "pint %r1"; "done:"; "jmp done"; "end"] ∧
  Forall is_word [ "00100000000000000000000000000010";
                   "00100100001000000000000000000000";
                   "00100000000000000000000000000010";
                   "11111111111111111111111111111111" ].
Proof.
  apply (assembled_output_well_formed ["jmp done"; "pint %r1"; "done:"; "jmp done"; "end"]).
  vm_compute. reflexivity.
Defined.

(** X16: a program with distinct labels and no instruction (blank lines,
    comments and label definitions only, or nothing at all) is assembled
    to an empty output file, not to an error. *)
Theorem program_without_instructions :
  ∀ lines : list string,
    NoDup (labels_of lines) → count_instr lines = 0 →
    SMA.run_assembler (Some lines) = Written [].
Proof.
  intros lines Hnd Hc.
  destruct (pass1_from_ok lines initial_state 1 Hnd) as (st & H & _); [done |].
  change (SMA.pass1 lines = Ok st) in H.
  destruct (pass1_result lines st H) as (_ & Hcl & _).
  pose proof (instructions_from_length lines 1 0) as Hl. rewrite <- Hcl, Hc in Hl.
  unfold SMA.run_assembler. rewrite H.
  destruct (SMA.cleaned_lines st); [done | cbn in Hl; lia].
Qed.

Lemma program_without_instructions_witness :
  SMA.run_assembler (Some ["# only a comment"; ""; "start:"; "  stop:  # and labels"])
    = Written [].
Proof.
  apply (program_without_instructions
           ["# only a comment"; ""; "start:"; "  stop:  # and labels"]).
  - apply (bool_decide_unpack _). reflexivity.
  - reflexivity.
Defined.

(** ** Undefined labels *)

Lemma label_operand_unbound text lt ca i target :
  reads_as text i → label_operand i = Some target → lt !! target = None →
  ∀ r, SMA.assemble_line text lt ca ≠ Ok r.
Proof.
  intros (m & ps & Hs & Hm & Hops) Hi Hl r.
  destruct i; try discriminate Hi; injection Hi as ->;
    cbn [mnemonic operand_texts] in Hm, Hops; destruct Hops as (rest & -> & Hops).
  - rewrite (assemble_jmp text m rest lt ca Hs Hm), Hops.
    unfold SMA.lookup_label. rewrite Hl. cbn [mbind result_bind]. discriminate.
  - rewrite (assemble_for text m rest lt ca Hs Hm), Hops.
    destruct (SMA.parse_register _); cbn [mbind result_bind]; [| discriminate].
    unfold SMA.lookup_label. rewrite Hl. cbn [mbind result_bind]. discriminate.
  - rewrite (assemble_branch_op op text m rest lt ca Hs Hm), Hops.
    destruct (SMA.parse_register (reg_name rs)); cbn [mbind result_bind]; [| discriminate].
    destruct (SMA.parse_register (reg_name rt)); cbn [mbind result_bind]; [| discriminate].
    unfold SMA.lookup_label. rewrite Hl. cbn [mbind result_bind]. discriminate.
  - rewrite (assemble_ldad text m rest lt ca Hs Hm), Hops.
    destruct (SMA.parse_register _); cbn [mbind result_bind]; [| discriminate].
    rewrite Hl. discriminate.
Qed.

(** X17: a program with an instruction line that names, as its label operand,
    an identifier that no line defines ends with a ValueError, and
    nothing is written. *)
Theorem undefined_label_rejected :
  ∀ (lines : list string) (k : nat) (ln target : string) (i : instr),
    lines !! k = Some ln → is_instruction ln = true →
    reads_as (clean ln) i → label_operand i = Some target →
    target ∉ labels_of lines →
    ∃ v, SMA.run_assembler (Some lines) = Exit1 (ValueError v).
Proof.
  intros lines k ln target i Hk Hi Hr Ht Hnot.
  destruct (run_assembler_cases lines) as [H | (st & out & H1 & H2 & _)]; [done |].
  exfalso.
  destruct (pass1_result lines st H1) as (_ & Hcl & _ & Hkeys & _).
  destruct (instructions_from_elem lines 1 0 k ln Hk Hi) as (item & Hin & Hline).
  rewrite <- Hcl in Hin.
  destruct (pass2_words _ _ _ _ H2) as (codes & _ & HF).
  apply list_elem_of_lookup_1 in Hin as [j Hj].
  destruct (Forall2_lookup_l _ _ _ _ _ HF Hj) as (code & _ & Ha).
  rewrite Hline in Ha.
  apply (label_operand_unbound (clean ln) (SMA.label_table st) (SMA.addr item) i target
           Hr Ht) in Ha; [done |].
  destruct (SMA.label_table st !! target) eqn:E; [| done].
  exfalso. apply Hnot, Hkeys. by eexists.
Qed.

Lemma undefined_label_rejected_witness :
  ∃ v, SMA.run_assembler (Some ["start:"; "  for %r1, strat  # misspelt"; "end"])
       = Exit1 (ValueError v).
Proof.
  apply (undefined_label_rejected
           ["start:"; "  for %r1, strat  # misspelt"; "end"] 1
           "  for %r1, strat  # misspelt" "strat" (ForLoop 1 "strat")).
  - reflexivity.
  - reflexivity.
  - exists "for", ["%r1, strat"]. split; [reflexivity |]. split; [reflexivity |].
    exists "%r1, strat". split; reflexivity.
  - reflexivity.
  - apply (bool_decide_unpack _). reflexivity.
Defined.

(** ** The disassembler on the output of the assembler *)

Lemma bit_plain c : is_bit c = true → plain c = true.
Proof. intros [-> | ->]%is_bit_cases; reflexivity. Qed.

Lemma bits_plain w : is_bits w = true → all_chars plain w = true.
Proof. apply all_chars_impl, bit_plain. Qed.

Lemma rstrip_plain_newline w :
  all_chars plain w = true → Py.rstrip (w +:+ String "010" "") = w.
Proof.
  induction w as [|c w IH]; [reflexivity |]. cbn [all_chars].
  intros [Hc Hw]%andb_true_iff. rewrite app_cons. cbn [Py.rstrip].
  rewrite (IH Hw), (plain_not_space c Hc). by destruct w.
Qed.

Lemma strip_written w : is_word w → Py.strip (written_line w) = w.
Proof.
  intros [Hb Hl]. unfold Py.strip, written_line.
  assert (w ≠ "") as Hne by (intros ->; discriminate Hl).
  rewrite lstrip_plain_app by (done || by apply bits_plain).
  apply rstrip_plain_newline. by apply bits_plain.
Qed.

Lemma disassemble_from_words words : ∀ a acc,
  Forall is_word words →
  ∃ texts,
    SMD.disassemble_from a (written_line <$> words) acc = Ok (acc ++ texts) ∧
    length texts = length words ∧
    ∀ (i : nat) w, words !! i = Some w →
      ∃ t, texts !! i = Some t ∧
        SMD.disassemble_instruction w (a + Z.of_nat i) = Ok t.
Proof.
  induction words as [|w rest IH]; intros a acc HF.
  - exists []. cbn. by rewrite app_nil_r.
  - apply Forall_cons in HF as [Hw HF]. pose proof Hw as [Hb Hl].
    cbn [fmap list_fmap SMD.disassemble_from]. rewrite (strip_written w Hw).
    assert ((w =? "")%string = false) as -> by (apply String.eqb_neq; intros ->; discriminate Hl).
    unfold Py.len. rewrite Hl. cbn [Z.of_nat negb Z.eqb Pos.eqb Pos.of_succ_nat Pos.succ].
    destruct (disassemble_instruction_returns w a Hb) as [t Ht]. rewrite Ht.
    cbn [mbind result_bind].
    destruct (IH (a + 1) (acc ++ [t]) HF) as (texts & Hrun & Hlen & Hat).
    exists (t :: texts). split; [by rewrite Hrun, <- app_assoc |].
    split; [cbn; by rewrite Hlen |].
    intros [|i] w' Hi; cbn in Hi.
    + injection Hi as <-. exists t. split; [done |]. by rewrite Z.add_0_r.
    + destruct (Hat i w' Hi) as (t' & Ht' & Hd). exists t'. split; [done |].
      by replace (a + Z.of_nat (S i)) with (a + 1 + Z.of_nat i) by lia.
Qed.

(** X18: whatever [run_assembler] writes, [run_disassembler] reads back
    without an error: it writes one line of text per word, the line at
    position [i] being what [disassemble_instruction] returns for the
    word at position [i]. *)
Theorem assembled_output_disassembles :
  ∀ (lines out : list string),
    SMA.run_assembler (Some lines) = Written out →
    ∃ texts,
      SMD.run_disassembler (Some (written_line <$> out)) = Written texts ∧
      length texts = length out ∧
      ∀ (i : nat) w, out !! i = Some w →
        ∃ t, texts !! i = Some t ∧
          SMD.disassemble_instruction w (Z.of_nat i) = Ok t.
Proof.
  intros lines out H. destruct (written_shape lines out H) as [_ HF].
  destruct (disassemble_from_words out 0 [] HF) as (texts & Hrun & Hlen & Hat).
  exists texts. unfold SMD.run_disassembler. rewrite Hrun. by split_and!.
Qed.

Lemma assembled_output_disassembles_witness :
  ∃ texts,
    SMD.run_disassembler
      (Some (written_line <$> [ "00100000000000000000000000000010";
                                "00100100001000000000000000000000";
                                "00100000000000000000000000000010";
                                "11111111111111111111111111111111" ])) = Written texts ∧
    length texts = length [ "00100000000000000000000000000010";
                            "00100100001000000000000000000000";
                            "00100000000000000000000000000010";
                            "11111111111111111111111111111111" ] ∧
    ∀ (i : nat) w,
      [ "00100000000000000000000000000010";
        "00100100001000000000000000000000";
        "00100000000000000000000000000010";
        "11111111111111111111111111111111" ] !! i = Some w →
      ∃ t, texts !! i = Some t ∧
        SMD.disassemble_instruction w (Z.of_nat i) = Ok t.
Proof.
  apply (assembled_output_disassembles
           ["jmp done"; "pint %r1"; "done:"; "jmp done"; "end"]).
  vm_compute. reflexivity.
Defined.

(** ** The disassembler on lines over 0 and 1 *)

(** X19: on an input whose lines, stripped, are over 0 and 1,
    [run_disassembler] always writes its output: one line per non-blank
    input line, whatever the lengths and the opcodes. *)
Theorem disassembler_total_on_bits :
  ∀ lines : list string,
    Forall (λ ln, is_bits (Py.strip ln) = true) lines →
    ∃ out, SMD.run_disassembler (Some lines) = Written out ∧
      length out = count_words lines.
Proof.
  intros lines HF. destruct (disassemble_from_returns lines 0 [] HF) as [out H].
  exists out. unfold SMD.run_disassembler. rewrite H. split; [done |].
  by rewrite (disassemble_from_length lines 0 [] out H).
Qed.

Lemma disassembler_total_on_bits_witness :
  ∃ out, SMD.run_disassembler
           (Some ["01010100000000000000000101000001"; ""; "0101"; "  ";
                  "01111100000000000000000000000000"]) = Written out ∧
    length out = count_words ["01010100000000000000000101000001"; ""; "0101"; "  ";
                              "01111100000000000000000000000000"].
Proof.
  apply (disassembler_total_on_bits
           ["01010100000000000000000101000001"; ""; "0101"; "  ";
            "01111100000000000000000000000000"]).
  apply (bool_decide_unpack _). vm_compute. reflexivity.
Defined.

(** ** Fields that are not over 0 and 1 *)

Lemma int2_fails s : Py.int 2 s = None → s ≠ "" →
  SMD.bin_to_int s = Raise (ValueError (InvalidLiteral 2 s)) ∧
  SMD.bin_to_signed_int s = Raise (ValueError (InvalidLiteral 2 s)).
Proof.
  intros H Hne%String.eqb_neq. unfold SMD.bin_to_int, SMD.bin_to_signed_int, SMD.int2.
  by rewrite Hne, H.
Qed.

(** X20: a line of 32 characters with the opcode of jmp whose address field
    [int] cannot read in base 2 ends the whole run with that error:
    the lines decoded before it are not written. *)
Theorem undecodable_field_aborts :
  ∀ (pre post : list string) (ln rest : string),
    Forall (λ l, is_bits (Py.strip l) = true) pre →
    Py.strip ln = "001000" +:+ rest → String.length rest = 26%nat →
    Py.int 2 rest = None →
    SMD.run_disassembler (Some (pre ++ ln :: post))
      = Exit1 (ValueError (InvalidLiteral 2 rest)).
Proof.
  intros pre post ln rest HF Hs Hl Hint.
  unfold SMD.run_disassembler. rewrite disassemble_from_app.
  destruct (disassemble_from_returns pre 0 [] HF) as [out ->].
  cbn [mbind result_bind SMD.disassemble_from]. rewrite Hs.
  assert (("001000" +:+ rest =? "")%string = false) as -> by reflexivity.
  unfold Py.len at 1. rewrite length_app, Hl.
  cbn [String.length Nat.add Z.of_nat negb Z.eqb Pos.eqb Pos.of_succ_nat Pos.succ].
  rewrite disassemble_jmp by done. rewrite (substring_all 26) by done.
  assert (rest ≠ "") as Hne by (intros ->; discriminate Hl).
  by rewrite (proj1 (int2_fails rest Hint Hne)).
Qed.

Lemma undecodable_field_aborts_witness :
  SMD.run_disassembler
    (Some (["01010100000000000000000101000001"]
           ++ "00100000000000000000000000000002" :: ["11111111111111111111111111111111"]))
    = Exit1 (ValueError (InvalidLiteral 2 "00000000000000000000000002")).
Proof.
  apply (undecodable_field_aborts
           ["01010100000000000000000101000001"] ["11111111111111111111111111111111"]
           "00100000000000000000000000000002" "00000000000000000000000002").
  - apply (bool_decide_unpack _). vm_compute. reflexivity.
  - reflexivity.
  - reflexivity.
  - reflexivity.
Defined.

(** ** Opcode 111111 outside the all-ones word *)

Lemma slice_0_6_ones s :
  Py.slice 0 6 s = "111111" → ∃ r, s = "111111" +:+ r.
Proof.
  unfold Py.slice. cbn [Nat.sub]. intros H.
  do 6 (destruct s as [|? s]; [discriminate H|]; cbn in H;
        injection H as -> H).
  by exists s.
Qed.

(** X21: a word of 32 characters that starts with 111111 and is not all ones
    is answered with the not-implemented marker for opcode 111111 (end);
    only the all-ones word is decoded as end. *)
Theorem opcode_ones_not_end :
  ∀ (binary_string : string) (address : Z),
    String.length binary_string = 32%nat →
    Py.slice 0 6 binary_string = "111111" →
    binary_string ≠ "11111111111111111111111111111111" →
    SMD.disassemble_instruction binary_string address
      = Ok "; Error: Disassembly logic not implemented for opcode 111111 (end)".
Proof.
  intros s a Hlen Hop Hne.
  unfold SMD.disassemble_instruction, Py.len. rewrite Hlen, Hop.
  destruct (slice_0_6_ones s Hop) as [r ->].
  apply String.eqb_neq in Hne. rewrite Hne.
  reflexivity.
Qed.

Lemma opcode_ones_not_end_witness :
  SMD.disassemble_instruction "11111100000000000000000000000000" 7
    = Ok "; Error: Disassembly logic not implemented for opcode 111111 (end)".
Proof.
  apply (opcode_ones_not_end "11111100000000000000000000000000" 7);
    [reflexivity | reflexivity | discriminate].
Defined.

(** ** Comments, spacing and blank lines *)

Lemma split_char_nonempty sep s : Py.split_char sep s ≠ [].
Proof.
  destruct s as [|c s]; cbn [Py.split_char]; [done |].
  destruct (Ascii.eqb c sep); [done |]. by destruct (Py.split_char sep s).
Qed.

Lemma hd_split_absent sep s :
  all_chars (λ c, negb (Ascii.eqb c sep)) (hd "" (Py.split_char sep s)) = true.
Proof.
  induction s as [|c s IH]; cbn [Py.split_char]; [done |].
  destruct (Ascii.eqb c sep) eqn:E; [done |].
  pose proof (split_char_nonempty sep s) as Hne.
  destruct (Py.split_char sep s) as [|h t]; [done |].
  cbn [hd all_chars] in *. by rewrite E, IH.
Qed.

Lemma split_char_absent sep s :
  all_chars (λ c, negb (Ascii.eqb c sep)) s = true → Py.split_char sep s = [s].
Proof.
  induction s as [|c s IH]; cbn [Py.split_char all_chars]; [done |].
  intros [Hc Hs]%andb_true_iff. apply negb_true_iff in Hc. by rewrite Hc, (IH Hs).
Qed.

Lemma all_chars_lstrip P s : all_chars P s = true → all_chars P (Py.lstrip s) = true.
Proof.
  induction s as [|c s IH]; cbn [Py.lstrip all_chars]; [done |].
  intros [Hc Hs]%andb_true_iff.
  destruct (Py.is_space c); [by apply IH |]. cbn [all_chars]. by rewrite Hc, Hs.
Qed.

Lemma all_chars_rstrip P s : all_chars P s = true → all_chars P (Py.rstrip s) = true.
Proof.
  induction s as [|c s IH]; cbn [Py.rstrip all_chars]; [done |].
  intros [Hc Hs]%andb_true_iff. specialize (IH Hs).
  destruct (Py.rstrip s) as [|d r].
  - destruct (Py.is_space c); [done |]. cbn [all_chars]. by rewrite Hc.
  - cbn [all_chars] in *. by rewrite Hc, IH.
Qed.

Lemma rstrip_idem s : Py.rstrip (Py.rstrip s) = Py.rstrip s.
Proof.
  induction s as [|c s IH]; cbn [Py.rstrip]; [done |].
  destruct (Py.rstrip s) as [|d r] eqn:E.
  - destruct (Py.is_space c) eqn:Hc; [done |]. cbn [Py.rstrip]. by rewrite Hc.
  - cbn [Py.rstrip]. cbn [Py.rstrip] in IH. by rewrite IH.
Qed.

Lemma strip_idem s : Py.strip (Py.strip s) = Py.strip s.
Proof.
  unfold Py.strip at 1.
  destruct (Py.strip s) as [|c r] eqn:E; [done |].
  pose proof (strip_head s c r E) as Hc.
  cbn [Py.lstrip]. rewrite Hc, <- E. unfold Py.strip. apply rstrip_idem.
Qed.

Lemma clean_idem ln : clean (clean ln) = clean ln.
Proof.
  unfold clean at 1.
  rewrite split_char_absent.
  - cbn [hd]. apply strip_idem.
  - unfold clean, Py.strip. apply all_chars_rstrip, all_chars_lstrip, hd_split_absent.
Qed.

Lemma pass1_line_clean st n ln : SMA.pass1_line st n (clean ln) = SMA.pass1_line st n ln.
Proof.
  rewrite !pass1_line_spec. unfold label_of, is_instruction, label_of.
  by rewrite !clean_idem.
Qed.

Lemma pass1_from_clean lines : ∀ st n,
  SMA.pass1_from st n (clean <$> lines) = SMA.pass1_from st n lines.
Proof.
  induction lines as [|ln rest IH]; intros st n; [done |].
  cbn [fmap list_fmap SMA.pass1_from]. rewrite pass1_line_clean.
  destruct (SMA.pass1_line st n ln); [apply IH | done].
Qed.

(** X22: [run_assembler] sees a source line only through its cleaned form:
    replacing every line by its text before the first # with the white
    space around it removed changes neither the output nor the error. *)
Theorem comments_and_spacing_ignored :
  ∀ lines : list string,
    SMA.run_assembler (Some (clean <$> lines)) = SMA.run_assembler (Some lines).
Proof.
  intros lines. unfold SMA.run_assembler, SMA.pass1. by rewrite pass1_from_clean.
Qed.

Lemma pass1_line_blank st n ln : clean ln = "" → SMA.pass1_line st n ln = Ok st.
Proof.
  intros H. rewrite pass1_line_spec. unfold label_of, is_instruction. by rewrite H.
Qed.

Lemma same_program_line st st' n n' ln :
  same_program st st' →
  match SMA.pass1_line st n ln, SMA.pass1_line st' n' ln with
  | Ok s, Ok s' => same_program s s'
  | Raise _, Raise _ => True
  | _, _ => False
  end.
Proof.
  intros (Hlt & Hca & Hcl). rewrite !pass1_line_spec, <- Hlt, <- Hca.
  destruct (label_of ln) as [x|].
  - destruct (SMA.label_table st !! x); [done |]. split_and!; cbn; by rewrite ?Hlt.
  - destruct (is_instruction ln); [| done].
    split_and!; cbn; [done | done |]. apply Forall2_app; [done |].
    by constructor.
Qed.

Lemma same_program_from lines : ∀ st st' n n',
  same_program st st' →
  match SMA.pass1_from st n lines, SMA.pass1_from st' n' (filter not_blank lines) with
  | Ok s, Ok s' => same_program s s'
  | Raise _, Raise _ => True
  | _, _ => False
  end.
Proof.
  induction lines as [|ln rest IH]; intros st st' n n' Hs; [done |].
  rewrite filter_cons. cbn [SMA.pass1_from].
  destruct (decide (not_blank ln)) as [Hnb | Hb].
  - cbn [SMA.pass1_from].
    pose proof (same_program_line st st' n n' ln Hs) as Hl.
    destruct (SMA.pass1_line st n ln) as [s|e], (SMA.pass1_line st' n' ln) as [s'|e'];
      try done.
    cbn [mbind result_bind]. by apply IH.
  - assert (clean ln = "") as Hc.
    { unfold not_blank in Hb. by destruct (decide (clean ln = "")). }
    rewrite (pass1_line_blank st n ln Hc). cbn [mbind result_bind]. by apply IH.
Qed.

Lemma pass2_same_code lt items : ∀ items' acc,
  Forall2 same_code items items' → SMA.pass2 lt items acc = SMA.pass2 lt items' acc.
Proof.
  induction items as [|item rest IH]; intros items' acc HF.
  - by apply Forall2_nil_inv_l in HF as ->.
  - apply Forall2_cons_inv_l in HF as (item' & rest' & [Hl Ha] & HF & ->).
    cbn [SMA.pass2]. rewrite <- Hl, <- Ha.
    destruct (SMA.assemble_line _ _ _) as [[code|]|e]; cbn [mbind result_bind];
      [| by apply IH | done].
    destruct (code =? "")%string; [by apply IH |].
    destruct (negb (Py.len code =? 32)); [done | by apply IH].
Qed.

(** X23: removing the lines that are blank once their comment is removed
    leaves the output of [run_assembler] unchanged (only the line
    numbers in error messages move). *)
Theorem blank_lines_ignored :
  ∀ lines : list string,
    output_of (SMA.run_assembler (Some (filter not_blank lines)))
      = output_of (SMA.run_assembler (Some lines)).
Proof.
  intros lines. unfold SMA.run_assembler, SMA.pass1.
  assert (same_program initial_state initial_state) as Hs
    by (split; [done |]; split; [done | constructor]).
  pose proof (same_program_from lines initial_state initial_state 1 1 Hs) as H.
  unfold initial_state in H.
  destruct (SMA.pass1_from _ 1 lines) as [s|e],
           (SMA.pass1_from _ 1 (filter not_blank lines)) as [s'|e']; try done.
  - destruct H as (Hlt & _ & Hcl).
    rewrite <- Hlt, <- (pass2_same_code _ _ _ _ Hcl).
    by destruct (SMA.pass2 _ _ _).
  - by destruct e as [| | |], e' as [| | |].
Qed.

(** ** Label operands in decoded text *)

Lemma numeral_head c :
  Py.is_digit c || Ascii.eqb c "-" = true → Py.is_alpha c || Ascii.eqb c "_" = false.
Proof.
  destruct c as [[|] [|] [|] [|] [|] [|] [|] [|]]; intros H;
    first [reflexivity | vm_compute in H; discriminate H].
Qed.

(** No label is the text of a number. *)
Lemma label_not_numeral s x n : SMA.label_match s = Some x → x ≠ Py.str n.
Proof.
  unfold SMA.label_match. destruct s as [|c s]; [done |].
  destruct (Py.is_alpha c || Ascii.eqb c "_") eqn:Hc; [| done].
  destruct (SMA.span_ident s) as [w r]. destruct (Py.strip_prefix ":" r); [| done].
  destruct ((_ =? "")%string || _); [| done]. intros [= Hx] E. subst x.
  pose proof (str_chars n) as Hn. rewrite <- E in Hn. cbn [all_chars] in Hn.
  apply andb_true_iff in Hn as [Hn _]. apply numeral_head in Hn. congruence.
Qed.

Lemma numeral_unbound lines st n :
  SMA.pass1 lines = Ok st → SMA.label_table st !! Py.str n = None.
Proof.
  intros H. destruct (pass1_result lines st H) as (_ & _ & _ & Hkeys & _).
  destruct (SMA.label_table st !! Py.str n) eqn:E; [| done]. exfalso.
  assert (Py.str n ∈ labels_of lines) as Hin by (apply Hkeys; by eexists).
  destruct (label_of_lookup lines _ Hin) as (k & ln & _ & Hl).
  by apply (label_not_numeral _ _ n) in Hl.
Qed.

(** A table that binds one label, used to decode a word whose address
    field holds [address]. *)
Lemma one_label_target address bits :
  0 ≤ address < 2 ^ bits → is_target {[ "L" := address ]} bits "L".
Proof. intros H. split; [reflexivity |]. exists address. by rewrite lookup_singleton_eq. Qed.

Lemma one_label_field address bits :
  target_field {[ "L" := address ]} bits "L" = Py.format_bin address bits.
Proof. unfold target_field. by rewrite lookup_singleton_eq. Qed.

Lemma one_label_text address :
  Py.str (default 0 (({[ "L" := address ]} : gmap string Z) !! "L")) = Py.str address.
Proof. by rewrite lookup_singleton_eq. Qed.

Lemma unsigned_target s (n : nat) :
  is_bits s = true → String.length s = n → (0 < n)%nat →
  ∃ v, 0 ≤ v < 2 ^ Z.of_nat n ∧ Py.format_bin v n = s.
Proof.
  intros Hb Hl Hn. assert (s ≠ "") as Hne by (intros ->; cbn in Hl; lia).
  destruct (unsigned_decode s Hb Hne) as (v & _ & Hr & _ & Hf).
  unfold Py.len in Hr. rewrite Hl in Hr, Hf. by exists v.
Qed.

(** X24: every word of 32 bits with the opcode of jmp, for, ife, ifne or ldad
    is disassembled to a text whose label operand is a numeral, and no
    label table built by Pass 1 binds a numeral: assembling the text
    again raises the undefined-label (for ldad, undefined-variable)
    error for that numeral. *)
Theorem decoded_label_operand_not_reassembled :
  ∀ (lines : list string) (st : SMA.pass1_state) (word : string)
    (address current_address : Z),
    SMA.pass1 lines = Ok st →
    is_bits word = true → String.length word = 32%nat →
    Py.slice 0 6 word ∈ ["001000"; "001110"; "010010"; "010011"; "010100"] →
    ∃ text n,
      SMD.disassemble_instruction word address = Ok text ∧
      (SMA.assemble_line text (SMA.label_table st) current_address
         = Raise (ValueError (UndefinedLabel (Py.str n))) ∨
       SMA.assemble_line text (SMA.label_table st) current_address
         = Raise (ValueError (UndefinedVariable (Py.str n)))).
Proof.
  intros lines st word a ca Hp Hb Hl Hop. set (lt := SMA.label_table st).
  assert (∀ n, lt !! Py.str n = None) as Hnone by (intros n; by eapply numeral_unbound).
  assert (∀ n, SMA.lookup_label lt (Py.str n) = Raise (ValueError (UndefinedLabel (Py.str n))))
    as Hlk by (intros n; unfold SMA.lookup_label; by rewrite Hnone).
  destruct (word_parts word Hb Hl) as (code & rest & -> & Hc & _ & Hr & Hbr).
  rewrite Hc in Hop. clear Hc Hb Hl.
  rewrite !elem_of_cons in Hop.
  destruct Hop as [-> | [-> | [-> | [-> | [-> | Hop]]]]];
    [| | | | | by apply elem_of_nil in Hop].
  - destruct (unsigned_target rest 26 Hbr Hr ltac:(lia)) as (n & Hn & <-).
    exists ("jmp" +:+ " " +:+ Py.str n), n. split.
    + pose proof (encode_decodes {[ "L" := n ]} (Jump "L") a (one_label_target n 26 Hn)) as Hd.
      cbn [encode decoded_text render] in Hd.
      by rewrite one_label_field, one_label_text in Hd.
    + left. rewrite (assemble_jmp _ "jmp" (Py.str n)).
      * rewrite operands_1 by apply str_plain. by rewrite Hlk.
      * apply split_line_1; [done | done | apply str_plain | apply str_nonempty].
      * done.
  - destruct (cut_at 5 rest ltac:(lia)) as (f1 & f2 & -> & H1 & H2).
    apply bits_app in Hbr as [B1 B2].
    destruct (reg_field_of f1 B1 H1) as (rs & Hrs & <- & _).
    destruct (unsigned_target f2 21 B2 ltac:(lia) ltac:(lia)) as (n & Hn & <-).
    destruct (register_facts rs Hrs) as (Hp1 & _ & _ & Hpl1).
    exists ("for" +:+ " " +:+ reg_name rs +:+ ", " +:+ Py.str n), n. split.
    + pose proof (encode_decodes {[ "L" := n ]} (ForLoop rs "L") a
                    (conj Hrs (one_label_target n 21 Hn))) as Hd.
      cbn [encode decoded_text render] in Hd.
      by rewrite one_label_field, one_label_text in Hd.
    + left. rewrite (assemble_for _ "for" (reg_name rs +:+ ", " +:+ Py.str n)).
      * rewrite operands_2 by (assumption || apply str_plain).
        rewrite Hp1. cbn [mbind result_bind]. by rewrite Hlk.
      * apply split_line; [done | done | done | apply reg_name_nonempty].
      * done.
  - destruct (parts_5_5_16 rest Hbr Hr) as (f1 & f2 & f3 & -> & H1 & H2 & H3 & B1 & B2 & B3).
    destruct (reg_field_of f1 B1 H1) as (rs & Hrs & <- & _).
    destruct (reg_field_of f2 B2 H2) as (rt & Hrt & <- & _).
    destruct (unsigned_target f3 16 B3 H3 ltac:(lia)) as (n & Hn & <-).
    destruct (register_facts rs Hrs) as (Hp1 & _ & _ & Hpl1).
    destruct (register_facts rt Hrt) as (Hp2 & _ & _ & Hpl2).
    exists ("ife" +:+ " " +:+ reg_name rs +:+ ", " +:+ reg_name rt +:+ ", " +:+ Py.str n), n.
    split.
    + pose proof (encode_decodes {[ "L" := n ]} (Branch Ife rs rt "L") a
                    (conj Hrs (conj Hrt (one_label_target n 16 Hn)))) as Hd.
      cbn [encode decoded_text render] in Hd.
      by rewrite one_label_field, one_label_text in Hd.
    + left. rewrite (assemble_branch_op Ife _ "ife"
                       (reg_name rs +:+ ", " +:+ reg_name rt +:+ ", " +:+ Py.str n)).
      * rewrite operands_3 by (assumption || apply str_plain).
        rewrite Hp1. cbn [mbind result_bind]. rewrite Hp2. cbn [mbind result_bind].
        by rewrite Hlk.
      * apply split_line; [done | done | done | apply reg_name_nonempty].
      * done.
  - destruct (parts_5_5_16 rest Hbr Hr) as (f1 & f2 & f3 & -> & H1 & H2 & H3 & B1 & B2 & B3).
    destruct (reg_field_of f1 B1 H1) as (rs & Hrs & <- & _).
    destruct (reg_field_of f2 B2 H2) as (rt & Hrt & <- & _).
    destruct (unsigned_target f3 16 B3 H3 ltac:(lia)) as (n & Hn & <-).
    destruct (register_facts rs Hrs) as (Hp1 & _ & _ & Hpl1).
    destruct (register_facts rt Hrt) as (Hp2 & _ & _ & Hpl2).
    exists ("ifne" +:+ " " +:+ reg_name rs +:+ ", " +:+ reg_name rt +:+ ", " +:+ Py.str n), n.
    split.
    + pose proof (encode_decodes {[ "L" := n ]} (Branch Ifne rs rt "L") a
                    (conj Hrs (conj Hrt (one_label_target n 16 Hn)))) as Hd.
      cbn [encode decoded_text render] in Hd.
      by rewrite one_label_field, one_label_text in Hd.
    + left. rewrite (assemble_branch_op Ifne _ "ifne"
                       (reg_name rs +:+ ", " +:+ reg_name rt +:+ ", " +:+ Py.str n)).
      * rewrite operands_3 by (assumption || apply str_plain).
        rewrite Hp1. cbn [mbind result_bind]. rewrite Hp2. cbn [mbind result_bind].
        by rewrite Hlk.
      * apply split_line; [done | done | done | apply reg_name_nonempty].
      * done.
  - destruct (parts_21_5 rest Hbr Hr) as (f1 & f2 & -> & H1 & H2 & B1 & B2).
    destruct (unsigned_target f1 21 B1 H1 ltac:(lia)) as (n & Hn & <-).
    destruct (reg_field_of f2 B2 H2) as (rd & Hrd & <- & _).
    destruct (register_facts rd Hrd) as (Hp3 & _ & _ & Hpl3).
    exists ("ldad" +:+ " " +:+ Py.str n +:+ ", " +:+ reg_name rd), n. split.
    + pose proof (encode_decodes {[ "L" := n ]} (LoadAddr "L" rd) a
                    (conj (one_label_target n 21 Hn) Hrd)) as Hd.
      cbn [encode decoded_text render] in Hd.
      by rewrite one_label_field, one_label_text in Hd.
    + right. rewrite (assemble_ldad _ "ldad" (Py.str n +:+ ", " +:+ reg_name rd)).
      * rewrite operands_2 by (assumption || apply str_plain).
        rewrite Hp3. cbn [mbind result_bind]. by rewrite Hnone.
      * apply split_line; [done | done | apply str_plain | apply str_nonempty].
      * done.
Qed.

Lemma decoded_label_operand_not_reassembled_witness :
  ∃ text n,
    SMD.disassemble_instruction "00100000000000000000000000000010" 0 = Ok text ∧
    (SMA.assemble_line text
       (SMA.label_table
          {| SMA.label_table := {[ "done" := 2 ]};
             SMA.cleaned_lines :=
               [ {| SMA.line := "jmp done"; SMA.addr := 0; SMA.orig_line := 1 |};
                 {| SMA.line := "end"; SMA.addr := 1; SMA.orig_line := 2 |} ];
             SMA.current_address := 2 |}) 0
       = Raise (ValueError (UndefinedLabel (Py.str n))) ∨
     SMA.assemble_line text
       (SMA.label_table
          {| SMA.label_table := {[ "done" := 2 ]};
             SMA.cleaned_lines :=
               [ {| SMA.line := "jmp done"; SMA.addr := 0; SMA.orig_line := 1 |};
                 {| SMA.line := "end"; SMA.addr := 1; SMA.orig_line := 2 |} ];
             SMA.current_address := 2 |}) 0
       = Raise (ValueError (UndefinedVariable (Py.str n)))).
Proof.
  apply (decoded_label_operand_not_reassembled ["jmp done"; "end"; "done:"]);
    [reflexivity | reflexivity | reflexivity |].
  apply list_elem_of_here.
Defined.

(** ** The number of operands *)

Lemma operand_count_checked text m ps lt ca i :
  Py.split_ws_1 text = m :: ps → Py.lower m = mnemonic i →
  operand_texts i ≠ [] →
  length (Py.split_char "," (hd "" ps)) ≠ length (operand_texts i) →
  SMA.assemble_line text lt ca
    = Raise (ValueError (OperandCount (mnemonic i) (hd "" ps))).
Proof.
  intros Hs Hm Hne Hlen. unfold SMA.assemble_line. rewrite Hs. cbv beta iota zeta.
  rewrite Hm. change (match ps with [] => "" | p1 :: _ => p1 end) with (hd "" ps).
  rewrite <- (length_fmap Py.strip) in Hlen.
  set (operands := Py.strip <$> Py.split_char "," (hd "" ps)) in *. clearbody operands.
  destruct i; try destruct op; cbn [mnemonic operand_texts length reg3_name imm_name
    reg2_name branch_name] in *; try done;
    destruct operands as [|o0 [|o1 [|o2 [|o3 ops]]]]; cbn [length] in Hlen;
    try (exfalso; apply Hlen; reflexivity); reflexivity.
Qed.

(** X25: for every mnemonic that takes operands, a line whose operand text,
    cut at the commas, has another number of pieces than the format
    requires raises the operand-count error naming the mnemonic in lower
    case and the operand text. *)
Theorem wrong_operand_count :
  ∀ (text m : string) (ps : list string) (label_table : gmap string Z)
    (current_address : Z) (i : instr),
    Py.split_ws_1 text = m :: ps → Py.lower m = mnemonic i →
    operand_texts i ≠ [] →
    length (Py.split_char "," (hd "" ps)) ≠ length (operand_texts i) →
    SMA.assemble_line text label_table current_address
      = Raise (ValueError (OperandCount (mnemonic i) (hd "" ps))).
Proof. intros text m ps lt ca i. apply operand_count_checked. Qed.

Lemma wrong_operand_count_witness :
  SMA.assemble_line "cmb %r1, %r2" ∅ 0
    = Raise (ValueError (OperandCount (mnemonic (Reg3 Cmb 1 2 3)) (hd "" ["%r1, %r2"]))).
Proof.
  apply (wrong_operand_count "cmb %r1, %r2" "cmb" ["%r1, %r2"] ∅ 0 (Reg3 Cmb 1 2 3));
    [reflexivity | reflexivity | discriminate | cbn; lia].
Defined.

(** X26: a mnemonic alone on its line is read with the single operand the
    empty string: pint raises the invalid-register error, pstr the
    invalid-memory-address error and jmp the undefined-label error, each
    for the empty string, and every mnemonic of two or three operands
    raises the operand-count error. *)
Theorem mnemonic_without_operands :
  ∀ (text m : string) (label_table : gmap string Z) (current_address : Z),
    Py.split_ws_1 text = [m] →
    (Py.lower m = "pint" →
     SMA.assemble_line text label_table current_address
       = Raise (ValueError (InvalidRegisterName ""))) ∧
    (Py.lower m = "pstr" →
     SMA.assemble_line text label_table current_address
       = Raise (ValueError (InvalidMemoryAddress ""))) ∧
    (Py.lower m = "jmp" → label_table !! "" = None →
     SMA.assemble_line text label_table current_address
       = Raise (ValueError (UndefinedLabel ""))) ∧
    (∀ i, Py.lower m = mnemonic i → (1 < length (operand_texts i))%nat →
     SMA.assemble_line text label_table current_address
       = Raise (ValueError (OperandCount (mnemonic i) ""))).
Proof.
  intros text m lt ca Hs. split_and!.
  - intros Hm. unfold SMA.assemble_line. rewrite Hs. cbv beta iota zeta. rewrite Hm.
    reflexivity.
  - intros Hm. unfold SMA.assemble_line. rewrite Hs. cbv beta iota zeta. rewrite Hm.
    reflexivity.
  - intros Hm Hl. unfold SMA.assemble_line. rewrite Hs. cbv beta iota zeta. rewrite Hm.
    cbn [Py.in_list existsb String.eqb Ascii.eqb Bool.eqb orb].
    change (Py.strip <$> Py.split_char "," "") with [""].
    unfold SMA.lookup_label. rewrite Hl. reflexivity.
  - intros i Hm Hlen.
    apply (operand_count_checked text m [] lt ca i Hs Hm).
    + intros E. rewrite E in Hlen. cbn in Hlen. lia.
    + cbn. lia.
Qed.

Lemma mnemonic_without_operands_witness :
  (Py.lower "PINT" = "pint" →
   SMA.assemble_line " PINT  " ∅ 0 = Raise (ValueError (InvalidRegisterName ""))) ∧
  (Py.lower "PINT" = "pstr" →
   SMA.assemble_line " PINT  " ∅ 0 = Raise (ValueError (InvalidMemoryAddress ""))) ∧
  (Py.lower "PINT" = "jmp" → (∅ : gmap string Z) !! "" = None →
   SMA.assemble_line " PINT  " ∅ 0 = Raise (ValueError (UndefinedLabel ""))) ∧
  (∀ i, Py.lower "PINT" = mnemonic i → (1 < length (operand_texts i))%nat →
   SMA.assemble_line " PINT  " ∅ 0 = Raise (ValueError (OperandCount (mnemonic i) ""))).
Proof. apply (mnemonic_without_operands " PINT  " "PINT" ∅ 0). reflexivity. Defined.

(** ** Names where a number is expected *)

Lemma identifier_head c :
  Py.is_alpha c || Ascii.eqb c "_" = true →
  Py.is_int_space c = false ∧ Ascii.eqb "+" c = false ∧ Ascii.eqb "-" c = false ∧
  Py.is_digit c = false.
Proof.
  destruct c as [[|] [|] [|] [|] [|] [|] [|] [|]]; intros H;
    first [by split_and! | vm_compute in H; discriminate H].
Qed.

Lemma int_identifier c s : Py.is_alpha c || Ascii.eqb c "_" = true → Py.int 10 (String c s) = None.
Proof.
  intros Hc. destruct (identifier_head c Hc) as (Hsp & Hplus & Hminus & Hd).
  unfold Py.int. cbn [Py.skip_int_space]. rewrite Hsp.
  rewrite !strip_prefix_cons, Hplus, Hminus. cbv iota beta.
  change (10 =? 2) with false. cbn [andb].
  unfold Py.starts_with. rewrite strip_prefix_cons.
  destruct (Ascii.eqb "_" c) eqn:Hu; [reflexivity |].
  cbn [Py.scan_digits]. rewrite (Ascii.eqb_sym c "_"), Hu, Hd. reflexivity.
Qed.

(** X27: [parse_immediate] does not resolve labels: an identifier, whatever
    the width asked for, raises the invalid-immediate error caused by
    [int]. *)
Theorem label_is_not_an_immediate :
  ∀ (label : string) (bits : Z),
    SMA.label_match (label +:+ ":") = Some label →
    SMA.parse_immediate label bits
      = Raise (ValueError (InvalidImmediate label NotAnInteger)).
Proof.
  intros label bits H. destruct (label_plain label H) as [Hpl Hne].
  unfold SMA.parse_immediate. rewrite (remove_comma_plain label Hpl).
  destruct label as [|c s]; [done |].
  rewrite app_cons in H. cbn [SMA.label_match] in H.
  destruct (Py.is_alpha c || Ascii.eqb c "_") eqn:Hc; [| done].
  by rewrite (int_identifier c s Hc).
Qed.

Lemma label_is_not_an_immediate_witness :
  SMA.parse_immediate "count_2" 21
    = Raise (ValueError (InvalidImmediate "count_2" NotAnInteger)).
Proof. apply (label_is_not_an_immediate "count_2" 21). reflexivity. Defined.

(** ** The round trip of a program *)

Lemma reg_field_bits r : is_register r → is_bits (reg_field r) = true.
Proof. intros [H _]. by apply format_bin_bits. Qed.

Lemma imm_field_bits bits v : is_bits (imm_field bits v) = true.
Proof.
  apply format_bin_bits, Z.mod_pos_bound, Z.pow_pos_nonneg; lia.
Qed.

Lemma target_field_bits lt bits width label :
  is_target lt bits label → is_bits (target_field lt width label) = true.
Proof.
  intros (_ & address & Hl & Ha & _). unfold target_field. rewrite Hl.
  by apply format_bin_bits.
Qed.

Lemma encode_bits lt i : round_trip_valid lt i → is_bits (encode lt i) = true.
Proof.
  destruct i; cbn [encode round_trip_valid]; intros Hv; try done;
    repeat match goal with H : _ ∧ _ |- _ => destruct H end;
    repeat (match goal with |- is_bits (_ +:+ _) = true => apply bits_app_intro end);
    first [ by apply reg_field_bits
          | apply imm_field_bits
          | by eapply target_field_bits
          | apply repeat_char_all; reflexivity
          | by destruct op
          | reflexivity ].
Qed.

Lemma encode_word lt i : round_trip_valid lt i → is_word (encode lt i).
Proof.
  intros Hv. split; [by apply encode_bits |].
  pose proof (canonical_text_read lt i Hv) as Hr.
  destruct (round_trip_word lt 0 0 (source_text i) i Hv Hr) as (word & Ha & Hl & _).
  rewrite (assemble_encode lt 0 _ i (valid_encodable lt i Hv) Hr) in Ha.
  by injection Ha as <-.
Qed.

Lemma pass2_encode lt items : ∀ instrs acc,
  Forall2 (spells lt) items instrs →
  SMA.pass2 lt items acc = Ok (acc ++ (encode lt <$> instrs)).
Proof.
  induction items as [|item rest IH]; intros instrs acc HF.
  - apply Forall2_nil_inv_l in HF as ->. cbn. by rewrite app_nil_r.
  - apply Forall2_cons_inv_l in HF as (i & instrs' & [Hr Hv] & HF & ->).
    cbn [SMA.pass2 fmap list_fmap].
    rewrite (assemble_encode lt _ _ i (valid_encodable lt i Hv) Hr).
    cbn [mbind result_bind].
    destruct (encode_word lt i Hv) as [_ Hl].
    assert ((encode lt i =? "")%string = false) as ->
      by (apply String.eqb_neq; intros E; rewrite E in Hl; discriminate Hl).
    unfold Py.len. rewrite Hl.
    cbn [negb Z.of_nat Z.eqb Pos.eqb Pos.of_succ_nat Pos.succ].
    rewrite (IH instrs' _ HF). by rewrite <- app_assoc.
Qed.

Lemma decoded_texts lt instrs texts a :
  Forall (round_trip_valid lt) instrs →
  length texts = length instrs →
  (∀ (k : nat) w, (encode lt <$> instrs) !! k = Some w →
     ∃ t, texts !! k = Some t ∧ SMD.disassemble_instruction w (a + Z.of_nat k) = Ok t) →
  texts = decoded_text lt <$> instrs.
Proof.
  intros Hv Hlen Hat. apply list_eq. intros k.
  rewrite list_lookup_fmap.
  destruct (instrs !! k) as [i|] eqn:Hi; cbn.
  - destruct (Hat k (encode lt i)) as (t & Ht & Hd).
    { by rewrite list_lookup_fmap, Hi. }
    rewrite Forall_forall in Hv.
    rewrite encode_decodes in Hd by (apply Hv; by eapply list_elem_of_lookup_2).
    by injection Hd as <-.
  - apply lookup_ge_None. apply lookup_ge_None in Hi. lia.
Qed.

(** X28: when Pass 1 succeeds and every recorded line spells an instruction
    that makes the round trip under the label table of the program,
    [run_assembler] writes the words of these instructions in order,
    and [run_disassembler], reading that output file, writes their
    canonical texts in order, label operands as their addresses. *)
Theorem program_round_trip :
  ∀ (lines : list string) (st : SMA.pass1_state) (instrs : list instr),
    SMA.pass1 lines = Ok st →
    Forall2 (spells (SMA.label_table st)) (SMA.cleaned_lines st) instrs →
    SMA.run_assembler (Some lines) = Written (encode (SMA.label_table st) <$> instrs) ∧
    SMD.run_disassembler
      (Some (written_line <$> (encode (SMA.label_table st) <$> instrs)))
      = Written (decoded_text (SMA.label_table st) <$> instrs).
Proof.
  intros lines st instrs Hp HF. set (lt := SMA.label_table st) in *.
  assert (Forall (round_trip_valid lt) instrs) as Hv.
  { apply Forall_forall. intros i Hi.
    apply list_elem_of_lookup_1 in Hi as [k Hk].
    destruct (Forall2_lookup_r _ _ _ _ _ HF Hk) as (item & _ & [_ H]). exact H. }
  split.
  - unfold SMA.run_assembler. rewrite Hp. fold lt.
    by rewrite (pass2_encode lt _ instrs [] HF).
  - assert (Forall is_word (encode lt <$> instrs)) as Hw.
    { apply Forall_fmap. eapply Forall_impl; [exact Hv |]. intros i. apply encode_word. }
    destruct (disassemble_from_words _ 0 [] Hw) as (texts & Hrun & Hlen & Hat).
    unfold SMD.run_disassembler. rewrite Hrun. cbn [app]. f_equal.
    apply (decoded_texts lt instrs texts 0 Hv); [by rewrite Hlen, length_fmap | exact Hat].
Qed.

Lemma program_round_trip_witness :
  SMA.run_assembler (Some ["start:"; "  LDIM 10, %r1  # ten"; ""; "  jmp start"; "end"])
    = Written (encode
                 (SMA.label_table
                    {| SMA.label_table := {[ "start" := 0 ]};
                       SMA.cleaned_lines :=
                         [ {| SMA.line := "LDIM 10, %r1"; SMA.addr := 0; SMA.orig_line := 2 |};
                           {| SMA.line := "jmp start"; SMA.addr := 1; SMA.orig_line := 4 |};
                           {| SMA.line := "end"; SMA.addr := 2; SMA.orig_line := 5 |} ];
                       SMA.current_address := 3 |})
               <$> [LoadImm 10 1; Jump "start"; End]) ∧
  SMD.run_disassembler
    (Some (written_line <$>
             (encode
                (SMA.label_table
                   {| SMA.label_table := {[ "start" := 0 ]};
                      SMA.cleaned_lines :=
                        [ {| SMA.line := "LDIM 10, %r1"; SMA.addr := 0; SMA.orig_line := 2 |};
                          {| SMA.line := "jmp start"; SMA.addr := 1; SMA.orig_line := 4 |};
                          {| SMA.line := "end"; SMA.addr := 2; SMA.orig_line := 5 |} ];
                      SMA.current_address := 3 |})
              <$> [LoadImm 10 1; Jump "start"; End])))
    = Written (decoded_text
                 (SMA.label_table
                    {| SMA.label_table := {[ "start" := 0 ]};
                       SMA.cleaned_lines :=
                         [ {| SMA.line := "LDIM 10, %r1"; SMA.addr := 0; SMA.orig_line := 2 |};
                           {| SMA.line := "jmp start"; SMA.addr := 1; SMA.orig_line := 4 |};
                           {| SMA.line := "end"; SMA.addr := 2; SMA.orig_line := 5 |} ];
                       SMA.current_address := 3 |})
               <$> [LoadImm 10 1; Jump "start"; End]).
Proof.
  apply (program_round_trip
           ["start:"; "  LDIM 10, %r1  # ten"; ""; "  jmp start"; "end"]).
  - reflexivity.
  - cbn [SMA.cleaned_lines SMA.label_table].
    constructor; [split | constructor; [split | constructor; [split | constructor]]].
    + exists "LDIM", ["10, %r1"]. split; [reflexivity |]. split; [reflexivity |].
      exists "10, %r1". split; reflexivity.
    + cbn [round_trip_valid]. unfold fits_signed, is_register. lia.
    + exists "jmp", ["start"]. split; [reflexivity |]. split; [reflexivity |].
      exists "start". split; reflexivity.
    + split; [reflexivity |]. exists 0. split; [reflexivity | lia].
    + exists "end", []. split; [reflexivity |]. split; [reflexivity | exact I].
    + exact I.
Defined.

(** ** Addresses that do not fit their field *)

Lemma size_nat_lower p : ∀ w : nat, 2 ^ Z.of_nat w ≤ Zpos p → (w < Pos.size_nat p)%nat.
Proof.
  induction p as [p IH | p IH |]; intros [|w] H; cbn [Pos.size_nat]; try lia.
  - rewrite Nat2Z.inj_succ, Z.pow_succ_r in H by lia.
    specialize (IH w ltac:(lia)). lia.
  - rewrite Nat2Z.inj_succ, Z.pow_succ_r in H by lia.
    specialize (IH w ltac:(lia)). lia.
  - rewrite Nat2Z.inj_succ, Z.pow_succ_r in H by lia.
    assert (0 < 2 ^ Z.of_nat w) by (apply Z.pow_pos_nonneg; lia). lia.
Qed.

(** A number that needs more digits than the width is not truncated. *)
Lemma format_bin_long v (w : nat) :
  2 ^ Z.of_nat w ≤ v → (w < String.length (Py.format_bin v w))%nat.
Proof.
  intros H. assert (0 < 2 ^ Z.of_nat w) by (apply Z.pow_pos_nonneg; lia).
  rewrite format_bin_nonneg, length_app by lia.
  destruct v as [|p|p]; try lia. cbn [Py.nat_bin].
  rewrite pos_bin_length. cbn [String.length].
  pose proof (size_nat_lower p w H). lia.
Qed.

(** X29: a label bound to an address that needs more bits than the address
    field of the instruction that names it is not truncated:
    [assemble_line] returns a word of more than 32 characters, which
    Pass 2 answers with the internal width error. *)
Theorem label_address_overflow :
  ∀ (label_table : gmap string Z) (current_address line_num : Z) (text : string)
    (i : instr) (target : string) (address : Z),
    reads_as text i → encodable label_table i →
    label_operand i = Some target → label_table !! target = Some address →
    2 ^ Z.of_nat (target_width i) ≤ address →
    ∃ word,
      SMA.assemble_line text label_table current_address = Ok (Some word) ∧
      32 < Py.len word ∧
      SMA.pass2 label_table
        [ {| SMA.line := text; SMA.addr := current_address; SMA.orig_line := line_num |} ] []
        = Raise (ValueError (InternalWidth text (Py.len word))).
Proof.
  intros lt ca n text i target address Hr He Hi Hl Ha.
  pose proof (assemble_encode lt ca text i He Hr) as Hasm.
  assert (32 < Py.len (encode lt i)) as Hlen.
  { unfold Py.len.
    destruct i; try discriminate Hi; injection Hi as ->;
      cbn [encode encodable target_width] in *; unfold target_field; rewrite Hl;
      change (default 0 (Some address)) with address;
      pose proof (format_bin_long address _ Ha) as Hlong;
      repeat match goal with H : _ ∧ _ |- _ => destruct H end;
      repeat match goal with
             | H : is_register ?r |- _ =>
                 pose proof (proj1 (proj2 (proj2 (register_facts r H))));
                 clear H
             end;
      unfold reg_field; rewrite !length_app;
      repeat match goal with H : String.length _ = _ |- _ => rewrite H; clear H end;
      try destruct op; cbn [String.length branch_code]; lia. }
  exists (encode lt i). split; [done |]. split; [done |].
  cbn [SMA.pass2 SMA.line SMA.addr]. rewrite Hasm. cbn [mbind result_bind].
  assert ((encode lt i =? "")%string = false) as ->.
  { apply String.eqb_neq. intros E. rewrite E in Hlen. unfold Py.len in Hlen.
    cbn [String.length] in Hlen. lia. }
  assert ((Py.len (encode lt i) =? 32) = false) as -> by lia.
  reflexivity.
Qed.

Lemma label_address_overflow_witness :
  ∃ word,
    SMA.assemble_line "ife %r1, %r2, far" {[ "far" := 65536 ]} 0 = Ok (Some word) ∧
    32 < Py.len word ∧
    SMA.pass2 {[ "far" := 65536 ]}
      [ {| SMA.line := "ife %r1, %r2, far"; SMA.addr := 0; SMA.orig_line := 1 |} ] []
      = Raise (ValueError (InternalWidth "ife %r1, %r2, far" (Py.len word))).
Proof.
  apply (label_address_overflow {[ "far" := 65536 ]} 0 1 "ife %r1, %r2, far"
           (Branch Ife 1 2 "far") "far" 65536).
  - exists "ife", ["%r1, %r2, far"]. split; [reflexivity |]. split; [reflexivity |].
    exists "%r1, %r2, far". split; reflexivity.
  - cbn [encodable]. unfold is_register. split; [lia |]. split; [lia |]. by eexists.
  - reflexivity.
  - reflexivity.
  - cbn. lia.
Defined.

(** * Accepted lines *)

(** ** The round trip of every accepted line *)

(** The branches of [assemble_line] for a mnemonic that may stand
    alone on its line. *)
Lemma tokens_reg3 op line m ps lt a :
  Py.split_ws_1 line = m :: ps → Py.lower m = reg3_name op →
  SMA.assemble_line line lt a =
    match Py.strip <$> Py.split_char "," (hd "" ps) with
    | [o0; o1; o2] =>
        rs ← SMA.parse_register o0;
        rt ← SMA.parse_register o1;
        rd ← SMA.parse_register o2;
        Ok (Some (reg3_code op +:+ rs +:+ rt +:+ rd +:+ Py.repeat_char "0" 11))
    | _ => Raise (ValueError (OperandCount (reg3_name op) (hd "" ps)))
    end.
Proof. intros H Hl. destruct op; assemble_branch H Hl. Qed.

Lemma tokens_imm op line m ps lt a :
  Py.split_ws_1 line = m :: ps → Py.lower m = imm_name op →
  SMA.assemble_line line lt a =
    match Py.strip <$> Py.split_char "," (hd "" ps) with
    | [o0; o1; o2] =>
        rs ← SMA.parse_register o0;
        imm ← SMA.parse_immediate o1 15;
        rd ← SMA.parse_register o2;
        Ok (Some (imm_code op +:+ rs +:+ imm +:+ rd))
    | _ => Raise (ValueError (OperandCount (imm_name op) (hd "" ps)))
    end.
Proof. intros H Hl. destruct op; assemble_branch H Hl. Qed.

Lemma tokens_ldwd line m ps lt a :
  Py.split_ws_1 line = m :: ps → Py.lower m = "ldwd" →
  SMA.assemble_line line lt a =
    match Py.strip <$> Py.split_char "," (hd "" ps) with
    | [o0; o1] =>
        '(offset_val, rs_str) ← SMA.parse_memory_address o0;
        rt ← SMA.parse_register o1;
        rs ← SMA.parse_register rs_str;
        offset_bin ← SMA.parse_immediate (Py.str offset_val) 16;
        Ok (Some ("000110" +:+ rs +:+ rt +:+ offset_bin))
    | _ => Raise (ValueError (OperandCount "ldwd" (hd "" ps)))
    end.
Proof. intros H Hl. assemble_branch H Hl. Qed.

Lemma tokens_srwd line m ps lt a :
  Py.split_ws_1 line = m :: ps → Py.lower m = "srwd" →
  SMA.assemble_line line lt a =
    match Py.strip <$> Py.split_char "," (hd "" ps) with
    | [o0; o1] =>
        rt ← SMA.parse_register o0;
        '(offset_val, rs_str) ← SMA.parse_memory_address o1;
        rs ← SMA.parse_register rs_str;
        offset_bin ← SMA.parse_immediate (Py.str offset_val) 16;
        Ok (Some ("000111" +:+ rs +:+ rt +:+ offset_bin))
    | _ => Raise (ValueError (OperandCount "srwd" (hd "" ps)))
    end.
Proof. intros H Hl. assemble_branch H Hl. Qed.

Lemma tokens_jmp line m ps lt a :
  Py.split_ws_1 line = m :: ps → Py.lower m = "jmp" →
  SMA.assemble_line line lt a =
    match Py.strip <$> Py.split_char "," (hd "" ps) with
    | [label] =>
        address ← SMA.lookup_label lt label;
        Ok (Some ("001000" +:+ Py.format_bin address 26))
    | _ => Raise (ValueError (OperandCount "jmp" (hd "" ps)))
    end.
Proof. intros H Hl. assemble_branch H Hl. Qed.

Lemma tokens_pint line m ps lt a :
  Py.split_ws_1 line = m :: ps → Py.lower m = "pint" →
  SMA.assemble_line line lt a =
    match Py.strip <$> Py.split_char "," (hd "" ps) with
    | [o0] =>
        rs ← SMA.parse_register o0;
        Ok (Some ("001001" +:+ rs +:+ Py.repeat_char "0" 21))
    | _ => Raise (ValueError (OperandCount "pint" (hd "" ps)))
    end.
Proof. intros H Hl. assemble_branch H Hl. Qed.

Lemma tokens_pstr line m ps lt a :
  Py.split_ws_1 line = m :: ps → Py.lower m = "pstr" →
  SMA.assemble_line line lt a =
    match Py.strip <$> Py.split_char "," (hd "" ps) with
    | [o0] =>
        '(offset_val, rs_str) ← SMA.parse_memory_address o0;
        rs ← SMA.parse_register rs_str;
        offset_bin ← SMA.parse_immediate (Py.str offset_val) 21;
        Ok (Some ("001010" +:+ offset_bin +:+ rs))
    | _ => Raise (ValueError (OperandCount "pstr" (hd "" ps)))
    end.
Proof. intros H Hl. assemble_branch H Hl. Qed.

Lemma tokens_for line m ps lt a :
  Py.split_ws_1 line = m :: ps → Py.lower m = "for" →
  SMA.assemble_line line lt a =
    match Py.strip <$> Py.split_char "," (hd "" ps) with
    | [o0; label] =>
        rs ← SMA.parse_register o0;
        address ← SMA.lookup_label lt label;
        Ok (Some ("001110" +:+ rs +:+ Py.format_bin address 21))
    | _ => Raise (ValueError (OperandCount "for" (hd "" ps)))
    end.
Proof. intros H Hl. assemble_branch H Hl. Qed.

Lemma tokens_reg2 op line m ps lt a :
  Py.split_ws_1 line = m :: ps → Py.lower m = reg2_name op →
  SMA.assemble_line line lt a =
    match Py.strip <$> Py.split_char "," (hd "" ps) with
    | [o0; o1] =>
        rs ← SMA.parse_register o0;
        rd ← SMA.parse_register o1;
        Ok (Some (reg2_code op +:+ rs +:+ rd +:+ Py.repeat_char "0" 16))
    | _ => Raise (ValueError (OperandCount (reg2_name op) (hd "" ps)))
    end.
Proof. intros H Hl. destruct op; assemble_branch H Hl. Qed.

Lemma tokens_branch op line m ps lt a :
  Py.split_ws_1 line = m :: ps → Py.lower m = branch_name op →
  SMA.assemble_line line lt a =
    match Py.strip <$> Py.split_char "," (hd "" ps) with
    | [o0; o1; label] =>
        rs ← SMA.parse_register o0;
        rt ← SMA.parse_register o1;
        address ← SMA.lookup_label lt label;
        Ok (Some (branch_code op +:+ rs +:+ rt +:+ Py.format_bin address 16))
    | _ => Raise (ValueError (OperandCount (branch_name op) (hd "" ps)))
    end.
Proof. intros H Hl. destruct op; assemble_branch H Hl. Qed.

Lemma tokens_ldad line m ps lt a :
  Py.split_ws_1 line = m :: ps → Py.lower m = "ldad" →
  SMA.assemble_line line lt a =
    match Py.strip <$> Py.split_char "," (hd "" ps) with
    | [label; o1] =>
        rd ← SMA.parse_register o1;
        match lt !! label with
        | None => Raise (ValueError (UndefinedVariable label))
        | Some address => Ok (Some ("010100" +:+ Py.format_bin address 21 +:+ rd))
        end
    | _ => Raise (ValueError (OperandCount "ldad" (hd "" ps)))
    end.
Proof. intros H Hl. assemble_branch H Hl. Qed.

Lemma tokens_ldim line m ps lt a :
  Py.split_ws_1 line = m :: ps → Py.lower m = "ldim" →
  SMA.assemble_line line lt a =
    match Py.strip <$> Py.split_char "," (hd "" ps) with
    | [o0; o1] =>
        imm ← SMA.parse_immediate o0 21;
        rd ← SMA.parse_register o1;
        Ok (Some ("010101" +:+ imm +:+ rd))
    | _ => Raise (ValueError (OperandCount "ldim" (hd "" ps)))
    end.
Proof. intros H Hl. assemble_branch H Hl. Qed.

(** [str] is injective. *)
Lemma str_inj v v' : Py.str v = Py.str v' → v = v'.
Proof.
  pose (f := λ s, match s with
                  | "" => 0
                  | String c r =>
                      if Ascii.eqb c "-" then - digits_value 10 0 r else digits_value 10 0 s
                  end).
  assert (∀ x, f (Py.str x) = x) as Hf.
  { intros [|p|p]; [reflexivity | |].
    - rewrite str_pos. destruct (pos_digits_first p) as (c & t & E & Hc & _).
      pose proof (pos_digits_value p) as Hv. rewrite E in Hv |- *. cbn [f].
      by destruct (class_separates Py.is_digit c "-" Hc eq_refl) as [_ ->].
    - rewrite str_neg. cbn [f]. change (Ascii.eqb "-" "-") with true. cbv iota.
      by rewrite pos_digits_value. }
  intros E. by rewrite <- (Hf v), <- (Hf v'), E.
Qed.

Lemma reg_name_inj r r' : reg_name r = reg_name r' → r = r'.
Proof. unfold reg_name. intros H%append_inj_l. by apply str_inj. Qed.

(** What the operand parsers return, read backwards. *)
Lemma parse_register_inv t c :
  SMA.parse_register t = Ok c →
  ∃ r, is_register r ∧ Py.remove_char "," t = reg_name r ∧ c = reg_field r.
Proof.
  unfold SMA.parse_register. destruct (SMA.registers !! _) as [c'|] eqn:E; [| done].
  intros [= <-]. apply register_items_elem in E as (r & Hr & Hn & ->). by exists r.
Qed.

Lemma register_read t r :
  Py.remove_char "," t = reg_name r → is_register r →
  SMA.parse_register t = Ok (reg_field r).
Proof.
  intros Ht Hr. destruct (register_facts r Hr) as (Hp & _ & _ & Hpl).
  unfold SMA.parse_register in *. rewrite (remove_comma_plain _ Hpl) in Hp. by rewrite Ht.
Qed.

Lemma parse_immediate_inv t (bits : nat) f :
  (0 < bits)%nat → SMA.parse_immediate t (Z.of_nat bits) = Ok f →
  ∃ v, Py.int 10 (Py.remove_char "," t) = Some v ∧ fits_field (Z.of_nat bits) v ∧
    f = imm_field bits v.
Proof.
  intros Hb H. destruct (Py.int 10 (Py.remove_char "," t)) as [v|] eqn:E.
  - rewrite (parse_immediate_value t v _ E) in H by lia.
    destruct (Z.ltb_spec v (- 2 ^ (Z.of_nat bits - 1))); [done |].
    destruct (Z.ltb_spec (2 ^ Z.of_nat bits - 1) v); [done |].
    injection H as <-. exists v. split; [done |]. split; [unfold fits_field; lia |].
    unfold imm_field. by rewrite Nat2Z.id.
  - unfold SMA.parse_immediate in H. by rewrite E in H.
Qed.

Lemma immediate_read t (bits : nat) v :
  (0 < bits)%nat → Py.int 10 (Py.remove_char "," t) = Some v →
  fits_field (Z.of_nat bits) v →
  SMA.parse_immediate t (Z.of_nat bits) = Ok (imm_field bits v).
Proof.
  intros Hb E [Hlo Hhi]. rewrite (parse_immediate_value t v _ E) by lia.
  assert ((v <? - 2 ^ (Z.of_nat bits - 1)) = false) as -> by lia.
  assert ((2 ^ Z.of_nat bits - 1 <? v) = false) as -> by lia.
  unfold imm_field. by rewrite Nat2Z.id.
Qed.

(** [int] reads the numeral that [str] writes as the number written, if
    it reads it. *)
Lemma int_str_inv v v' : Py.int 10 (Py.str v) = Some v' → v' = v.
Proof.
  intros H. destruct (Z_lt_le_dec (Z.abs v) (10 ^ Py.max_str_digits)) as [Hs | Hl].
  - rewrite int_str in H by exact Hs. by injection H.
  - by rewrite int_str_long in H.
Qed.

(** The offset that [parse_memory_address] returns, encoded. *)
Lemma offset_inv off (bits : nat) f :
  (0 < bits)%nat → SMA.parse_immediate (Py.str off) (Z.of_nat bits) = Ok f →
  fits_field (Z.of_nat bits) off ∧ f = imm_field bits off.
Proof.
  intros Hb H. apply parse_immediate_inv in H as (v & E & Hfit & ->); [| done].
  rewrite remove_comma_str in E. by apply int_str_inv in E as ->.
Qed.

Lemma offset_read off (bits : nat) :
  (0 < bits)%nat → Z.of_nat bits ≤ widest_field → fits_field (Z.of_nat bits) off →
  SMA.parse_immediate (Py.str off) (Z.of_nat bits) = Ok (imm_field bits off).
Proof. intros Hb Hw Hfit. by apply imm_field_accepted. Qed.

(** The register that [parse_memory_address] returns holds no comma. *)
Lemma memory_register t off reg :
  SMA.parse_memory_address t = Ok (off, reg) → Py.remove_char "," reg = reg.
Proof.
  intros (rest & rs & [Hrs _] & -> & _)%parse_memory_address_ok.
  apply remove_char_absent. rewrite all_chars_app. apply andb_true_iff. split; [done |].
  apply all_chars_impl with (2 := Hrs). intros c. ascii_cases c.
Qed.

Lemma parse_memory_register t off reg c :
  SMA.parse_memory_address t = Ok (off, reg) → SMA.parse_register reg = Ok c →
  ∃ r, is_register r ∧ reg = reg_name r ∧ c = reg_field r.
Proof.
  intros Hm (r & Hr & Hn & ->)%parse_register_inv.
  rewrite (memory_register t off reg Hm) in Hn. by exists r.
Qed.

(** The operand lists of one, two and three operands. *)
Lemma reads_1 a l :
  Forall2 operand_read [a] l → ∃ x, l = [x] ∧ operand_read a x.
Proof.
  intros (x & l1 & Hx & ->%Forall2_nil_inv_l & ->)%Forall2_cons_inv_l. by exists x.
Qed.

Lemma reads_2 a b l :
  Forall2 operand_read [a; b] l → ∃ x y, l = [x; y] ∧ operand_read a x ∧ operand_read b y.
Proof.
  intros (x & l1 & Hx & (y & -> & Hy)%reads_1 & ->)%Forall2_cons_inv_l. by exists x, y.
Qed.

Lemma reads_3 a b c l :
  Forall2 operand_read [a; b; c] l →
  ∃ x y z, l = [x; y; z] ∧ operand_read a x ∧ operand_read b y ∧ operand_read c z.
Proof.
  intros (x & l1 & Hx & (y & z & -> & Hy & Hz)%reads_2 & ->)%Forall2_cons_inv_l.
  by exists x, y, z.
Qed.

Lemma fits_signed_field bits v : 0 < bits → fits_signed bits v → fits_field bits v.
Proof.
  unfold fits_signed, fits_field. intros Hb [Hlo Hhi].
  assert (2 ^ (bits - 1) ≤ 2 ^ bits) by (apply Z.pow_le_mono_r; lia). lia.
Qed.

Lemma within_encodable lt i : within_fields lt i → encodable lt i.
Proof.
  assert (∀ bits x, bound_within lt bits x → is_Some (lt !! x)) as Ht
    by (intros bits x (address & Hl & _); by exists address).
  destruct i; cbn [within_fields encodable]; try done; intros Hv;
    repeat match goal with H : _ ∧ _ |- _ => destruct H end;
    repeat match goal with
           | H : fits_signed _ _ |- _ => apply fits_signed_field in H; [| lia]
           end; eauto 6.
Qed.

Lemma valid_within lt i : round_trip_valid lt i → within_fields lt i.
Proof.
  assert (∀ bits x, is_target lt bits x → bound_within lt bits x) as Ht
    by (by intros bits x [_ H]).
  destruct i; cbn [within_fields round_trip_valid]; try done; intros Hv;
    repeat match goal with H : _ ∧ _ |- _ => destruct H end; eauto 6.
Qed.

Ltac read_operands H :=
  first [ apply reads_3 in H as (? & ? & ? & H & ? & ? & ?)
        | apply reads_2 in H as (? & ? & H & ? & ?)
        | apply reads_1 in H as (? & H & ?) ];
  cbn [operand_read] in *.

Ltac bind_read bits :=
  match goal with
  | Hint : Py.int 10 (Py.remove_char "," ?t) = Some ?v, Hfit : fits_field _ ?v |- _ =>
      let Hi := fresh in
      pose proof (immediate_read t bits v ltac:(lia) Hint Hfit) as Hi;
      let z := eval cbv in (Z.of_nat bits) in
      change (Z.of_nat bits) with z in Hi; rewrite Hi; clear Hi;
      cbn [mbind result_bind]
  end.

Ltac bind_register :=
  lazymatch goal with
  | |- mbind _ (SMA.parse_register (reg_name ?r)) = _ =>
      rewrite (proj1 (register_facts r ltac:(assumption))); cbn [mbind result_bind]
  | |- mbind _ (SMA.parse_register ?t) = _ =>
      match goal with
      | Hn : Py.remove_char "," t = reg_name ?r, Hr : is_register ?r |- _ =>
          rewrite (register_read t r Hn Hr); cbn [mbind result_bind]
      end
  end.

Ltac bind_memory :=
  match goal with
  | H : SMA.parse_memory_address ?t = _ |- mbind _ (SMA.parse_memory_address ?t) = _ =>
      rewrite H; cbn [mbind result_bind]
  end.

Ltac bind_offset bits :=
  match goal with
  | Hfit : fits_field _ ?v |- _ => bind_imm bits v Hfit
  end.

(** A line parsed as an encodable instruction is assembled to the word
    of that instruction. *)
Lemma parsed_encode lt ca text i :
  parsed_as text i → encodable lt i →
  SMA.assemble_line text lt ca = Ok (Some (encode lt i)).
Proof.
  intros (m & ps & Hs & Hm & Hops) Hv.
  destruct i; cbn [encodable mnemonic operands encode] in Hv, Hm, Hops |- *;
    try read_operands Hops; unfold target_field;
    repeat match goal with H : _ ∧ _ |- _ => destruct H end.
  - rewrite (tokens_reg3 op text m ps lt ca Hs Hm), Hops.
    do 3 bind_register. reflexivity.
  - rewrite (tokens_imm op text m ps lt ca Hs Hm), Hops.
    bind_register. bind_read 15%nat. bind_register. reflexivity.
  - rewrite (tokens_ldwd text m ps lt ca Hs Hm), Hops.
    bind_memory. do 2 bind_register. bind_offset 16%nat. reflexivity.
  - rewrite (tokens_srwd text m ps lt ca Hs Hm), Hops.
    bind_register. bind_memory. bind_register. bind_offset 16%nat. reflexivity.
  - subst. destruct (lookup_bound lt target Hv) as (addr & Hl & Hlk & ->).
    rewrite (tokens_jmp text m ps lt ca Hs Hm), Hops, Hlk. reflexivity.
  - rewrite (tokens_pint text m ps lt ca Hs Hm), Hops. bind_register. reflexivity.
  - rewrite (tokens_pstr text m ps lt ca Hs Hm), Hops.
    bind_memory. bind_register. bind_offset 21%nat. reflexivity.
  - subst. match goal with H : is_Some _ |- _ =>
      destruct (lookup_bound lt target H) as (addr & Hl & Hlk & ->) end.
    rewrite (tokens_for text m ps lt ca Hs Hm), Hops.
    bind_register. rewrite Hlk. reflexivity.
  - rewrite (tokens_reg2 op text m ps lt ca Hs Hm), Hops.
    do 2 bind_register. reflexivity.
  - subst. match goal with H : is_Some _ |- _ =>
      destruct (lookup_bound lt target H) as (addr & Hl & Hlk & ->) end.
    rewrite (tokens_branch op text m ps lt ca Hs Hm), Hops.
    do 2 bind_register. rewrite Hlk. reflexivity.
  - subst. match goal with H : is_Some _ |- _ =>
      destruct (lookup_bound lt target H) as (addr & Hl & Hlk & Hd) end.
    rewrite (tokens_ldad text m ps lt ca Hs Hm), Hops.
    bind_register. by rewrite Hl.
  - rewrite (tokens_ldim text m ps lt ca Hs Hm), Hops.
    bind_read 21%nat. bind_register. reflexivity.
  - by eapply assemble_clr.
  - by eapply assemble_end.
Qed.

(** ** Every line that [assemble_line] accepts is parsed as an instruction *)

Lemma accepted_tokens text lt ca word :
  SMA.assemble_line text lt ca = Ok (Some word) →
  ∃ m ps, Py.split_ws_1 text = m :: ps ∧
    (Py.lower m = "clr" ∨ Py.lower m = "end" ∨ ∃ c, (Py.lower m, c) ∈ SMA.opcode_items).
Proof.
  unfold SMA.assemble_line. destruct (Py.split_ws_1 text) as [|m ps]; [done |].
  cbv zeta. intros H. exists m, ps. split; [done |].
  destruct (Py.lower m =? "")%string; [done |].
  destruct (String.eqb_spec (Py.lower m) "clr"); [by left |].
  destruct (String.eqb_spec (Py.lower m) "end"); [by right; left |].
  destruct (SMA.opcodes !! Py.lower m) as [c|] eqn:E; [| done].
  right. right. exists c. apply elem_of_list_to_map in E; [done | apply opcode_items_keys].
Qed.

Ltac reads_intro :=
  cbn [operands];
  repeat (constructor; [cbn [operand_read]; first [assumption | reflexivity] |]);
  constructor.

Ltac inv_operands H Hops :=
  match type of H with
  | match ?l with _ => _ end = _ =>
      destruct l as [|o0 [|o1 [|o2 [|o3 os]]]] eqn:Hops; try discriminate H
  end.

Ltac inv_bind H E :=
  lazymatch type of H with
  | mbind _ ?p = _ =>
      destruct p eqn:E; [| discriminate H]; cbn [mbind result_bind] in H
  end.

Lemma parsed_intro lt text m word ps i :
  Py.split_ws_1 text = m :: ps →
  Py.lower m = mnemonic i →
  match operands i with
  | [] => True
  | ops => Forall2 operand_read ops (Py.strip <$> Py.split_char "," (hd "" ps))
  end →
  encodable lt i → word = encode lt i →
  ∃ i, parsed_as text i ∧ encodable lt i ∧ word = encode lt i.
Proof. intros Hs Hm Hops Hv Hw. exists i. split; [by exists m, ps | done]. Qed.

Lemma inv_reg3 lt ca text m word ps op :
  Py.split_ws_1 text = m :: ps →
  SMA.assemble_line text lt ca = Ok (Some word) →
  Py.lower m = reg3_name op →
  ∃ i, parsed_as text i ∧ encodable lt i ∧ word = encode lt i.
Proof.
  intros text_split H Hm.
  rewrite (tokens_reg3 op text m ps lt ca text_split Hm) in H. inv_operands H Hops.
  inv_bind H E0. inv_bind H E1. inv_bind H E2. injection H as <-.
  apply parse_register_inv in E0 as (r0 & Hr0 & Hn0 & ->).
  apply parse_register_inv in E1 as (r1 & Hr1 & Hn1 & ->).
  apply parse_register_inv in E2 as (r2 & Hr2 & Hn2 & ->).
  apply (parsed_intro lt text m _ ps (Reg3 op r0 r1 r2) text_split Hm); [rewrite Hops; reads_intro | by cbn | done].
Qed.

Lemma inv_imm lt ca text m word ps op :
  Py.split_ws_1 text = m :: ps →
  SMA.assemble_line text lt ca = Ok (Some word) →
  Py.lower m = imm_name op →
  ∃ i, parsed_as text i ∧ encodable lt i ∧ word = encode lt i.
Proof.
  intros text_split H Hm.
  rewrite (tokens_imm op text m ps lt ca text_split Hm) in H. inv_operands H Hops.
  inv_bind H E0. inv_bind H E1. inv_bind H E2. injection H as <-.
  apply parse_register_inv in E0 as (r0 & Hr0 & Hn0 & ->).
  apply (parse_immediate_inv o1 15%nat) in E1 as (v & Hint & Hfit & ->); [| lia].
  apply parse_register_inv in E2 as (r2 & Hr2 & Hn2 & ->).
  apply (parsed_intro lt text m _ ps (ImmArith op r0 v r2) text_split Hm); [rewrite Hops; reads_intro | by cbn | done].
Qed.

Lemma inv_ldwd lt ca text m word ps :
  Py.split_ws_1 text = m :: ps →
  SMA.assemble_line text lt ca = Ok (Some word) →
  Py.lower m = "ldwd" →
  ∃ i, parsed_as text i ∧ encodable lt i ∧ word = encode lt i.
Proof.
  intros text_split H Hm.
  rewrite (tokens_ldwd text m ps lt ca text_split Hm) in H. inv_operands H Hops.
  destruct (SMA.parse_memory_address o0) as [[off reg]|] eqn:Em; [| discriminate H].
  cbn [mbind result_bind] in H.
  inv_bind H E1. inv_bind H E2. inv_bind H Ei. injection H as <-.
  apply parse_register_inv in E1 as (rt & Hrt & Hnt & ->).
  destruct (parse_memory_register _ _ _ _ Em E2) as (rs & Hrs & -> & ->).
  apply (offset_inv off 16%nat) in Ei as [Hfit ->]; [| lia].
  apply (parsed_intro lt text m _ ps (LoadWord off rs rt) text_split Hm); [rewrite Hops; reads_intro | by cbn | done].
Qed.

Lemma inv_srwd lt ca text m word ps :
  Py.split_ws_1 text = m :: ps →
  SMA.assemble_line text lt ca = Ok (Some word) →
  Py.lower m = "srwd" →
  ∃ i, parsed_as text i ∧ encodable lt i ∧ word = encode lt i.
Proof.
  intros text_split H Hm.
  rewrite (tokens_srwd text m ps lt ca text_split Hm) in H. inv_operands H Hops.
  inv_bind H E1.
  destruct (SMA.parse_memory_address o1) as [[off reg]|] eqn:Em; [| discriminate H].
  cbn [mbind result_bind] in H.
  inv_bind H E2. inv_bind H Ei. injection H as <-.
  apply parse_register_inv in E1 as (rt & Hrt & Hnt & ->).
  destruct (parse_memory_register _ _ _ _ Em E2) as (rs & Hrs & -> & ->).
  apply (offset_inv off 16%nat) in Ei as [Hfit ->]; [| lia].
  apply (parsed_intro lt text m _ ps (StoreWord rt off rs) text_split Hm); [rewrite Hops; reads_intro | by cbn | done].
Qed.

Lemma inv_jmp lt ca text m word ps :
  Py.split_ws_1 text = m :: ps →
  SMA.assemble_line text lt ca = Ok (Some word) →
  Py.lower m = "jmp" →
  ∃ i, parsed_as text i ∧ encodable lt i ∧ word = encode lt i.
Proof.
  intros text_split H Hm.
  rewrite (tokens_jmp text m ps lt ca text_split Hm) in H. inv_operands H Hops.
  unfold SMA.lookup_label in H. destruct (lt !! o0) as [address|] eqn:El; [| discriminate H].
  injection H as <-.
  apply (parsed_intro lt text m _ ps (Jump o0) text_split Hm); [rewrite Hops; reads_intro | by cbn | ].
  cbn [encode]. unfold target_field. by rewrite El.
Qed.

Lemma inv_pint lt ca text m word ps :
  Py.split_ws_1 text = m :: ps →
  SMA.assemble_line text lt ca = Ok (Some word) →
  Py.lower m = "pint" →
  ∃ i, parsed_as text i ∧ encodable lt i ∧ word = encode lt i.
Proof.
  intros text_split H Hm.
  rewrite (tokens_pint text m ps lt ca text_split Hm) in H. inv_operands H Hops.
  inv_bind H E0. injection H as <-.
  apply parse_register_inv in E0 as (r0 & Hr0 & Hn0 & ->).
  apply (parsed_intro lt text m _ ps (PrintInt r0) text_split Hm); [rewrite Hops; reads_intro | by cbn | done].
Qed.

Lemma inv_pstr lt ca text m word ps :
  Py.split_ws_1 text = m :: ps →
  SMA.assemble_line text lt ca = Ok (Some word) →
  Py.lower m = "pstr" →
  ∃ i, parsed_as text i ∧ encodable lt i ∧ word = encode lt i.
Proof.
  intros text_split H Hm.
  rewrite (tokens_pstr text m ps lt ca text_split Hm) in H. inv_operands H Hops.
  destruct (SMA.parse_memory_address o0) as [[off reg]|] eqn:Em; [| discriminate H].
  cbn [mbind result_bind] in H.
  inv_bind H E2. inv_bind H Ei. injection H as <-.
  destruct (parse_memory_register _ _ _ _ Em E2) as (rs & Hrs & -> & ->).
  apply (offset_inv off 21%nat) in Ei as [Hfit ->]; [| lia].
  apply (parsed_intro lt text m _ ps (PrintStr off rs) text_split Hm); [rewrite Hops; reads_intro | by cbn | done].
Qed.

Lemma inv_for lt ca text m word ps :
  Py.split_ws_1 text = m :: ps →
  SMA.assemble_line text lt ca = Ok (Some word) →
  Py.lower m = "for" →
  ∃ i, parsed_as text i ∧ encodable lt i ∧ word = encode lt i.
Proof.
  intros text_split H Hm.
  rewrite (tokens_for text m ps lt ca text_split Hm) in H. inv_operands H Hops.
  inv_bind H E0.
  unfold SMA.lookup_label in H. destruct (lt !! o1) as [address|] eqn:El; [| discriminate H].
  injection H as <-.
  apply parse_register_inv in E0 as (r0 & Hr0 & Hn0 & ->).
  apply (parsed_intro lt text m _ ps (ForLoop r0 o1) text_split Hm); [rewrite Hops; reads_intro | by cbn | ].
  cbn [encode]. unfold target_field. by rewrite El.
Qed.

Lemma inv_reg2 lt ca text m word ps op :
  Py.split_ws_1 text = m :: ps →
  SMA.assemble_line text lt ca = Ok (Some word) →
  Py.lower m = reg2_name op →
  ∃ i, parsed_as text i ∧ encodable lt i ∧ word = encode lt i.
Proof.
  intros text_split H Hm.
  rewrite (tokens_reg2 op text m ps lt ca text_split Hm) in H. inv_operands H Hops.
  inv_bind H E0. inv_bind H E1. injection H as <-.
  apply parse_register_inv in E0 as (r0 & Hr0 & Hn0 & ->).
  apply parse_register_inv in E1 as (r1 & Hr1 & Hn1 & ->).
  apply (parsed_intro lt text m _ ps (Reg2 op r0 r1) text_split Hm); [rewrite Hops; reads_intro | by cbn | done].
Qed.

Lemma inv_branch lt ca text m word ps op :
  Py.split_ws_1 text = m :: ps →
  SMA.assemble_line text lt ca = Ok (Some word) →
  Py.lower m = branch_name op →
  ∃ i, parsed_as text i ∧ encodable lt i ∧ word = encode lt i.
Proof.
  intros text_split H Hm.
  rewrite (tokens_branch op text m ps lt ca text_split Hm) in H. inv_operands H Hops.
  inv_bind H E0. inv_bind H E1.
  unfold SMA.lookup_label in H. destruct (lt !! o2) as [address|] eqn:El; [| discriminate H].
  injection H as <-.
  apply parse_register_inv in E0 as (r0 & Hr0 & Hn0 & ->).
  apply parse_register_inv in E1 as (r1 & Hr1 & Hn1 & ->).
  apply (parsed_intro lt text m _ ps (Branch op r0 r1 o2) text_split Hm); [rewrite Hops; reads_intro | by cbn | ].
  cbn [encode]. unfold target_field. by rewrite El.
Qed.

Lemma inv_ldad lt ca text m word ps :
  Py.split_ws_1 text = m :: ps →
  SMA.assemble_line text lt ca = Ok (Some word) →
  Py.lower m = "ldad" →
  ∃ i, parsed_as text i ∧ encodable lt i ∧ word = encode lt i.
Proof.
  intros text_split H Hm.
  rewrite (tokens_ldad text m ps lt ca text_split Hm) in H. inv_operands H Hops.
  inv_bind H E1. destruct (lt !! o0) as [address|] eqn:El; [| discriminate H].
  injection H as <-.
  apply parse_register_inv in E1 as (r1 & Hr1 & Hn1 & ->).
  apply (parsed_intro lt text m _ ps (LoadAddr o0 r1) text_split Hm); [rewrite Hops; reads_intro | by cbn | ].
  cbn [encode]. unfold target_field. by rewrite El.
Qed.

Lemma inv_ldim lt ca text m word ps :
  Py.split_ws_1 text = m :: ps →
  SMA.assemble_line text lt ca = Ok (Some word) →
  Py.lower m = "ldim" →
  ∃ i, parsed_as text i ∧ encodable lt i ∧ word = encode lt i.
Proof.
  intros text_split H Hm.
  rewrite (tokens_ldim text m ps lt ca text_split Hm) in H. inv_operands H Hops.
  inv_bind H E0. inv_bind H E1. injection H as <-.
  apply (parse_immediate_inv o0 21%nat) in E0 as (v & Hint & Hfit & ->); [| lia].
  apply parse_register_inv in E1 as (r1 & Hr1 & Hn1 & ->).
  apply (parsed_intro lt text m _ ps (LoadImm v r1) text_split Hm); [rewrite Hops; reads_intro | by cbn | done].
Qed.


Lemma parsed_inv lt ca text word :
  SMA.assemble_line text lt ca = Ok (Some word) →
  ∃ i, parsed_as text i ∧ encodable lt i ∧ word = encode lt i.
Proof.
  intros H. destruct (accepted_tokens _ _ _ _ H) as (m & ps & Hs & [Hm | [Hm | [c Hin]]]).
  - rewrite (assemble_clr text m ps lt ca Hs Hm) in H. injection H as <-.
    exists Clear. split; [by exists m, ps | done].
  - rewrite (assemble_end text m ps lt ca Hs Hm) in H. injection H as <-.
    exists End. split; [by exists m, ps | done].
  - unfold SMA.opcode_items in Hin.
    repeat (apply elem_of_cons in Hin as [[= Hm _] | Hin]);
      [.. | by apply elem_of_nil in Hin].
    all: first
      [ rewrite (assemble_clr text m ps lt ca Hs Hm) in H; injection H as <-;
        exists Clear; split; [by exists m, ps | done]
      | rewrite (assemble_end text m ps lt ca Hs Hm) in H; injection H as <-;
        exists End; split; [by exists m, ps | done]
      | exact (inv_reg3 lt ca text m word ps Cmb Hs H Hm)
      | exact (inv_reg3 lt ca text m word ps Mns Hs H Hm)
      | exact (inv_reg3 lt ca text m word ps Mlt Hs H Hm)
      | exact (inv_reg3 lt ca text m word ps Dvd Hs H Hm)
      | exact (inv_reg3 lt ca text m word ps Mdlo Hs H Hm)
      | exact (inv_imm lt ca text m word ps Cmbi Hs H Hm)
      | exact (inv_imm lt ca text m word ps Mnsi Hs H Hm)
      | exact (inv_imm lt ca text m word ps Mlti Hs H Hm)
      | exact (inv_imm lt ca text m word ps Dvdi Hs H Hm)
      | exact (inv_ldwd lt ca text m word ps Hs H Hm)
      | exact (inv_srwd lt ca text m word ps Hs H Hm)
      | exact (inv_jmp lt ca text m word ps Hs H Hm)
      | exact (inv_pint lt ca text m word ps Hs H Hm)
      | exact (inv_pstr lt ca text m word ps Hs H Hm)
      | exact (inv_for lt ca text m word ps Hs H Hm)
      | exact (inv_reg2 lt ca text m word ps Sqrt Hs H Hm)
      | exact (inv_reg2 lt ca text m word ps Sqr Hs H Hm)
      | exact (inv_branch lt ca text m word ps Ife Hs H Hm)
      | exact (inv_branch lt ca text m word ps Ifne Hs H Hm)
      | exact (inv_ldad lt ca text m word ps Hs H Hm)
      | exact (inv_ldim lt ca text m word ps Hs H Hm) ].
Qed.

Lemma memory_read_unique t o r o' r' :
  SMA.parse_memory_address t = Ok (o, reg_name r) →
  SMA.parse_memory_address t = Ok (o', reg_name r') → o = o' ∧ r = r'.
Proof.
  intros H H'. rewrite H in H'. injection H'. intros Hn Ho.
  split; [exact Ho | apply str_inj; exact Hn].
Qed.

(** A line is parsed as one instruction at most. *)
Lemma parsed_unique text i i' : parsed_as text i → parsed_as text i' → i = i'.
Proof.
  intros (m & ps & Hs & Hm & Hops) (m' & ps' & Hs' & Hm' & Hops').
  rewrite Hs in Hs'. injection Hs' as <- <-. rewrite Hm in Hm'. clear Hm Hs.
  destruct i as [[] | [] | | | | | | | [] | [] | | | |],
           i' as [[] | [] | | | | | | | [] | [] | | | |];
    try discriminate Hm'; try reflexivity; clear Hm';
    cbn [operands] in Hops, Hops'; read_operands Hops; read_operands Hops';
    rewrite Hops in Hops'; injection Hops'; intros; subst;
    repeat match goal with
           | H1 : Py.remove_char "," ?t = reg_name ?r,
             H2 : Py.remove_char "," ?t = reg_name ?r' |- _ =>
               assert (r = r') as -> by (apply reg_name_inj; congruence); clear H2
           | H1 : Py.int 10 ?t = Some ?v, H2 : Py.int 10 ?t = Some ?v' |- _ =>
               assert (v = v') as -> by congruence; clear H2
           | H1 : SMA.parse_memory_address ?t = Ok (?o, reg_name ?r),
             H2 : SMA.parse_memory_address ?t = Ok (?o', reg_name ?r') |- _ =>
               destruct (memory_read_unique _ _ _ _ _ H1 H2) as [-> ->]; clear H2
           end;
    congruence.
Qed.

(** The word of an instruction within its fields is decoded as that
    instruction, whatever the name of its label operand. *)
Lemma encode_decodes_within lt i a :
  within_fields lt i →
  is_word (encode lt i) ∧
  SMD.disassemble_instruction (encode lt i) a = Ok (decoded_text lt i).
Proof.
  assert (∀ j, round_trip_valid lt j →
            is_word (encode lt j) ∧
            SMD.disassemble_instruction (encode lt j) a = Ok (decoded_text lt j)) as Hvalid
    by (intros j Hj; split; [by apply encode_word | by apply encode_decodes]).
  assert (∀ address bits j, 0 ≤ address < 2 ^ bits →
            round_trip_valid {[ "L" := address ]} j →
            is_word (encode {[ "L" := address ]} j) ∧
            SMD.disassemble_instruction (encode {[ "L" := address ]} j) a
              = Ok (decoded_text {[ "L" := address ]} j)) as Hone
    by (intros address bits j _ Hj; split; [by apply encode_word | by apply encode_decodes]).
  destruct i; intros Hv;
    try (lazymatch goal with
         | |- is_word (encode lt ?j) ∧ _ => exact (Hvalid j Hv)
         end);
    cbn [within_fields] in Hv.
  - destruct Hv as (address & Hl & Hb).
    pose proof (Hone address 26 (Jump "L") Hb (one_label_target address 26 Hb)) as H.
    cbn [encode decoded_text render] in H |- *. unfold target_field in H |- *.
    rewrite lookup_singleton_eq in H. by rewrite Hl.
  - destruct Hv as (Hrs & address & Hl & Hb).
    pose proof (Hone address 21 (ForLoop rs "L") Hb
                  (conj Hrs (one_label_target address 21 Hb))) as H.
    cbn [encode decoded_text render] in H |- *. unfold target_field in H |- *.
    rewrite lookup_singleton_eq in H. by rewrite Hl.
  - destruct Hv as (Hrs & Hrt & address & Hl & Hb).
    pose proof (Hone address 16 (Branch op rs rt "L") Hb
                  (conj Hrs (conj Hrt (one_label_target address 16 Hb)))) as H.
    cbn [encode decoded_text render] in H |- *. unfold target_field in H |- *.
    rewrite lookup_singleton_eq in H. by rewrite Hl.
  - destruct Hv as ((address & Hl & Hb) & Hrd).
    pose proof (Hone address 21 (LoadAddr "L" rd) Hb
                  (conj (one_label_target address 21 Hb) Hrd)) as H.
    cbn [encode decoded_text render] in H |- *. unfold target_field in H |- *.
    rewrite lookup_singleton_eq in H. by rewrite Hl.
Qed.

(** The canonical operand texts are read as the operands. *)
Lemma reads_parsed lt text i : encodable lt i → reads_as text i → parsed_as text i.
Proof.
  intros Hv (m & ps & Hs & Hm & Hops). exists m, ps. split; [exact Hs |].
  split; [exact Hm |].
  assert (∀ r, Py.remove_char "," (reg_name r) = reg_name r) as Hreg.
  { intros r. unfold reg_name. apply remove_char_absent. rewrite all_chars_app.
    apply andb_true_iff. split; [done |].
    apply all_chars_impl with (2 := str_chars r). intros c. ascii_cases c. }
  assert (∀ bits v, 0 < bits ≤ 26 → fits_field bits v →
            Py.int 10 (Py.remove_char "," (Py.str v)) = Some v) as Himm.
  { intros bits v Hb [Hlo Hhi]. rewrite remove_comma_str. apply int_str.
    assert (2 ^ (bits - 1) ≤ 2 ^ bits) by (apply Z.pow_le_mono_r; lia).
    apply (field_value_converts bits); [unfold widest_field |]; lia. }
  assert (∀ bits off r, 0 < bits ≤ 26 → fits_field bits off → is_register r →
            SMA.parse_memory_address (mem_operand off r) = Ok (off, reg_name r)) as Hmem.
  { intros bits off r Hb [Hlo Hhi] Hr. apply parse_memory_operand; [done |].
    assert (2 ^ (bits - 1) ≤ 2 ^ bits) by (apply Z.pow_le_mono_r; lia).
    apply (field_value_converts bits); [unfold widest_field |]; lia. }
  destruct i; cbn [encodable operand_texts operands] in Hv, Hops |- *; [.. | done | done];
    destruct Hops as (rest & -> & Hops); cbn [hd]; rewrite Hops;
    repeat match goal with H : _ ∧ _ |- _ => destruct H end;
    repeat (constructor;
            [cbn [operand_read];
             first [ reflexivity | apply Hreg
                   | eapply Himm; [| eassumption]; lia
                   | eapply Hmem; [| eassumption | assumption]; lia ] |]);
    constructor.
Qed.

(** C1, amended: every line that [assemble_line] accepts is parsed as
    one instruction, its operands as the operand parsers read them (so
    the zero-offset shorthand, a sign or leading zeros of a number, any
    letter case and spacing are covered), and is assembled to the word
    of that instruction.  When the instruction is outside the
    register-immediate arithmetic group, its registers are %r0 to %r31,
    its signed offsets and immediates are within the two's complement
    range of their field and its label operand is bound to an address
    that fits its field, that word has 32 characters and the
    disassembler renders it as the same instruction in its canonical
    text, label operands as their addresses.  The canonical text of an
    instruction is itself parsed as that instruction. *)
Theorem round_trip_within_fields :
  ∀ (label_table : gmap string Z) (text : string) (current_address address : Z),
    (∀ word, SMA.assemble_line text label_table current_address = Ok (Some word) →
       ∃ i, parsed_as text i ∧ encodable label_table i ∧ word = encode label_table i) ∧
    (∀ i i', parsed_as text i → parsed_as text i' → i = i') ∧
    (∀ i, parsed_as text i → within_fields label_table i →
       SMA.assemble_line text label_table current_address
         = Ok (Some (encode label_table i)) ∧
       Py.len (encode label_table i) = 32 ∧
       SMD.disassemble_instruction (encode label_table i) address
         = Ok (decoded_text label_table i)) ∧
    (∀ i, round_trip_valid label_table i →
       within_fields label_table i ∧ parsed_as (source_text i) i).
Proof.
  intros lt text ca a. split_and!.
  - intros word. apply parsed_inv.
  - apply parsed_unique.
  - intros i Hp Hv.
    destruct (encode_decodes_within lt i a Hv) as ([_ Hlen] & Hd).
    split; [by apply parsed_encode, within_encodable |].
    split; [unfold Py.len; by rewrite Hlen | exact Hd].
  - intros i Hv. split; [by apply valid_within |].
    apply (reads_parsed lt); [by apply valid_encodable | by apply (canonical_text_read lt)].
Qed.

Lemma round_trip_within_fields_witness :
  SMA.assemble_line "ldwd (%r1), %r2" ∅ 0 = Ok (Some (encode ∅ (LoadWord 0 1 2))) ∧
  Py.len (encode ∅ (LoadWord 0 1 2)) = 32 ∧
  SMD.disassemble_instruction (encode ∅ (LoadWord 0 1 2)) 0
    = Ok (decoded_text ∅ (LoadWord 0 1 2)).
Proof.
  apply (proj1 (proj2 (proj2 (round_trip_within_fields ∅ "ldwd (%r1), %r2" 0 0)))
           (LoadWord 0 1 2)).
  - exists "ldwd", ["(%r1), %r2"]. split; [reflexivity |]. split; [reflexivity |].
    cbn [operands]. constructor; [reflexivity |]. constructor; [reflexivity |]. constructor.
  - cbn [within_fields]. unfold fits_signed, is_register. lia.
Defined.

(** Lines that are not in canonical text: the zero-offset shorthand, a
    signed number with an underscore, text after the parenthesis. *)
Example loose_lines_parsed :
  parsed_as "ldwd (%r1), %r2" (LoadWord 0 1 2) ∧
  parsed_as "ldim +1_000, %r1" (LoadImm 1000 1) ∧
  parsed_as "  SRWD %r7 ,-004(%r30)+x" (StoreWord 7 (-4) 30) ∧
  decoded_text ∅ (LoadWord 0 1 2) = "ldwd 0(%r1), %r2" ∧
  decoded_text ∅ (LoadImm 1000 1) = "ldim 1000, %r1" ∧
  decoded_text ∅ (StoreWord 7 (-4) 30) = "srwd %r7, -4(%r30)".
Proof.
  split_and!; try reflexivity.
  - exists "ldwd", ["(%r1), %r2"]. split; [reflexivity |]. split; [reflexivity |].
    cbn [operands]. constructor; [reflexivity |]. constructor; [reflexivity |]. constructor.
  - exists "ldim", ["+1_000, %r1"]. split; [reflexivity |]. split; [reflexivity |].
    cbn [operands]. constructor; [reflexivity |]. constructor; [reflexivity |]. constructor.
  - exists "SRWD", ["%r7 ,-004(%r30)+x"]. split; [reflexivity |]. split; [reflexivity |].
    cbn [operands]. constructor; [reflexivity |]. constructor; [reflexivity |]. constructor.
Qed.

(** ** Forward references *)






(** The two references of the example above, before and after the label,
    are the instruction whose word holds the address 2 of the label. *)
Example forward_reference_words :
  parsed_as "jmp done" (Jump "done") ∧
  count_instr (take 2 ["jmp done"; "pint %r1"; "done:"; "jmp done"; "end"]) = 2 ∧
  encode {[ "done" := 2 ]} (Jump "done") = "00100000000000000000000000000010".
Proof.
  split; [| split; by vm_compute].
  exists "jmp", ["done"]. split; [reflexivity |]. split; [reflexivity |].
  cbn [operands]. constructor; [reflexivity |]. constructor.
Qed.
